(** * usb-u2: a shallow embedding of [usb-u2.c]

    The firmware talks to the USB controller of the atmega{8,16,32}u2 through
    memory-mapped registers.  Every access to such a register is a volatile
    access: the embedding records it in an I/O history, and the value a read
    returns is whatever the controller (and, behind it, the USB host) shows
    at that moment, given as a function of the history so far.  Busy waits on
    a hardware flag are unbounded in the C code; they are given a budget of
    polls here, and a run that uses it up ends in [Spin], with the machine as
    it is at that point.

    Contents: integer widths, registers and the I/O history; the types and
    constants of usb-u2.h, which are parameters; the machine (the statics of
    usb-u2.c, RAM, the history); readings of the history (FIFO bytes, IN
    packets); environments to run the firmware in; the firmware
    (usb_u2_init, the reset interrupt, usb_u2_control_in, usb_u2_control_out,
    usb_u2_configure_endpoint, handle_ctrl, usb_u2_task); its properties; and
    the properties at concrete inputs.  The reset interrupt is a function of
    its own; the run of another function is not interleaved with it. *)

From Stdlib Require Import ZArith List Bool Lia.
Import ListNotations.
Local Open Scope Z_scope.

(** ** Integer widths *)

Definition u8 (x : Z) : Z := x mod 256.
Definition u16 (x : Z) : Z := x mod 65536.

(** ** Registers and bit positions (avr/io.h, ATmega16U2 data sheet) *)

Inductive reg : Set :=
| REGCR | UDIEN | UDINT | USBCON | PLLCSR | UDCON | UDADDR
| UENUM | UECONX | UECFG0X | UECFG1X | UEINTX | UEDATX | UEBCLX | UERST.

Definition reg_eqb (a b : reg) : bool :=
  match a, b with
  | REGCR, REGCR | UDIEN, UDIEN | UDINT, UDINT | USBCON, USBCON
  | PLLCSR, PLLCSR | UDCON, UDCON | UDADDR, UDADDR | UENUM, UENUM
  | UECONX, UECONX | UECFG0X, UECFG0X | UECFG1X, UECFG1X
  | UEINTX, UEINTX | UEDATX, UEDATX | UEBCLX, UEBCLX | UERST, UERST => true
  | _, _ => false
  end.

(* UEINTX *)
Definition TXINI : Z := 0.
Definition RXOUTI : Z := 2.
Definition RXSTPI : Z := 3.
Definition NAKOUTI : Z := 4.
Definition NAKINI : Z := 6.
Definition RWAL : Z := 5.
Definition FIFOCON : Z := 7.
(* UECONX *)
Definition EPEN : Z := 0.
Definition STALLRQ : Z := 5.
(* UECFG0X, UECFG1X *)
Definition EPDIR : Z := 0.
Definition EPTYPE0 : Z := 6.
Definition ALLOC : Z := 1.
Definition EPSIZE0 : Z := 4.
(* UERST *)
Definition EPRST0 : Z := 0.
Definition EPRST1 : Z := 1.
Definition EPRST2 : Z := 2.
Definition EPRST3 : Z := 3.
Definition EPRST4 : Z := 4.
(* UDADDR, UDINT, UDIEN, UDCON, USBCON, PLLCSR *)
Definition ADDEN : Z := 7.
Definition EORSTI : Z := 3.
Definition EORSTE : Z := 3.
Definition DETACH : Z := 0.
Definition USBE : Z := 7.
Definition FRZCLK : Z := 5.
Definition PLOCK : Z := 0.
Definition PLLE : Z := 1.
Definition PLLP0 : Z := 2.

(** [1 << n] *)
Definition bit (n : Z) : Z := Z.shiftl 1 n.

(** ** I/O history *)

Inductive event : Set :=
| Rd (r : reg) (v : Z)
| Wr (r : reg) (v : Z).

(** ** Types of usb-u2.h *)

(** Modelled from the spec: the header usb-u2.h is not part of the sources;
    the device state is the enumeration {Default, Address, Configured}. *)
Inductive usb_u2_state_t : Set :=
| USB_U2_STATE_DEFAULT
| USB_U2_STATE_ADDRESS
| USB_U2_STATE_CONFIGURED.

Definition state_eqb (a b : usb_u2_state_t) : bool :=
  match a, b with
  | USB_U2_STATE_DEFAULT, USB_U2_STATE_DEFAULT
  | USB_U2_STATE_ADDRESS, USB_U2_STATE_ADDRESS
  | USB_U2_STATE_CONFIGURED, USB_U2_STATE_CONFIGURED => true
  | _, _ => false
  end.

(** Modelled from the spec: the setup packet is a fixed 8-byte structure: the
    request-type bitfield, the request code, a 16-bit value, a 16-bit index
    and a 16-bit length, in this order, 16-bit fields low byte first. *)
Record usb_u2_control_request_t : Set := mkReq {
  bmRequestType : Z;
  bRequest : Z;
  wValue : Z;
  wIndex : Z;
  wLength : Z
}.

Definition sizeof_control_request : Z := 8.

Definition request_of_bytes (bs : list Z) : usb_u2_control_request_t :=
  let b i := nth i bs 0 in
  mkReq (b 0%nat) (b 1%nat)
        (b 2%nat + 256 * b 3%nat)
        (b 4%nat + 256 * b 5%nat)
        (b 6%nat + 256 * b 7%nat).

(** The constants and structure layouts of usb-u2.h, which the sources use
    but do not contain: they are parameters of the embedding. *)
Record usb_u2_h : Set := mkHeader {
  USB_U2_REQ_TYPE_MASK : Z;
  USB_U2_REQ_TYPE_STANDARD : Z;
  USB_U2_REQ_TYPE_VENDOR : Z;
  USB_U2_REQ_DIR_MASK : Z;
  USB_U2_REQ_DIR_HOST_TO_DEVICE : Z;
  USB_U2_REQ_DIR_DEVICE_TO_HOST : Z;
  USB_U2_REQ_RCPT_MASK : Z;
  USB_U2_REQ_RCPT_DEVICE : Z;
  USB_U2_REQ_RCPT_ENDPOINT : Z;
  USB_U2_REQ_GET_STATUS : Z;
  USB_U2_REQ_CLEAR_FEATURE : Z;
  USB_U2_REQ_SET_FEATURE : Z;
  USB_U2_REQ_SET_ADDRESS : Z;
  USB_U2_REQ_GET_DESCRIPTOR : Z;
  USB_U2_REQ_SET_DESCRIPTOR : Z;
  USB_U2_REQ_GET_CONFIGURATION : Z;
  USB_U2_REQ_SET_CONFIGURATION : Z;
  USB_U2_REQ_GET_INTERFACE : Z;
  USB_U2_REQ_SET_INTERFACE : Z;
  USB_U2_REQ_SYNCH_FRAME : Z;
  USB_U2_DESCR_TYPE_DEVICE : Z;
  USB_U2_DESCR_TYPE_CONFIGURATION : Z;
  USB_U2_DESCR_TYPE_STRING : Z;
  USB_U2_DESCR_STR_IDX_SERIAL_INTERNAL : Z;
  (* offsetof(usb_u2_device_descriptor_t, bMaxPacketSize0) *)
  off_bMaxPacketSize0 : Z;
  (* offsets in usb_u2_endpoint_descriptor_t *)
  off_bEndpointAddress : Z;
  off_bmAttributes : Z;
  off_wMaxPacketSize : Z
}.

(** The values of chapter 9 of the USB 2.0 specification, with 0xff taken
    for the reserved string index of the internal serial number. *)
Definition usb20_h : usb_u2_h :=
  mkHeader 0x60 0x00 0x40
           0x80 0x00 0x80
           0x1f 0x00 0x02
           0 1 3 5 6 7 8 9 10 11 12
           1 2 3
           0xff
           7
           2 3 4.

(** Addresses the linker chooses: the RAM array [internal_serial], the stack
    slot of the local [status] of [handle_ctrl], and the flash object
    [default_enus_lang]. *)
Record layout : Set := mkLayout {
  internal_serial : Z;
  status_slot : Z;
  default_enus_lang : Z
}.

Definition NULL : Z := 0.

(** ** The machine: the statics of usb-u2.c, RAM, and the I/O history *)

Record machine : Type := mkMachine {
  config : Z;
  epmax : Z;
  ep0size : Z;
  state : usb_u2_state_t;
  req : usb_u2_control_request_t;
  ram : Z -> Z;
  trace : list event
}.

Definition set_config (v : Z) (m : machine) : machine :=
  mkMachine v (epmax m) (ep0size m) (state m) (req m) (ram m) (trace m).
Definition set_epmax (v : Z) (m : machine) : machine :=
  mkMachine (config m) v (ep0size m) (state m) (req m) (ram m) (trace m).
Definition set_ep0size (v : Z) (m : machine) : machine :=
  mkMachine (config m) (epmax m) v (state m) (req m) (ram m) (trace m).
Definition set_state (v : usb_u2_state_t) (m : machine) : machine :=
  mkMachine (config m) (epmax m) (ep0size m) v (req m) (ram m) (trace m).
Definition set_req (v : usb_u2_control_request_t) (m : machine) : machine :=
  mkMachine (config m) (epmax m) (ep0size m) (state m) v (ram m) (trace m).
Definition set_ram (v : Z -> Z) (m : machine) : machine :=
  mkMachine (config m) (epmax m) (ep0size m) (state m) (req m) v (trace m).
Definition log (e : event) (m : machine) : machine :=
  mkMachine (config m) (epmax m) (ep0size m) (state m) (req m) (ram m)
            (trace m ++ [e]).

(** RAM is byte addressed; 16-bit objects are stored low byte first. *)
Definition store8 (a v : Z) (f : Z -> Z) : Z -> Z :=
  fun x => if x =? a then u8 v else f x.
Definition store16 (a v : Z) (f : Z -> Z) : Z -> Z :=
  store8 (a + 1) (Z.shiftr (u16 v) 8) (store8 a v f).

(** The result of running a function of the firmware: it returned, or it is
    still polling a flag when the budget of polls is used up. *)
Inductive outcome : Type :=
| Done (m : machine)
| Spin (m : machine).

Definition bind (o : outcome) (k : machine -> outcome) : outcome :=
  match o with
  | Done m => k m
  | Spin m => Spin m
  end.

Notation "o >>= k" := (bind o k) (at level 50, left associativity).

Definition final (o : outcome) : machine :=
  match o with Done m | Spin m => m end.

(** [extend evs m]: the machine [m] after the I/O [evs], nothing else
    changed. *)
Definition extend (evs : list event) (m : machine) : machine :=
  mkMachine (config m) (epmax m) (ep0size m) (state m) (req m) (ram m)
            (trace m ++ evs).

(** ** Reading the I/O history *)

(** The bytes written to the FIFO data register, in order. *)
Fixpoint fifo_writes (h : list event) : list Z :=
  match h with
  | [] => []
  | Wr UEDATX v :: t => v :: fifo_writes t
  | _ :: t => fifo_writes t
  end.

(** The bytes read from the FIFO data register, in order. *)
Fixpoint fifo_reads (h : list event) : list Z :=
  match h with
  | [] => []
  | Rd UEDATX v :: t => v :: fifo_reads t
  | _ :: t => fifo_reads t
  end.

(** How many times register [r] has been read. *)
Fixpoint count_reads (r : reg) (h : list event) : nat :=
  match h with
  | [] => O
  | Rd r' _ :: t => if reg_eqb r r' then S (count_reads r t) else count_reads r t
  | _ :: t => count_reads r t
  end.

(** Events on the flag register of the selected endpoint. *)
Definition is_ctl (e : event) : bool :=
  match e with
  | Rd UEINTX _ | Wr UEINTX _ => true
  | _ => false
  end.

Definition ctl (evs : list event) : Prop := forallb is_ctl evs = true.

(** [bytes_from src b n]: the [n] bytes that [src] holds from address [b]. *)
Fixpoint bytes_from (src : Z -> Z) (b : Z) (n : nat) : list Z :=
  match n with
  | O => []
  | S n' => src b :: bytes_from src (b + 1) n'
  end.

(** The register an event is on, and I/O that stays on the registers
    [rs]. *)
Definition reg_of (e : event) : reg :=
  match e with Rd r _ | Wr r _ => r end.

Definition only_on (rs : list reg) (evs : list event) : Prop :=
  forallb (fun e => existsb (reg_eqb (reg_of e)) rs) evs = true.

(** A read of register [r]. *)
Definition is_read (r : reg) (e : event) : bool :=
  match e with
  | Rd r' _ => reg_eqb r r'
  | Wr _ _ => false
  end.

(** I/O whose writes all go to register [r]. *)
Definition writes_only (r : reg) (evs : list event) : Prop :=
  forallb (fun e => match e with
                    | Wr r' _ => reg_eqb r r'
                    | Rd _ _ => true
                    end) evs = true.

(** A write that turns address recognition on. *)
Definition enables_address (e : event) : bool :=
  match e with
  | Wr UDADDR v => Z.testbit v ADDEN
  | _ => false
  end.

Definition address_disabled (evs : list event) : Prop :=
  forallb (fun e => negb (enables_address e)) evs = true.

(** The case labels of [switch (req.bRequest)]: a C compiler accepts the
    switch only when they are distinct. *)
Definition request_labels (H : usb_u2_h) : list Z :=
  [USB_U2_REQ_GET_STATUS H; USB_U2_REQ_CLEAR_FEATURE H;
   USB_U2_REQ_SET_FEATURE H; USB_U2_REQ_SET_ADDRESS H;
   USB_U2_REQ_GET_DESCRIPTOR H; USB_U2_REQ_SET_DESCRIPTOR H;
   USB_U2_REQ_GET_CONFIGURATION H; USB_U2_REQ_SET_CONFIGURATION H;
   USB_U2_REQ_GET_INTERFACE H; USB_U2_REQ_SET_INTERFACE H;
   USB_U2_REQ_SYNCH_FRAME H].

(** *** The IN packets of the control endpoint

    The firmware fills the FIFO through UEDATX and hands the bank over to the
    controller, which sends it as one packet, by writing TXINI as zero when
    it has just read it as one.  [in_step] follows the history with the last
    TXINI read, the bytes of the bank being filled and the packets handed
    over so far. *)
Definition in_state : Type := (bool * list Z * list (list Z))%type.

Definition in_step (st : in_state) (e : event) : in_state :=
  let '(rdy, cur, sent) := st in
  match e with
  | Rd UEINTX v => (Z.testbit v TXINI, cur, sent)
  | Wr UEDATX x => (rdy, cur ++ [x], sent)
  | Wr UEINTX w =>
    if rdy && negb (Z.testbit w TXINI) then (false, [], sent ++ [cur])
    else (rdy, cur, sent)
  | _ => st
  end.

Definition in_run (st : in_state) (evs : list event) : in_state :=
  fold_left in_step evs st.

Definition in_packets (evs : list event) : list (list Z) :=
  snd (in_run (false, [], []) evs).

(** A read of the flag register. *)
Definition is_poll (e : event) : bool :=
  match e with
  | Rd UEINTX _ => true
  | _ => false
  end.

(** Anything but a write to the flag register. *)
Definition is_quiet (e : event) : bool :=
  match e with
  | Wr UEINTX _ => false
  | _ => true
  end.

(** The packets of a data stage of [len] bytes from [b]: packets of [p]
    bytes and, when [p] does not divide [len], a last shorter one; [r] bounds
    their number. *)
Fixpoint in_chunks (src : Z -> Z) (p : Z) (r : nat) (b len : Z)
  : list (list Z) :=
  match r with
  | O => []
  | S r' =>
    if 0 <? len then
      bytes_from src b (Z.to_nat (Z.min len p))
      :: in_chunks src p r' (b + Z.min len p) (len - Z.min len p)
    else []
  end.

(** [k] packets of [p] bytes each, taken from [src] at [b]. *)
Fixpoint chunks (src : Z -> Z) (b : Z) (p k : nat) : list (list Z) :=
  match k with
  | O => []
  | S k' => bytes_from src b p :: chunks src (b + Z.of_nat p) p k'
  end.

(** ** The serial number, as the specification words it *)

(** The digits of lowercase hexadecimal, "0123456789abcdef". *)
Definition lowercase_hex : list Z :=
  [48; 49; 50; 51; 52; 53; 54; 55; 56; 57; 97; 98; 99; 100; 101; 102].

(** Two digits for every byte of the identifier, high nibble first. *)
Definition spec_serial_chars (id : list Z) : list Z :=
  flat_map (fun b => [nth (Z.to_nat (b / 16)) lowercase_hex 0;
                      nth (Z.to_nat (b mod 16)) lowercase_hex 0]) id.

(** A string descriptor: length, type, and the characters as 16-bit code
    units, low byte first. *)
Definition spec_string_descriptor (H : usb_u2_h) (chars : list Z) : list Z :=
  [2 + 2 * Z.of_nat (length chars); USB_U2_DESCR_TYPE_STRING H]
  ++ flat_map (fun c => [c; 0]) chars.

(** The case labels of [switch (req.wValue >> 8)]. *)
Definition descriptor_labels (H : usb_u2_h) : list Z :=
  [USB_U2_DESCR_TYPE_DEVICE H; USB_U2_DESCR_TYPE_CONFIGURATION H;
   USB_U2_DESCR_TYPE_STRING H].

(** ** Environments to run the firmware in *)

(** A controller that shows the same value at every read. *)
Definition hw_const (v : Z) : list event -> reg -> Z := fun _ _ => v.

(** A controller whose n-th read of a register returns the n-th value of the
    script for that register, and [dflt] once the script is used up. *)
Definition scripted (script : reg -> list Z) (dflt : Z)
  : list event -> reg -> Z :=
  fun h r => nth (count_reads r h) (script r) dflt.

(** A controller that answers the reads of the FIFO with a setup packet and
    shows every flag of every other register as set. *)
Definition hw_setup (packet : list Z) : list event -> reg -> Z :=
  scripted (fun r => match r with UEDATX => packet | _ => [] end) 0xff.

(** A controller whose bank is always free (TXINI), with a setup packet
    pending (RXSTPI), behind a host that starts the status stage (NAKOUTI)
    when it has received [need] packets. *)
Definition hw_polite (need : nat) : list event -> reg -> Z :=
  fun h _ => if (need <=? length (in_packets h))%nat then 0xff else 0xef.

(** The same host, asking for the internal serial number: the FIFO holds
    [packet], and the host takes [need] packets before the status stage. *)
Definition hw_asking (packet : list Z) (need : nat) : list event -> reg -> Z :=
  fun h r =>
    match r with
    | UEDATX => nth (count_reads UEDATX h) packet 0xff
    | _ => hw_polite need h r
    end.

(** Flash with [bytes] at [base] and zero elsewhere. *)
Definition image (base : Z) (bytes : list Z) : Z -> Z :=
  fun a =>
    if (base <=? a) && (a <? base + Z.of_nat (length bytes))
    then nth (Z.to_nat (a - base)) bytes 0
    else 0.

(** A device descriptor with [bMaxPacketSize0 = 8] at 0x200, the descriptor
    of endpoint 1 (IN, interrupt, 8 bytes) at 0x212 and of endpoint 2 (OUT,
    bulk, 64 bytes) at 0x219. *)
Definition flash0 : Z -> Z :=
  image 0x200
    ([18; 1; 0x00; 0x02; 0; 0; 0; 8; 0xc0; 0x16; 0xdc; 0x05; 0; 1; 1; 2; 3; 1]
     ++ [7; 5; 0x81; 3; 8; 0; 10]
     ++ [7; 5; 0x02; 2; 64; 0; 0]).

(** A signature row: 0x11 at 0x0e, 0x22 at 0x0f, and so on. *)
Definition signature0 : Z -> Z := fun a => 17 * (a - 13).

(** The same row but for the two bytes behind the identifier. *)
Definition signature1 : Z -> Z :=
  fun a => if (a =? 0x18) || (a =? 0x19) then 0x5a else signature0 a.

(** SET_CONFIGURATION with wValue = 2, SET_ADDRESS with wValue = 5, and
    GET_DESCRIPTOR for the string with the reserved index 0xff, language
    0x0409, wLength = 255. *)
Definition set_configuration_2 : list Z := [0x00; 0x09; 0x02; 0x00; 0; 0; 0; 0].
Definition set_address_5 : list Z := [0x00; 0x05; 0x05; 0x00; 0; 0; 0; 0].
Definition get_serial : list Z := [0x80; 0x06; 0xff; 0x03; 0x09; 0x04; 0xff; 0x00].

(** More setup packets: a class request (SET_IDLE of the HID class),
    GET_CONFIGURATION, SET_CONFIGURATION(1), GET_STATUS for the device and
    for endpoint 1, and GET_DESCRIPTOR for the device descriptor, for string
    0 and for a descriptor type the firmware does not know. *)
Definition set_idle : list Z := [0x21; 0x0a; 0; 0; 0; 0; 0; 0].
Definition get_configuration : list Z := [0x80; 0x08; 0; 0; 0; 0; 1; 0].
Definition set_configuration_1 : list Z := [0x00; 0x09; 0x01; 0x00; 0; 0; 0; 0].
Definition get_status_device : list Z := [0x80; 0x00; 0; 0; 0; 0; 2; 0].
Definition get_status_endpoint_1 : list Z := [0x82; 0x00; 0; 0; 1; 0; 2; 0].
Definition get_status_endpoint_9 : list Z := [0x82; 0x00; 0; 0; 9; 0; 2; 0].
Definition get_device_descriptor : list Z :=
  [0x80; 0x06; 0x00; 0x01; 0; 0; 64; 0].
Definition get_language : list Z := [0x80; 0x06; 0x00; 0x03; 0; 0; 0xff; 0].
Definition get_qualifier : list Z := [0x80; 0x06; 0x00; 0x06; 0; 0; 10; 0].

Definition get_config_descriptor : list Z :=
  [0x80; 0x06; 0x00; 0x02; 0; 0; 0xff; 0].

(** Flash with the string descriptor of the languages at 0x80, the
    descriptors of [flash0] from 0x200, and a configuration descriptor of 25
    bytes (one interface, one endpoint) at 0x240. *)
Definition flash1 : Z -> Z :=
  fun a =>
    if a <? 0x100 then image 0x80 [4; 3; 0x09; 0x04] a
    else if a <? 0x240 then flash0 a
    else image 0x240
           [9; 2; 25; 0; 1; 1; 0; 0x80; 50;
            9; 4; 0; 0; 1; 3; 0; 0; 0;
            7; 5; 0x81; 3; 8; 0; 10] a.

(** Endpoint callbacks of an application: the byte to send for endpoint [i]
    is kept in RAM at 0x300 + i, and the last byte received for it goes to
    0x310 + i. *)
Definition in_cb0 : Z -> bool -> machine -> Z * machine :=
  fun i _ m => (ram m (0x300 + i), m).
Definition out_cb0 : Z -> Z -> bool -> machine -> machine :=
  fun i v _ m => set_ram (store8 (0x310 + i) v (ram m)) m.

Definition hw_in_bank : list event -> reg -> Z :=
  scripted (fun r => match r with
                     | UECFG0X => [1]
                     | UECFG1X => [2]
                     | _ => []
                     end) 0xff.

(** A controller and host that enumerate the device: a bus reset, then
    SET_ADDRESS(5), which the firmware serves (RXSTPI and TXINI set, then
    TXINI alone), then SET_CONFIGURATION(2). *)
Definition hw_enumeration : list event -> reg -> Z :=
  scripted (fun r => match r with
                     | UDINT => [8; 8]
                     | UEDATX => set_address_5 ++ set_configuration_2
                     | UEINTX => [9; 9; 1; 1; 1; 1; 9; 9]
                     | UDADDR => [5]
                     | UECONX => [0; 1]
                     | _ => []
                     end) 0.

(** Machines: after SET_ADDRESS; configured with two endpoints; and with a
    GET_DESCRIPTOR request of wLength 64 read, ep0size 8. *)
Definition addressed : machine :=
  mkMachine 0 0 8 USB_U2_STATE_ADDRESS (mkReq 0 0 0 0 0) (fun _ => 0) [].
Definition configured2 : machine :=
  mkMachine 1 2 8 USB_U2_STATE_CONFIGURED (mkReq 0 9 1 0 0) (fun _ => 0) [].
Definition pending : machine :=
  mkMachine 0 0 8 USB_U2_STATE_DEFAULT (mkReq 0x80 6 0x0100 0 64)
            (fun _ => 0) [].

(** Callbacks of an application: configuration descriptors at 0x240 plus
    the configuration value, no string descriptors of its own, no vendor
    requests, no endpoints to configure. *)
Definition cfg0 : Z -> Z := fun c => 0x240 + c.
Definition str0 : Z -> Z -> Z := fun _ _ => NULL.
Definition eps0 : Z -> machine -> outcome := fun _ m => Done m.

(** A decidable check that the elements of a list are distinct. *)
Fixpoint distinct (l : list Z) : bool :=
  match l with
  | [] => true
  | x :: t => negb (existsb (Z.eqb x) t) && distinct t
  end.

Definition layout0 : layout := mkLayout 0x100 0x4f0 0x80.

(** The machine when [main] starts: statics zeroed, [state] and the first
    word of [internal_serial] as their initializers say. *)
Definition boot (H : usb_u2_h) (L : layout) : machine :=
  mkMachine 0 0 0 USB_U2_STATE_DEFAULT (mkReq 0 0 0 0 0)
            (store16 (internal_serial L)
                     (Z.lor (Z.shiftl (USB_U2_DESCR_TYPE_STRING H) 8) 42)
                     (fun _ => 0))
            [].

(** ** The firmware *)

Section Firmware.

(** What a volatile read of a register returns after a given history. *)
Variable hw : list event -> reg -> Z.
(** Program memory (flash), byte addressed. *)
Variable pgm : Z -> Z.
(** The signature row, read by avr/boot.h's boot_signature_byte_get. *)
Variable boot_signature_byte_get : Z -> Z.
(** The build-time clock frequency: 8000000 or 16000000, anything else is
    refused by the preprocessor. *)
Variable F_CPU : Z.
Variable H : usb_u2_h.
Variable L : layout.
(** The callbacks of the application. *)
Variable usb_u2_device_descriptor_cb : Z.
Variable usb_u2_config_descriptor_cb : Z -> Z.
Variable usb_u2_string_descriptor_cb : Z -> Z -> Z.
Variable usb_u2_control_vendor_cb :
  option (usb_u2_control_request_t -> machine -> outcome).
Variable usb_u2_configure_endpoints_cb : Z -> machine -> outcome.

Definition sample (h : list event) (r : reg) : Z := u8 (hw h r).

Definition read (r : reg) (m : machine) : Z * machine :=
  let v := sample (trace m) r in (v, log (Rd r v) m).

Definition write (r : reg) (v : Z) (m : machine) : machine :=
  log (Wr r (u8 v)) m.

Definition pgm_read_byte_near (a : Z) : Z := u8 (pgm a).
Definition pgm_read_word_near (a : Z) : Z := u8 (pgm a) + 256 * u8 (pgm (a + 1)).

(** [(R & (1 << b)) == 0] *)
Definition flag_clear (r : reg) (b : Z) (m : machine) : bool * machine :=
  let (v, m') := read r m in (Z.land v (bit b) =? 0, m').

(** [c1 && c2], the second operand evaluated only when the first holds *)
Definition cand (c1 c2 : machine -> bool * machine) (m : machine)
  : bool * machine :=
  let (b1, m1) := c1 m in if b1 then c2 m1 else (false, m1).

(** [R &= ~mask] and [R |= mask] *)
Definition and_not (r : reg) (mask : Z) (m : machine) : machine :=
  let (v, m') := read r m in write r (Z.land v (Z.lnot mask)) m'.
Definition or_into (r : reg) (mask : Z) (m : machine) : machine :=
  let (v, m') := read r m in write r (Z.lor v mask) m'.

(** [while (cond);] with a budget of polls *)
Fixpoint busy_wait (cond : machine -> bool * machine) (fuel : nat)
  (m : machine) : outcome :=
  match fuel with
  | O => Spin m
  | S f => let (c, m') := cond m in
           if c then busy_wait cond f m' else Done m'
  end.

(** *** usb_u2_init *)

Definition hex_digit (n : Z) : Z :=
  if 9 <? n then n - 10 + 97 (* 'a' *) else n + 48 (* '0' *).

(** [for (uint8_t i = 1, a = 0x0e; a < 0x18; a++)] *)
Fixpoint serial_loop (n : nat) (i a : Z) (m : machine) : machine :=
  match n with
  | O => m
  | S n' =>
    if a <? 0x18 then
      let b := u8 (boot_signature_byte_get a) in
      let m1 := set_ram (store16 (internal_serial L + 2 * i)
                                 (hex_digit (Z.shiftr b 4)) (ram m)) m in
      let i1 := u8 (i + 1) in
      let m2 := set_ram (store16 (internal_serial L + 2 * i1)
                                 (hex_digit (Z.land b 0xf)) (ram m1)) m1 in
      serial_loop n' (u8 (i1 + 1)) (u8 (a + 1)) m2
    else m
  end.

(** The serial number is written first ... *)
Definition load_serial (m : machine) : machine := serial_loop 256 1 0x0e m.

(** ... then the controller is switched on. *)
Definition enable_controller (fuel : nat) (m : machine) : outcome :=
  let m := write REGCR 0 m in
  let m := write UDIEN 0 m in
  let m := write UDINT 0 m in
  let m := write USBCON (Z.lor (bit USBE) (bit FRZCLK)) m in
  let m := write USBCON (bit USBE) m in
  let m := write PLLCSR (if F_CPU =? 8000000 then 0 else bit PLLP0) m in
  let m := or_into PLLCSR (bit PLLE) m in
  busy_wait (flag_clear PLLCSR PLOCK) fuel m >>= fun m =>
  let m := write UDIEN (bit EORSTE) m in
  Done (and_not UDCON (bit DETACH) m).

Definition usb_u2_init (fuel : nat) (m : machine) : outcome :=
  if negb (state_eqb (state m) USB_U2_STATE_DEFAULT) then Done m else
  enable_controller fuel (load_serial m).

(** *** ISR(USB_GEN_vect) *)

Definition size_class (s : Z) : Z :=
  if s <=? 8 then 0 else if s <=? 16 then 1 else if s <=? 32 then 2 else 3.

Definition USB_GEN_vect (m : machine) : machine :=
  let (c, m) := flag_clear UDINT EORSTI m in
  if c then m else
  let m := and_not UDINT (bit EORSTI) m in
  let desc := usb_u2_device_descriptor_cb in
  if desc =? NULL then m else
  let m := set_ep0size
             (u8 (pgm_read_word_near (desc + off_bMaxPacketSize0 H))) m in
  let eps := size_class (ep0size m) in
  let m := write UENUM 0 m in
  let m := or_into UECONX (bit EPEN) m in
  let m := write UECFG0X 0 m in
  let m := write UECFG1X (Z.lor (Z.shiftl eps EPSIZE0) (bit ALLOC)) m in
  let m := set_state USB_U2_STATE_DEFAULT m in
  let m := set_config 0 m in
  set_epmax 0 m.

(** *** usb_u2_control_in *)

(** [for (uint8_t cur = 0; len > 0 && cur < ep0size; b++, cur++, len--)].
    [cur] is an 8-bit counter below [ep0size], itself 8 bits wide, so 256
    rounds always reach the exit test. *)
Fixpoint in_fill (from_progmem : bool) (n : nat) (cur b len : Z)
  (m : machine) : Z * Z * machine :=
  match n with
  | O => (b, len, m)
  | S n' =>
    if (0 <? len) && (cur <? ep0size m) then
      in_fill from_progmem n' (u8 (cur + 1)) (b + 1) (len - 1)
        (write UEDATX (if from_progmem then pgm_read_byte_near b
                       else ram m b) m)
    else (b, len, m)
  end.

(** [while (len > 0 && ((UEINTX & (1 << NAKOUTI)) == 0))]: [n] bounds the
    rounds of the loop, [fuel] the polls of the wait inside. *)
Fixpoint in_data (from_progmem : bool) (fuel n : nat) (b len : Z)
  (m : machine) : outcome :=
  match n with
  | O => Spin m
  | S n' =>
    if 0 <? len then
      let (c, m1) := flag_clear UEINTX NAKOUTI m in
      if c then
        busy_wait (cand (flag_clear UEINTX TXINI) (flag_clear UEINTX NAKOUTI))
                  fuel m1 >>= fun m2 =>
        let '(b', len', m3) := in_fill from_progmem 256 0 b len m2 in
        let (c', m4) := flag_clear UEINTX NAKOUTI m3 in
        let m5 := if c' then and_not UEINTX (bit TXINI) m4 else m4 in
        in_data from_progmem fuel n' b' len' m5
      else Done m1
    else Done m
  end.

(** The zero-length packet that closes the data stage. *)
Definition in_zlp (fuel : nat) (with_zlp : bool) (m : machine) : outcome :=
  if with_zlp then
    let (c, m) := flag_clear UEINTX NAKOUTI m in
    if c then
      busy_wait (flag_clear UEINTX TXINI) fuel m >>= fun m =>
      busy_wait (flag_clear UEINTX TXINI) fuel (and_not UEINTX (bit TXINI) m)
    else Done m
  else Done m.

Definition in_status (fuel : nat) (m : machine) : outcome :=
  busy_wait (flag_clear UEINTX NAKOUTI) fuel m >>= fun m =>
  let m := and_not UEINTX (bit NAKOUTI) m in
  let (c, m) := flag_clear UEINTX RXOUTI m in
  Done (if c then m else and_not UEINTX (bit RXOUTI) m).

(** [len % ep0size] with [ep0size == 0] is undefined in C; the embedding
    takes Z.modulo's value there. *)
Definition usb_u2_control_in (fuel : nat) (b len : Z) (from_progmem : bool)
  (m : machine) : outcome :=
  let (c, m) := flag_clear UEINTX RXSTPI m in
  if c then Done m else
  let m := and_not UEINTX (bit RXSTPI) m in
  let with_zlp := (len <? wLength (req m)) && (len mod ep0size m =? 0) in
  let len := if wLength (req m) <? len then wLength (req m) else len in
  in_data from_progmem fuel fuel b len m >>= fun m =>
  in_zlp fuel with_zlp m >>= fun m =>
  in_status fuel m.

(** *** usb_u2_control_out *)

(** [for (uint8_t cur = 0; len > 0 && cur < ep0size; b++, cur++, len--)] *)
Fixpoint out_fill (n : nat) (cur b len : Z) (m : machine)
  : Z * Z * machine :=
  match n with
  | O => (b, len, m)
  | S n' =>
    if (0 <? len) && (cur <? ep0size m) then
      let (v, m1) := read UEDATX m in
      out_fill n' (u8 (cur + 1)) (b + 1) (len - 1)
               (set_ram (store8 b v (ram m1)) m1)
    else (b, len, m)
  end.

(** [while (len > 0 && ((UEINTX & (1 << NAKINI)) == 0))] *)
Fixpoint out_data (fuel n : nat) (b len : Z) (m : machine) : outcome :=
  match n with
  | O => Spin m
  | S n' =>
    if 0 <? len then
      let (c, m1) := flag_clear UEINTX NAKINI m in
      if c then
        busy_wait (cand (flag_clear UEINTX RXOUTI) (flag_clear UEINTX NAKINI))
                  fuel m1 >>= fun m2 =>
        let '(b', len', m3) := out_fill 256 0 b len m2 in
        let (c', m4) := flag_clear UEINTX NAKINI m3 in
        let m5 := if c' then and_not UEINTX (bit RXOUTI) m4 else m4 in
        out_data fuel n' b' len' m5
      else Done m1
    else Done m
  end.

(** The zero-length IN packet of the status stage. *)
Definition out_ack (fuel : nat) (m : machine) : outcome :=
  busy_wait (flag_clear UEINTX TXINI) fuel m >>= fun m =>
  busy_wait (flag_clear UEINTX TXINI) fuel (and_not UEINTX (bit TXINI) m).

Definition out_status (fuel : nat) (with_data : bool) (m : machine)
  : outcome :=
  if with_data then
    busy_wait (flag_clear UEINTX NAKINI) fuel m >>= fun m =>
    let m := and_not UEINTX (bit NAKINI) m in
    let (c, m) := flag_clear UEINTX TXINI m in
    if c then Done m else out_ack fuel m
  else out_ack fuel m.

Definition usb_u2_control_out (fuel : nat) (b len : Z) (m : machine)
  : outcome :=
  let (c, m) := flag_clear UEINTX RXSTPI m in
  if c then Done m else
  let m := and_not UEINTX (bit RXSTPI) m in
  let len := if wLength (req m) <? len then wLength (req m) else len in
  let with_data := 0 <? len in
  out_data fuel fuel b len m >>= fun m =>
  out_status fuel with_data m.

(** *** usb_u2_configure_endpoint *)

Definition usb_u2_configure_endpoint (ep : Z) (m : machine) : machine :=
  if ep =? NULL then m else
  let epaddr := pgm_read_byte_near (ep + off_bEndpointAddress H) in
  let epnum := Z.land epaddr 0xf in
  if negb (epnum =? epmax m + 1) then m else
  let m := set_epmax (u8 (epmax m + 1)) m in
  let eps := u8 (pgm_read_word_near (ep + off_wMaxPacketSize H)) in
  let m := write UENUM epnum m in
  let m := or_into UECONX (bit EPEN) m in
  let m := write UECFG0X
             (Z.lor (Z.shiftl (pgm_read_byte_near (ep + off_bmAttributes H))
                              EPTYPE0)
                    (Z.shiftl (if Z.land epaddr 0x80 =? 0 then 0 else 1)
                              EPDIR)) m in
  let m := write UECFG1X
             (Z.lor (if eps <=? 8 then 0
                     else Z.shiftl (if eps <=? 16 then 1
                                    else if eps <=? 32 then 2 else 3) EPSIZE0)
                    (bit ALLOC)) m in
  let m := write UERST
             (Z.lor (Z.lor (Z.lor (Z.lor (bit EPRST0) (bit EPRST1))
                                  (bit EPRST2)) (bit EPRST3)) (bit EPRST4)) m in
  let m := write UERST 0 m in
  write UENUM 0 m.

(** *** handle_ctrl *)

(** [for (uint8_t i = 0; i < sizeof(usb_u2_control_request_t); i++)
      tmp[i] = UEDATX;] *)
Fixpoint read_setup (n : nat) (i : Z) (bs : list Z) (m : machine)
  : list Z * machine :=
  match n with
  | O => (bs, m)
  | S n' =>
    if i <? sizeof_control_request then
      let (v, m1) := read UEDATX m in
      read_setup n' (u8 (i + 1)) (bs ++ [v]) m1
    else (bs, m)
  end.

Definition read_request (m : machine) : machine :=
  let (bs, m1) := read_setup 256 0 [] m in
  set_req (request_of_bytes bs) m1.

(** The label [_stall]. *)
Definition stall (m : machine) : outcome :=
  let m := write UENUM 0 m in
  let (c, m) := flag_clear UEINTX RXSTPI m in
  if c then Done m
  else Done (and_not UEINTX (bit RXSTPI) (or_into UECONX (bit STALLRQ) m)).

Definition dir_of (rq : usb_u2_control_request_t) : Z :=
  Z.land (bmRequestType rq) (USB_U2_REQ_DIR_MASK H).
Definition rcpt_of (rq : usb_u2_control_request_t) : Z :=
  Z.land (bmRequestType rq) (USB_U2_REQ_RCPT_MASK H).

Definition get_status (fuel : nat) (m : machine) : outcome :=
  let rq := req m in
  if dir_of rq =? USB_U2_REQ_DIR_HOST_TO_DEVICE H then Done m else
  let send (status : Z) (m : machine) :=
    usb_u2_control_in fuel (status_slot L) 2 false
      (set_ram (store16 (status_slot L) status (ram m)) m) in
  if rcpt_of rq =? USB_U2_REQ_RCPT_DEVICE H then send 0 m
  else if rcpt_of rq =? USB_U2_REQ_RCPT_ENDPOINT H then
    let ep := u8 (Z.land (wIndex rq) 0xf) in
    if 5 <=? ep then Done m else
    let m := write UENUM ep m in
    let (c, m) := flag_clear UECONX STALLRQ m in
    let m := write UENUM 0 m in
    send (if c then 0 else 1) m
  else send 0 m.

Definition set_address (fuel : nat) (m : machine) : outcome :=
  let rq := req m in
  if (dir_of rq =? USB_U2_REQ_DIR_DEVICE_TO_HOST H)
     || negb (rcpt_of rq =? USB_U2_REQ_RCPT_DEVICE H)
     || negb (state_eqb (state m) USB_U2_STATE_DEFAULT)
  then Done m else
  let m := write UDADDR (Z.land (wValue rq) 0x7f) m in
  usb_u2_control_out fuel NULL 0 m >>= fun m =>
  let m := or_into UDADDR (bit ADDEN) m in
  Done (set_state USB_U2_STATE_ADDRESS m).

(** The descriptor a GET_DESCRIPTOR request resolves to:
    [(addr, len_offset, from_flash)]. *)
Definition resolve_descriptor (m : machine) : Z * Z * bool :=
  let rq := req m in
  let ty := Z.shiftr (wValue rq) 8 in
  if ty =? USB_U2_DESCR_TYPE_DEVICE H then
    (usb_u2_device_descriptor_cb, 0, true)
  else if ty =? USB_U2_DESCR_TYPE_CONFIGURATION H then
    (usb_u2_config_descriptor_cb (config m), 2, true)
  else if ty =? USB_U2_DESCR_TYPE_STRING H then
    let addr := usb_u2_string_descriptor_cb (wValue rq) (wIndex rq) in
    if addr =? NULL then
      if u8 (wValue rq) =? 0 then (default_enus_lang L, 0, true)
      else if u8 (wValue rq) =? USB_U2_DESCR_STR_IDX_SERIAL_INTERNAL H
      then (internal_serial L, 0, false)
      else (addr, 0, true)
    else (addr, 0, true)
  else (NULL, 0, true).

Definition get_descriptor (fuel : nat) (m : machine) : outcome :=
  let rq := req m in
  if (dir_of rq =? USB_U2_REQ_DIR_HOST_TO_DEVICE H)
     || (rcpt_of rq =? USB_U2_REQ_RCPT_ENDPOINT H)
  then Done m else
  let '(addr, len_offset, from_flash) := resolve_descriptor m in
  if addr =? NULL then Done m else
  usb_u2_control_in fuel addr
    (if from_flash then pgm_read_byte_near (addr + len_offset)
     else ram m (addr + len_offset))
    from_flash m.

Definition set_configuration (fuel : nat) (m : machine) : outcome :=
  let rq := req m in
  if (dir_of rq =? USB_U2_REQ_DIR_DEVICE_TO_HOST H)
     || negb (rcpt_of rq =? USB_U2_REQ_RCPT_DEVICE H)
     || negb (state_eqb (state m) USB_U2_STATE_ADDRESS)
  then Done m else
  let m := set_config (u8 (wValue rq)) m in
  if 1 <? config m then Done m else
  usb_u2_control_out fuel NULL 0 m >>= fun m =>
  usb_u2_configure_endpoints_cb (config m) m >>= fun m =>
  Done (set_state USB_U2_STATE_CONFIGURED m).

(** [switch (req.bRequest)]: the case labels are distinct constants, so the
    first label that matches is the one the switch jumps to. *)
Definition standard_request (fuel : nat) (m : machine) : outcome :=
  let r := bRequest (req m) in
  if r =? USB_U2_REQ_GET_STATUS H then get_status fuel m
  else if (r =? USB_U2_REQ_CLEAR_FEATURE H) || (r =? USB_U2_REQ_SET_FEATURE H)
  then Done m
  else if r =? USB_U2_REQ_SET_ADDRESS H then set_address fuel m
  else if r =? USB_U2_REQ_GET_DESCRIPTOR H then get_descriptor fuel m
  else if (r =? USB_U2_REQ_SET_DESCRIPTOR H)
          || (r =? USB_U2_REQ_GET_CONFIGURATION H)
  then Done m
  else if r =? USB_U2_REQ_SET_CONFIGURATION H then set_configuration fuel m
  else Done m.

Definition handle_ctrl (fuel : nat) (m : machine) : outcome :=
  let m := write UENUM 0 m in
  let m := read_request m in
  let ty := Z.land (bmRequestType (req m)) (USB_U2_REQ_TYPE_MASK H) in
  if ty =? USB_U2_REQ_TYPE_STANDARD H then
    standard_request fuel m >>= stall
  else if ty =? USB_U2_REQ_TYPE_VENDOR H then
    match usb_u2_control_vendor_cb with
    | Some cb => cb (req m) m >>= stall
    | None => stall m
    end
  else stall m.

(** *** usb_u2_task *)

Section Task.

(** The callbacks that feed and drain the endpoints,
    [uint8_t usb_u2_endpoint_in_cb(uint8_t ep, bool first)] and
    [void usb_u2_endpoint_out_cb(uint8_t ep, uint8_t b, bool first)]: they
    run on the machine and are taken to return. *)
Variable usb_u2_endpoint_in_cb : Z -> bool -> machine -> Z * machine.
Variable usb_u2_endpoint_out_cb : Z -> Z -> bool -> machine -> machine.

(** [uint8_t len = (1 << (UECFG1X & (3 << EPSIZE0)))], for the value [v]
    read from UECFG1X.  The shift count is 0, 16, 32 or 48; [int] has 16 bits
    on the AVR, so the shift is defined in C for the count 0 only, where [len]
    is 1.  For the other counts the embedding takes the value of the shift on
    unbounded integers, cut to 8 bits, which is 0. *)
Definition task_in_len (v : Z) : Z :=
  u8 (Z.shiftl 1 (Z.land v (Z.shiftl 3 EPSIZE0))).

(** [for (uint8_t j = 0; j < len && (UEINTX & (1 << RWAL)) != 0; j++)
      UEDATX = usb_u2_endpoint_in_cb(i, j == 0);]
    [j] stays below [len], an 8-bit value: 256 rounds reach the exit test. *)
Fixpoint task_in_loop (n : nat) (i j len : Z) (m : machine) : machine :=
  match n with
  | O => m
  | S n' =>
    if j <? len then
      let (c, m1) := flag_clear UEINTX RWAL m in
      if c then m1 else
      let (val, m2) := usb_u2_endpoint_in_cb i (j =? 0) m1 in
      task_in_loop n' i (u8 (j + 1)) len (write UEDATX val m2)
    else m
  end.

(** [for (uint8_t j = 0; j < len && (UEINTX & (1 << RWAL)) != 0; j++)
      usb_u2_endpoint_out_cb(i, UEDATX, j == 0);] *)
Fixpoint task_out_loop (n : nat) (i j len : Z) (m : machine) : machine :=
  match n with
  | O => m
  | S n' =>
    if j <? len then
      let (c, m1) := flag_clear UEINTX RWAL m in
      if c then m1 else
      let (val, m2) := read UEDATX m1 in
      task_out_loop n' i (u8 (j + 1)) len
                    (usb_u2_endpoint_out_cb i val (j =? 0) m2)
    else m
  end.

(** The body of the loop over the endpoints, for endpoint [i]. *)
Definition serve_endpoint (i : Z) (m : machine) : machine :=
  let m := write UENUM i m in
  let (out, m) := flag_clear UECFG0X EPDIR m in
  if out then
    let (c, m) := flag_clear UEINTX RXOUTI m in
    if c then m else
    let (len, m) := read UEBCLX m in
    let m := task_out_loop 256 i 0 len m in
    and_not UEINTX (Z.lor (bit RXOUTI) (bit FIFOCON)) m
  else
    let (c, m) := flag_clear UEINTX TXINI m in
    if c then m else
    let (v, m) := read UECFG1X m in
    let m := task_in_loop 256 i 0 (task_in_len v) m in
    and_not UEINTX (Z.lor (bit TXINI) (bit FIFOCON)) m.

(** [for (uint8_t i = 1; i <= epmax; i++)]: [epmax] is read at every round,
    and with [epmax = 255] the 8-bit [i] never leaves the loop; [n] bounds the
    rounds. *)
Fixpoint task_endpoints (n : nat) (i : Z) (m : machine) : outcome :=
  match n with
  | O => Spin m
  | S n' =>
    if i <=? epmax m then task_endpoints n' (u8 (i + 1)) (serve_endpoint i m)
    else Done m
  end.

Definition usb_u2_task (fuel : nat) (m : machine) : outcome :=
  let m := write UENUM 0 m in
  let (c, m) := flag_clear UEINTX RXSTPI m in
  (if c then Done m else handle_ctrl fuel m) >>= fun m =>
  task_endpoints fuel 1 m >>= fun m =>
  Done (write UENUM 0 m).

(** What the properties of the poll loop are stated with.  A callback is
    blind to the I/O history when running it after some I/O gives what
    running it before gives (it does no I/O of its own and does not look at
    the history); it keeps [epmax] when it configures no endpoint. *)
Definition in_cb_blind : Prop :=
  forall i first evs m,
    usb_u2_endpoint_in_cb i first (extend evs m)
    = (fst (usb_u2_endpoint_in_cb i first m),
       extend evs (snd (usb_u2_endpoint_in_cb i first m))).


Definition callbacks_keep_epmax : Prop :=
  (forall i first m, epmax (snd (usb_u2_endpoint_in_cb i first m)) = epmax m)
  /\ (forall i v first m, epmax (usb_u2_endpoint_out_cb i v first m) = epmax m).


End Task.

(** ** Notions the properties are stated with *)

(** A loop condition that only polls the flag register. *)
Definition polling (cond : machine -> bool * machine) : Prop :=
  forall m, exists evs, snd (cond m) = extend evs m /\ ctl evs.

(** The byte the loop of usb_u2_control_in puts into the FIFO for address
    [a]. *)
Definition source (from_progmem : bool) (m : machine) (a : Z) : Z :=
  u8 (if from_progmem then pgm_read_byte_near a else ram m a).

(** What a data stage sends: some first bytes of the source, no more than
    [len] of them, and nothing is taken out of the FIFO. *)
Definition in_sent (src : Z -> Z) (b len : Z) (evs : list event) : Prop :=
  exists j : nat,
    fifo_writes evs = bytes_from src b j /\ Z.of_nat j <= len /\
    fifo_reads evs = [].

(** What a data stage takes out of the FIFO: no more than [len] bytes, and
    nothing is put in. *)
Definition out_got (len : Z) (evs : list event) : Prop :=
  Z.of_nat (length (fifo_reads evs)) <= len /\ fifo_writes evs = [].

(** Everything but the request, the state and the history. *)
Definition same_rest (m m' : machine) : Prop :=
  config m' = config m /\ epmax m' = epmax m /\ ep0size m' = ep0size m /\
  ram m' = ram m.

(** The word [internal_serial[w]] after the loop of usb_u2_init, and the byte
    at offset [k] of the array. *)
Definition serial_char (w : Z) : Z :=
  let b := u8 (boot_signature_byte_get (0x0e + (w - 1) / 2)) in
  hex_digit (if (w - 1) mod 2 =? 0 then Z.shiftr b 4 else Z.land b 0xf).

Definition serial_byte (k : Z) : Z :=
  if k mod 2 =? 0 then serial_char (k / 2) else 0.

(** The identifier usb_u2_init reads: the ten bytes of the signature row
    from address 0x0e on. *)
Definition identifier : list Z :=
  bytes_from (fun a => u8 (boot_signature_byte_get a)) 0x0e 10.

(** The next [n] bytes the FIFO data register gives after the history
    [h]. *)
Fixpoint fifo_take (n : nat) (h : list event) : list Z :=
  match n with
  | O => []
  | S n' =>
    let v := sample h UEDATX in v :: fifo_take n' (h ++ [Rd UEDATX v])
  end.

(** The I/O of the label [_stall] after the history [h]: the stall handshake
    is requested only when the setup flag still shows. *)
Definition stall_events (h : list event) : list event :=
  let v := sample (h ++ [Wr UENUM 0]) UEINTX in
  if Z.testbit v RXSTPI then
    let h1 := h ++ [Wr UENUM 0; Rd UEINTX v] in
    let c := sample h1 UECONX in
    let h2 := h1 ++ [Rd UECONX c; Wr UECONX (u8 (Z.lor c (bit STALLRQ)))] in
    let v' := sample h2 UEINTX in
    [Wr UENUM 0; Rd UEINTX v; Rd UECONX c;
     Wr UECONX (u8 (Z.lor c (bit STALLRQ)));
     Rd UEINTX v'; Wr UEINTX (u8 (Z.land v' (Z.lnot (bit RXSTPI))))]
  else [Wr UENUM 0; Rd UEINTX v].

(** While the firmware only reads PLLCSR, the PLL shows its lock after
    finitely many reads. *)
Definition pll_locks (h : list event) : Prop :=
  exists n, forall polls,
    forallb (is_read PLLCSR) polls = true -> (n <= length polls)%nat ->
    Z.testbit (sample (h ++ polls) PLLCSR) PLOCK = true.

(** RAM [f] with the bytes [got] stored from address [b] on. *)
Definition stored (f : Z -> Z) (b : Z) (got : list Z) : Z -> Z :=
  fun a =>
    if (b <=? a) && (a <? b + Z.of_nat (length got))
    then nth (Z.to_nat (a - b)) got 0
    else f a.

(** [received b evs m m']: [m'] is [m] after the I/O [evs], with the bytes
    taken from the FIFO stored from address [b] on and nothing else
    changed. *)
Definition received (b : Z) (evs : list event) (m m' : machine) : Prop :=
  trace m' = trace m ++ evs /\
  (forall a, ram m' a = stored (ram m) b (fifo_reads evs) a) /\
  config m' = config m /\ epmax m' = epmax m /\ ep0size m' = ep0size m /\
  state m' = state m /\ req m' = req m.

(** I/O that hands no packet over, whatever was in the bank. *)
Definition hands_nothing_over (evs : list event) : Prop :=
  forall rdy cur sent, exists rdy',
    in_run (rdy, cur, sent) evs = (rdy', cur, sent).

(** Once TXINI has been read as set, it stays set until the firmware writes
    the flag register. *)
Definition txini_stable : Prop :=
  forall h evs,
    Z.testbit (sample h UEINTX) TXINI = true ->
    forallb is_quiet evs = true ->
    Z.testbit (sample (h ++ Rd UEINTX (sample h UEINTX) :: evs) UEINTX) TXINI
    = true.

(** While the firmware only polls, flag [f] shows up after finitely many
    polls. *)
Definition eventually (f : Z) (h : list event) : Prop :=
  exists n, forall polls,
    forallb is_poll polls = true -> (n <= length polls)%nat ->
    Z.testbit (sample (h ++ polls) UEINTX) f = true.

(** The host does not end the data stage (NAKOUTI) before it has received
    [need] packets since [t0], and does so once it has. *)
Definition host_waits_for (need : nat) (t0 : list event) : Prop :=
  forall evs,
    Z.testbit (sample (t0 ++ evs) UEINTX) NAKOUTI = true ->
    (need <= length (in_packets evs))%nat.

Definition host_acknowledges (need : nat) (t0 : list event) : Prop :=
  forall evs,
    (need <= length (in_packets evs))%nat ->
    eventually NAKOUTI (t0 ++ evs).

(** A status stage that has run to its end: one packet has been handed over,
    an empty one, and the last thing read is the flag register with TXINI
    set: the controller has the bank free again, which it has once the host
    has taken the packet. *)
Definition status_acknowledged (evs : list event) : Prop :=
  in_packets evs = [[]] /\
  exists pre w, evs = pre ++ [Rd UEINTX w] /\ Z.testbit w TXINI = true.

(** [m'] comes after [m]: its I/O history continues that of [m], and the
    stored request is the same. *)
Definition follows (m m' : machine) : Prop :=
  (exists evs, trace m' = trace m ++ evs) /\ req m' = req m.

(** The callbacks of the application add to the I/O history and leave the
    stored request alone: [req] is a static of usb-u2.c. *)
Definition callbacks_keep_request : Prop :=
  (forall c m, follows m (final (usb_u2_configure_endpoints_cb c m))) /\
  (forall cb rq m,
     usb_u2_control_vendor_cb = Some cb -> follows m (final (cb rq m))).

(** ** Properties *)

(** Case analysis on the test of the first conditional of the goal. *)
Ltac case_if :=
  match goal with |- context [if ?c then _ else _] => destruct c end.

(** *** Basic facts about the machine *)

Lemma log_extend (e : event) (m : machine) : log e m = extend [e] m.
Proof. reflexivity. Qed.

Lemma extend_nil (m : machine) : extend [] m = m.
Proof. destruct m; unfold extend; simpl; rewrite app_nil_r; reflexivity. Qed.

Lemma extend_extend (a b : list event) (m : machine) :
  extend b (extend a m) = extend (a ++ b) m.
Proof. unfold extend; simpl; rewrite app_assoc; reflexivity. Qed.

Lemma u8_range (x : Z) : 0 <= u8 x < 256.
Proof. unfold u8; apply Z.mod_pos_bound; lia. Qed.

Lemma u8_small (x : Z) : 0 <= x < 256 -> u8 x = x.
Proof. intros; unfold u8; apply Z.mod_small; assumption. Qed.

Lemma sample_range (h : list event) (r : reg) : 0 <= sample h r < 256.
Proof. apply u8_range. Qed.

Lemma land_0xf_range (x : Z) : 0 <= Z.land x 0xf < 16.
Proof.
  change 0xf with (Z.ones 4); rewrite Z.land_ones by lia.
  apply Z.mod_pos_bound; lia.
Qed.

(** *** What the primitives add to the I/O history *)

Lemma flag_clear_eq (r : reg) (b : Z) (m : machine) :
  flag_clear r b m
  = (Z.land (sample (trace m) r) (bit b) =? 0,
     extend [Rd r (sample (trace m) r)] m).
Proof. reflexivity. Qed.

Lemma and_not_eq (r : reg) (mask : Z) (m : machine) :
  and_not r mask m
  = extend [Rd r (sample (trace m) r);
            Wr r (u8 (Z.land (sample (trace m) r) (Z.lnot mask)))] m.
Proof.
  unfold and_not, read, write. rewrite !log_extend, extend_extend.
  reflexivity.
Qed.

Lemma write_eq (r : reg) (v : Z) (m : machine) :
  write r v m = extend [Wr r (u8 v)] m.
Proof. reflexivity. Qed.

Lemma or_into_eq (r : reg) (mask : Z) (m : machine) :
  or_into r mask m
  = extend [Rd r (sample (trace m) r);
            Wr r (u8 (Z.lor (sample (trace m) r) mask))] m.
Proof.
  unfold or_into, read, write. rewrite !log_extend, extend_extend.
  reflexivity.
Qed.

Lemma ctl_app (a b : list event) : ctl a -> ctl b -> ctl (a ++ b).
Proof. unfold ctl; intros Ha Hb; rewrite forallb_app, Ha, Hb; reflexivity. Qed.

Lemma fifo_writes_app (a b : list event) :
  fifo_writes (a ++ b) = fifo_writes a ++ fifo_writes b.
Proof.
  induction a as [|e a IH]; simpl; [reflexivity|].
  destruct e as [r v|r v]; [assumption|].
  destruct r; simpl; rewrite ?IH; reflexivity.
Qed.

Lemma fifo_reads_app (a b : list event) :
  fifo_reads (a ++ b) = fifo_reads a ++ fifo_reads b.
Proof.
  induction a as [|e a IH]; simpl; [reflexivity|].
  destruct e as [r v|r v]; [|assumption].
  destruct r; simpl; rewrite ?IH; reflexivity.
Qed.

Lemma ctl_fifo_writes (evs : list event) : ctl evs -> fifo_writes evs = [].
Proof.
  unfold ctl; induction evs as [|e evs IH]; simpl; [reflexivity|].
  intros Hc; apply andb_true_iff in Hc; destruct Hc as [He Hc].
  destruct e as [r v|r v]; destruct r; simpl in *;
    try discriminate; auto.
Qed.

Lemma ctl_fifo_reads (evs : list event) : ctl evs -> fifo_reads evs = [].
Proof.
  unfold ctl; induction evs as [|e evs IH]; simpl; [reflexivity|].
  intros Hc; apply andb_true_iff in Hc; destruct Hc as [He Hc].
  destruct e as [r v|r v]; destruct r; simpl in *;
    try discriminate; auto.
Qed.

Lemma polling_flag (b : Z) : polling (flag_clear UEINTX b).
Proof. intros m; eexists; rewrite flag_clear_eq; split; reflexivity. Qed.

Lemma polling_cand (c1 c2 : machine -> bool * machine) :
  polling c1 -> polling c2 -> polling (cand c1 c2).
Proof.
  intros H1 H2 m. unfold cand.
  destruct (H1 m) as (e1 & E1 & C1).
  destruct (c1 m) as [b1 m1]; simpl in E1; subst m1.
  destruct b1; simpl.
  - destruct (H2 (extend e1 m)) as (e2 & E2 & C2).
    exists (e1 ++ e2). rewrite E2, extend_extend. auto using ctl_app.
  - exists e1; auto.
Qed.

Lemma busy_wait_ctl (cond : machine -> bool * machine) :
  polling cond ->
  forall fuel m, exists evs,
    final (busy_wait cond fuel m) = extend evs m /\ ctl evs.
Proof.
  intros Hp fuel; induction fuel as [|f IH]; intros m; simpl.
  - exists []; rewrite extend_nil; split; reflexivity.
  - destruct (Hp m) as (e1 & E1 & C1).
    destruct (cond m) as [c m1]; simpl in E1; subst m1.
    destruct c.
    + destruct (IH (extend e1 m)) as (e2 & E2 & C2).
      exists (e1 ++ e2). rewrite E2, extend_extend. auto using ctl_app.
    + exists e1; auto.
Qed.

(** [final] of a sequence: the continuation runs only after a return. *)
Lemma final_bind (o : outcome) (k : machine -> outcome) (m : machine)
  (P : list event -> Prop) :
  (exists evs, final o = extend evs m /\ P evs) ->
  (forall m1, o = Done m1 -> exists evs, final (k m1) = extend evs m /\ P evs) ->
  exists evs, final (o >>= k) = extend evs m /\ P evs.
Proof.
  intros (evs & E & HP) Hk. destruct o as [m1|m1]; simpl in *.
  - apply Hk; reflexivity.
  - exists evs; auto.
Qed.

(** *** The data stage of a control IN transfer *)

Lemma fifo_writes_map (l : list Z) : fifo_writes (map (Wr UEDATX) l) = l.
Proof. induction l as [|x l IH]; simpl; [|rewrite IH]; reflexivity. Qed.

Lemma fifo_reads_map_wr (l : list Z) : fifo_reads (map (Wr UEDATX) l) = [].
Proof. induction l as [|x l IH]; simpl; auto. Qed.

Lemma bytes_from_app (src : Z -> Z) (b : Z) (j k : nat) :
  bytes_from src b (j + k)
  = bytes_from src b j ++ bytes_from src (b + Z.of_nat j) k.
Proof.
  revert b; induction j as [|j IH]; intros b.
  - simpl. rewrite Z.add_0_r. reflexivity.
  - cbn [Nat.add bytes_from app]. rewrite IH. do 3 f_equal. lia.
Qed.

Lemma bytes_from_length (src : Z -> Z) (b : Z) (j : nat) :
  length (bytes_from src b j) = j.
Proof. revert b; induction j as [|j IH]; intros b; simpl; auto. Qed.

Lemma in_fill_spec (fp : bool) (n : nat) :
  forall cur b len m, 0 <= len ->
  exists j : nat,
    in_fill fp n cur b len m
    = (b + Z.of_nat j, len - Z.of_nat j,
       extend (map (Wr UEDATX) (bytes_from (source fp m) b j)) m)
    /\ Z.of_nat j <= len.
Proof.
  induction n as [|n IH]; intros cur b len m Hl; simpl.
  - exists O; simpl. rewrite extend_nil, Z.add_0_r, Z.sub_0_r. split; [auto|lia].
  - destruct ((0 <? len) && (cur <? ep0size m)) eqn:Ec.
    + apply andb_true_iff in Ec; destruct Ec as [Ec _]; apply Z.ltb_lt in Ec.
      destruct (IH (u8 (cur + 1)) (b + 1) (len - 1)
                   (write UEDATX (if fp then pgm_read_byte_near b
                                  else ram m b) m))
        as (j & E & Hj); [lia|].
      exists (S j). rewrite E. split; [|lia].
      unfold write. rewrite log_extend, extend_extend.
      cbn [bytes_from map app].
      replace (b + 1 + Z.of_nat j) with (b + Z.of_nat (S j)) by lia.
      replace (len - 1 - Z.of_nat j) with (len - Z.of_nat (S j)) by lia.
      reflexivity.
    + exists O; simpl. rewrite extend_nil, Z.add_0_r, Z.sub_0_r.
      split; [auto|lia].
Qed.

Lemma in_sent_ctl (src : Z -> Z) (b len : Z) (evs : list event) :
  0 <= len -> ctl evs -> in_sent src b len evs.
Proof.
  intros Hl Hc; exists O; simpl.
  rewrite ctl_fifo_writes, ctl_fifo_reads by assumption. auto.
Qed.

Lemma in_sent_ctl_r (src : Z -> Z) (b len : Z) (evs c : list event) :
  in_sent src b len evs -> ctl c -> in_sent src b len (evs ++ c).
Proof.
  intros (j & Hw & Hj & Hr) Hc; exists j.
  rewrite fifo_writes_app, fifo_reads_app, Hw, Hr.
  rewrite ctl_fifo_writes, ctl_fifo_reads by assumption.
  rewrite app_nil_r; auto.
Qed.

Lemma in_data_spec (fp : bool) (fuel n : nat) :
  forall b len m, 0 <= len ->
  exists evs, final (in_data fp fuel n b len m) = extend evs m /\
              in_sent (source fp m) b len evs.
Proof.
  induction n as [|n IH]; intros b len m Hl; cbn [in_data final].
  - exists []; rewrite extend_nil; split; [auto|]. apply in_sent_ctl; [lia|reflexivity].
  - destruct (0 <? len) eqn:El.
    2:{ exists []; rewrite extend_nil; split; [auto|].
        apply in_sent_ctl; [lia|reflexivity]. }
    rewrite flag_clear_eq.
    set (e1 := [Rd UEINTX (sample (trace m) UEINTX)]).
    destruct (Z.land (sample (trace m) UEINTX) (bit NAKOUTI) =? 0).
    2:{ exists e1; split; [auto|]. apply in_sent_ctl; [lia|reflexivity]. }
    apply final_bind.
    + destruct (busy_wait_ctl _ (polling_cand _ _ (polling_flag TXINI)
                                   (polling_flag NAKOUTI)) fuel (extend e1 m))
        as (e2 & E2 & C2).
      exists (e1 ++ e2). rewrite E2, extend_extend. split; [auto|].
      apply in_sent_ctl; [lia|]. apply ctl_app; [reflexivity|assumption].
    + intros m2 Hd.
      destruct (busy_wait_ctl _ (polling_cand _ _ (polling_flag TXINI)
                                   (polling_flag NAKOUTI)) fuel (extend e1 m))
        as (e2 & E2 & C2).
      rewrite Hd in E2; simpl in E2. rewrite extend_extend in E2. subst m2.
      destruct (in_fill_spec fp 256 0 b len (extend (e1 ++ e2) m) Hl)
        as (j & E & Hj).
      rewrite E. rewrite flag_clear_eq.
      set (m3 := extend _ (extend (e1 ++ e2) m)).
      set (e4 := [Rd UEINTX (sample (trace m3) UEINTX)]).
      assert (Hm5 : exists e5, ctl e5 /\
                (if Z.land (sample (trace m3) UEINTX) (bit NAKOUTI) =? 0
                 then and_not UEINTX (bit TXINI) (extend e4 m3)
                 else extend e4 m3) = extend e5 m3).
      { destruct (Z.land (sample (trace m3) UEINTX) (bit NAKOUTI) =? 0).
        - rewrite and_not_eq, extend_extend. eexists; split; [|reflexivity].
          reflexivity.
        - exists e4; split; reflexivity. }
      destruct Hm5 as (e5 & C5 & E5). rewrite E5.
      destruct (IH (b + Z.of_nat j) (len - Z.of_nat j) (extend e5 m3))
        as (e6 & E6 & j' & Hw & Hj' & Hr); [lia|].
      rewrite E6. unfold m3. rewrite !extend_extend.
      eexists; split; [reflexivity|].
      exists (j + j')%nat.
      rewrite !fifo_writes_app, !fifo_reads_app, fifo_writes_map,
        fifo_reads_map_wr, Hw, Hr.
      change (source fp (extend (e1 ++ e2) m)) with (source fp m).
      change (source fp (extend e5 m3)) with (source fp m).
      rewrite (ctl_fifo_writes e2 C2), (ctl_fifo_reads e2 C2),
        (ctl_fifo_writes e5 C5), (ctl_fifo_reads e5 C5).
      simpl. rewrite bytes_from_app. split; [reflexivity|]. split; [lia|auto].
Qed.

Lemma in_zlp_ctl (fuel : nat) (with_zlp : bool) (m : machine) :
  exists evs, final (in_zlp fuel with_zlp m) = extend evs m /\ ctl evs.
Proof.
  unfold in_zlp. destruct with_zlp.
  2:{ exists []; rewrite extend_nil; split; reflexivity. }
  rewrite flag_clear_eq.
  set (e1 := [Rd UEINTX (sample (trace m) UEINTX)]).
  destruct (Z.land (sample (trace m) UEINTX) (bit NAKOUTI) =? 0).
  2:{ exists e1; split; reflexivity. }
  destruct (busy_wait_ctl _ (polling_flag TXINI) fuel (extend e1 m))
    as (e2 & E2 & C2).
  apply final_bind.
  - exists (e1 ++ e2). rewrite E2, extend_extend.
    split; [reflexivity|apply ctl_app; [reflexivity|assumption]].
  - intros m1 Hd. rewrite Hd in E2; simpl in E2; subst m1.
    rewrite and_not_eq, !extend_extend.
    match goal with |- context [busy_wait ?c fuel (extend ?e m)] =>
      destruct (busy_wait_ctl c (polling_flag TXINI) fuel (extend e m))
        as (e3 & E3 & C3); exists (e ++ e3) end.
    rewrite E3, extend_extend. split; [reflexivity|].
    repeat apply ctl_app; try assumption; reflexivity.
Qed.

Lemma in_status_ctl (fuel : nat) (m : machine) :
  exists evs, final (in_status fuel m) = extend evs m /\ ctl evs.
Proof.
  unfold in_status.
  destruct (busy_wait_ctl _ (polling_flag NAKOUTI) fuel m) as (e1 & E1 & C1).
  apply final_bind.
  - exists e1; auto.
  - intros m1 Hd. rewrite Hd in E1; simpl in E1; subst m1.
    rewrite and_not_eq, flag_clear_eq, !extend_extend.
    case_if;
      [|rewrite and_not_eq, extend_extend];
      cbn [final]; eexists; (split; [reflexivity|]);
      repeat apply ctl_app; try assumption; reflexivity.
Qed.

Lemma control_in_spec (fuel : nat) (b len : Z) (fp : bool) (m : machine) :
  0 <= len -> 0 <= wLength (req m) ->
  exists evs,
    final (usb_u2_control_in fuel b len fp m) = extend evs m /\
    in_sent (source fp m) b (Z.min len (wLength (req m))) evs.
Proof.
  intros Hl Hw. unfold usb_u2_control_in. rewrite flag_clear_eq.
  set (e0 := [Rd UEINTX (sample (trace m) UEINTX)]).
  destruct (Z.land (sample (trace m) UEINTX) (bit RXSTPI) =? 0).
  { exists e0; split; [reflexivity|]. apply in_sent_ctl; [lia|reflexivity]. }
  rewrite and_not_eq, extend_extend.
  match goal with |- context [in_data fp fuel fuel b ?l (extend ?e m)] =>
    set (lenc := l); set (e1 := e) end.
  assert (C1 : ctl e1) by reflexivity.
  assert (Hc : lenc = Z.min len (wLength (req m))).
  { unfold lenc; cbn [req extend].
    destruct (Z.ltb_spec (wLength (req m)) len); lia. }
  destruct (in_data_spec fp fuel fuel b lenc (extend e1 m)) as (e2 & E2 & S2);
    [lia|].
  change (source fp (extend e1 m)) with (source fp m) in S2.
  rewrite <- Hc.
  assert (Hpre : forall c, ctl c -> in_sent (source fp m) b lenc ((e1 ++ e2) ++ c)).
  { intros c Hcc. apply in_sent_ctl_r; [|assumption].
    destruct S2 as (j & Hw2 & Hj & Hr2). exists j.
    rewrite fifo_writes_app, fifo_reads_app, Hw2, Hr2.
    rewrite (ctl_fifo_writes e1 C1), (ctl_fifo_reads e1 C1). auto. }
  apply final_bind.
  { exists ((e1 ++ e2) ++ []). rewrite app_nil_r, E2, extend_extend.
    split; [reflexivity|]. rewrite <- (app_nil_r (e1 ++ e2)).
    apply Hpre; reflexivity. }
  intros m2 Hd. rewrite Hd in E2; cbn [final] in E2. rewrite extend_extend in E2.
  subst m2.
  match goal with |- context [in_zlp fuel ?w _] => generalize w; intros wz end.
  destruct (in_zlp_ctl fuel wz (extend (e1 ++ e2) m)) as (e3 & E3 & C3).
  apply final_bind.
  { exists ((e1 ++ e2) ++ e3). rewrite E3, extend_extend. auto. }
  intros m3 Hd3. rewrite Hd3 in E3; cbn [final] in E3. rewrite extend_extend in E3.
  subst m3.
  destruct (in_status_ctl fuel (extend ((e1 ++ e2) ++ e3) m)) as (e4 & E4 & C4).
  exists ((e1 ++ e2) ++ e3 ++ e4). rewrite E4, extend_extend, <- app_assoc.
  split; [reflexivity|]. apply Hpre. apply ctl_app; assumption.
Qed.

(** *** The data stage of a control OUT transfer *)

Lemma out_got_ctl (len : Z) (evs : list event) :
  0 <= len -> ctl evs -> out_got len evs.
Proof.
  intros Hl Hc; unfold out_got.
  rewrite ctl_fifo_writes, ctl_fifo_reads by assumption. simpl; auto.
Qed.

Lemma out_got_app (l1 l2 : Z) (a b : list event) :
  out_got l1 a -> out_got l2 b -> out_got (l1 + l2) (a ++ b).
Proof.
  unfold out_got; intros [Ha Wa] [Hb Wb].
  rewrite fifo_reads_app, fifo_writes_app, length_app, Wa, Wb.
  split; [lia|reflexivity].
Qed.

Lemma final_bind_trace (o : outcome) (k : machine -> outcome) (m : machine)
  (P : list event -> Prop) :
  (exists evs, trace (final o) = trace m ++ evs /\ P evs) ->
  (forall m1, o = Done m1 ->
     exists evs, trace (final (k m1)) = trace m ++ evs /\ P evs) ->
  exists evs, trace (final (o >>= k)) = trace m ++ evs /\ P evs.
Proof.
  intros (evs & E & HP) Hk. destruct o as [m1|m1]; simpl in *.
  - apply Hk; reflexivity.
  - exists evs; auto.
Qed.

Lemma out_fill_spec (n : nat) :
  forall cur b len m, 0 <= len ->
  exists (j : nat) (evs : list event),
    snd (fst (out_fill n cur b len m)) = len - Z.of_nat j /\
    trace (snd (out_fill n cur b len m)) = trace m ++ evs /\
    out_got (Z.of_nat j) evs /\ Z.of_nat j <= len.
Proof.
  induction n as [|n IH]; intros cur b len m Hl; simpl.
  - exists O, []. rewrite app_nil_r, Z.sub_0_r. repeat split; simpl; lia.
  - destruct ((0 <? len) && (cur <? ep0size m)) eqn:Ec.
    + apply andb_true_iff in Ec; destruct Ec as [Ec _]; apply Z.ltb_lt in Ec.
      unfold read.
      match goal with |- context [out_fill n ?c ?b' ?l ?m'] =>
        destruct (IH c b' l m') as (j & evs & E1 & E2 & [G1 G2] & Hj); [lia|]
      end.
      exists (S j), (Rd UEDATX (sample (trace m) UEDATX) :: evs).
      rewrite E1, E2. cbn [trace set_ram log]. rewrite <- app_assoc.
      unfold out_got. cbn [fifo_reads fifo_writes length app].
      repeat split; try assumption; lia.
    + exists O, []. simpl. rewrite app_nil_r, Z.sub_0_r.
      repeat split; simpl; lia.
Qed.

Lemma out_data_spec (fuel n : nat) :
  forall b len m, 0 <= len ->
  exists evs, trace (final (out_data fuel n b len m)) = trace m ++ evs /\
              out_got len evs.
Proof.
  induction n as [|n IH]; intros b len m Hl; cbn [out_data final].
  - exists []; rewrite app_nil_r; split; [auto|].
    apply out_got_ctl; [lia|reflexivity].
  - destruct (0 <? len) eqn:El.
    2:{ exists []; rewrite app_nil_r; split; [auto|].
        apply out_got_ctl; [lia|reflexivity]. }
    rewrite flag_clear_eq.
    set (e1 := [Rd UEINTX (sample (trace m) UEINTX)]).
    destruct (Z.land (sample (trace m) UEINTX) (bit NAKINI) =? 0).
    2:{ exists e1; split; [auto|]. apply out_got_ctl; [lia|reflexivity]. }
    destruct (busy_wait_ctl _ (polling_cand _ _ (polling_flag RXOUTI)
                                 (polling_flag NAKINI)) fuel (extend e1 m))
      as (e2 & E2 & C2).
    apply final_bind_trace.
    + exists (e1 ++ e2). rewrite E2. cbn [trace extend]. rewrite <- app_assoc.
      split; [auto|].
      apply out_got_ctl; [lia|]. apply ctl_app; [reflexivity|assumption].
    + intros m2 Hd. rewrite Hd in E2; cbn [final] in E2.
      rewrite extend_extend in E2. subst m2.
      destruct (out_fill_spec 256 0 b len (extend (e1 ++ e2) m) Hl)
        as (j & e3 & E3l & E3t & G3 & Hj).
      destruct (out_fill 256 0 b len (extend (e1 ++ e2) m))
        as [[b' len'] m3]. cbn [fst snd] in E3l, E3t. subst len'.
      rewrite flag_clear_eq.
      set (e4 := [Rd UEINTX (sample (trace m3) UEINTX)]).
      assert (Hm5 : exists e5 m5, ctl e5 /\ trace m5 = trace m3 ++ e5 /\
                (if Z.land (sample (trace m3) UEINTX) (bit NAKINI) =? 0
                 then and_not UEINTX (bit RXOUTI) (extend e4 m3)
                 else extend e4 m3) = m5).
      { destruct (Z.land (sample (trace m3) UEINTX) (bit NAKINI) =? 0).
        - rewrite and_not_eq, extend_extend.
          match goal with |- context [extend ?e m3] =>
            exists e, (extend e m3) end.
          split; [reflexivity|split; reflexivity].
        - exists e4, (extend e4 m3); split; [reflexivity|split; reflexivity]. }
      destruct Hm5 as (e5 & m5 & C5 & T5 & E5). rewrite E5.
      destruct (IH b' (len - Z.of_nat j) m5) as (e6 & E6 & G6); [lia|].
      exists (((e1 ++ e2) ++ e3) ++ e5 ++ e6).
      rewrite E6, T5, E3t. cbn [trace extend]. rewrite <- !app_assoc.
      split; [reflexivity|].
      replace len with ((0 + Z.of_nat j) + (0 + (len - Z.of_nat j))) by lia.
      rewrite !app_assoc. rewrite <- (app_assoc _ e5 e6).
      apply out_got_app.
      * apply out_got_app; [|assumption].
        apply out_got_ctl; [lia|]. apply ctl_app; [reflexivity|assumption].
      * apply out_got_app; [|assumption]. apply out_got_ctl; [lia|assumption].
Qed.

Lemma out_ack_ctl (fuel : nat) (m : machine) :
  exists evs, final (out_ack fuel m) = extend evs m /\ ctl evs.
Proof.
  unfold out_ack.
  destruct (busy_wait_ctl _ (polling_flag TXINI) fuel m) as (e1 & E1 & C1).
  apply final_bind.
  - exists e1; auto.
  - intros m1 Hd. rewrite Hd in E1; cbn [final] in E1; subst m1.
    rewrite and_not_eq, extend_extend.
    match goal with |- context [busy_wait ?c fuel (extend ?e m)] =>
      destruct (busy_wait_ctl c (polling_flag TXINI) fuel (extend e m))
        as (e2 & E2 & C2); exists (e ++ e2) end.
    rewrite E2, extend_extend. split; [reflexivity|].
    repeat apply ctl_app; try assumption; reflexivity.
Qed.

Lemma out_status_ctl (fuel : nat) (with_data : bool) (m : machine) :
  exists evs, final (out_status fuel with_data m) = extend evs m /\ ctl evs.
Proof.
  unfold out_status. destruct with_data; [|apply out_ack_ctl].
  destruct (busy_wait_ctl _ (polling_flag NAKINI) fuel m) as (e1 & E1 & C1).
  apply final_bind.
  - exists e1; auto.
  - intros m1 Hd. rewrite Hd in E1; cbn [final] in E1; subst m1.
    rewrite and_not_eq, flag_clear_eq, !extend_extend.
    case_if.
    + cbn [final]; eexists; split; [reflexivity|].
      repeat apply ctl_app; try assumption; reflexivity.
    + match goal with |- context [out_ack fuel (extend ?e m)] =>
        destruct (out_ack_ctl fuel (extend e m)) as (e2 & E2 & C2);
        exists (e ++ e2) end.
      rewrite E2, extend_extend. split; [reflexivity|].
      repeat apply ctl_app; try assumption; reflexivity.
Qed.

Lemma control_out_spec (fuel : nat) (b len : Z) (m : machine) :
  0 <= len -> 0 <= wLength (req m) ->
  exists evs,
    trace (final (usb_u2_control_out fuel b len m)) = trace m ++ evs /\
    out_got (Z.min len (wLength (req m))) evs.
Proof.
  intros Hl Hw. unfold usb_u2_control_out. rewrite flag_clear_eq.
  set (e0 := [Rd UEINTX (sample (trace m) UEINTX)]).
  destruct (Z.land (sample (trace m) UEINTX) (bit RXSTPI) =? 0).
  { exists e0; split; [reflexivity|]. apply out_got_ctl; [lia|reflexivity]. }
  rewrite and_not_eq, extend_extend.
  match goal with |- context [out_data fuel fuel b ?l (extend ?e m)] =>
    set (lenc := l); set (e1 := e) end.
  assert (C1 : ctl e1) by reflexivity.
  assert (Hc : lenc = Z.min len (wLength (req m))).
  { unfold lenc; cbn [req extend].
    destruct (Z.ltb_spec (wLength (req m)) len); lia. }
  destruct (out_data_spec fuel fuel b lenc (extend e1 m)) as (e2 & E2 & G2);
    [lia|].
  cbn [trace extend] in E2. rewrite <- Hc.
  assert (Hpre : forall c, ctl c -> out_got lenc ((e1 ++ e2) ++ c)).
  { intros c Hcc.
    replace lenc with ((0 + lenc) + 0) by lia.
    apply out_got_app; [apply out_got_app; [|assumption]|];
      apply out_got_ctl; (lia || assumption). }
  apply final_bind_trace.
  { exists ((e1 ++ e2) ++ []). rewrite app_nil_r, E2, <- app_assoc.
    split; [reflexivity|]. rewrite <- (app_nil_r (e1 ++ e2)).
    apply Hpre; reflexivity. }
  intros m2 Hd. rewrite Hd in E2; cbn [final] in E2.
  match goal with |- context [out_status fuel ?w m2] => generalize w; intros wd end.
  destruct (out_status_ctl fuel wd m2) as (e3 & E3 & C3).
  exists ((e1 ++ e2) ++ e3). rewrite E3. cbn [trace extend].
  rewrite E2, <- !app_assoc. split; [reflexivity|].
  rewrite app_assoc. apply Hpre; assumption.
Qed.

(** C3: whatever the controller and the host do, and whether the call returns
    or is still polling, usb_u2_control_in puts at most
    [min(len, req.wLength)] bytes into the FIFO (the first bytes of the
    source, in order) and takes none out, and usb_u2_control_out takes at
    most [min(len, req.wLength)] bytes out of the FIFO and puts none in. *)
Theorem C3_transfer_bounded (fuel : nat) (b len : Z) (from_progmem : bool)
  (m : machine) :
  0 <= len -> 0 <= wLength (req m) ->
  (exists evs (j : nat),
     final (usb_u2_control_in fuel b len from_progmem m) = extend evs m /\
     fifo_writes evs = bytes_from (source from_progmem m) b j /\
     Z.of_nat (length (fifo_writes evs)) <= Z.min len (wLength (req m)) /\
     fifo_reads evs = []) /\
  (exists evs,
     trace (final (usb_u2_control_out fuel b len m)) = trace m ++ evs /\
     Z.of_nat (length (fifo_reads evs)) <= Z.min len (wLength (req m)) /\
     fifo_writes evs = []).
Proof.
  intros Hl Hw. split.
  - destruct (control_in_spec fuel b len from_progmem m Hl Hw)
      as (evs & E & j & Hj & Hb & Hr).
    exists evs, j. rewrite Hj at 2. rewrite bytes_from_length. auto.
  - destruct (control_out_spec fuel b len m Hl Hw) as (evs & E & G1 & G2).
    exists evs. auto.
Qed.

(** *** The dispatcher *)

Lemma address_disabled_app (a b : list event) :
  address_disabled a -> address_disabled b -> address_disabled (a ++ b).
Proof.
  unfold address_disabled; intros Ha Hb.
  rewrite forallb_app, Ha, Hb; reflexivity.
Qed.

Lemma ctl_address_disabled (evs : list event) :
  ctl evs -> address_disabled evs.
Proof.
  unfold ctl, address_disabled; induction evs as [|e evs IH]; simpl; auto.
  intros Hc; apply andb_true_iff in Hc; destruct Hc as [He Hc].
  rewrite IH by assumption.
  destruct e as [r v|r v]; destruct r; simpl in *; try discriminate;
    reflexivity.
Qed.

Lemma read_setup_spec (n : nat) :
  forall i bs m, exists evs,
    trace (snd (read_setup n i bs m)) = trace m ++ evs /\
    address_disabled evs /\
    state (snd (read_setup n i bs m)) = state m /\
    same_rest m (snd (read_setup n i bs m)).
Proof.
  induction n as [|n IH]; intros i bs m; simpl.
  - exists []; rewrite app_nil_r; repeat split.
  - destruct (i <? sizeof_control_request).
    + unfold read.
      match goal with |- context [read_setup n ?i' ?bs' ?m'] =>
        destruct (IH i' bs' m') as (evs & E & D & S & C & P & Z0 & R) end.
      exists (Rd UEDATX (sample (trace m) UEDATX) :: evs).
      rewrite E, S. cbn [trace log state]. rewrite <- app_assoc.
      repeat split; try assumption.
    + exists []; simpl; rewrite app_nil_r; repeat split.
Qed.

Lemma read_request_spec (m : machine) :
  exists evs,
    trace (read_request m) = trace m ++ evs /\ address_disabled evs /\
    state (read_request m) = state m /\ same_rest m (read_request m).
Proof.
  unfold read_request.
  destruct (read_setup_spec 256 0 [] m) as (evs & E & D & S & R).
  destruct (read_setup 256 0 [] m) as [bs m1]. cbn [snd] in *.
  exists evs. cbn [trace set_req state]. unfold same_rest in *.
  cbn [config epmax ep0size ram set_req]. auto.
Qed.

Lemma stall_spec (m : machine) :
  exists evs, stall m = Done (extend evs m) /\ address_disabled evs.
Proof.
  unfold stall, write. rewrite log_extend, flag_clear_eq, extend_extend.
  case_if.
  - eexists; split; reflexivity.
  - rewrite or_into_eq, and_not_eq, !extend_extend.
    eexists; split; reflexivity.
Qed.

Lemma nodup_later (x y : Z) (pre post : list Z) :
  NoDup (pre ++ y :: post) -> In x pre -> (y =? x) = false.
Proof.
  intros Hn Hi. apply Z.eqb_neq. intros ->.
  apply NoDup_remove_2 in Hn. apply Hn. apply in_or_app; auto.
Qed.

Lemma standard_request_set_address (fuel : nat) (m : machine) :
  NoDup (request_labels H) ->
  bRequest (req m) = USB_U2_REQ_SET_ADDRESS H ->
  standard_request fuel m = set_address fuel m.
Proof.
  intros Hn Hr. unfold standard_request. rewrite Hr.
  unfold request_labels in Hn.
  rewrite !(nodup_later _ _ [_; _; _] _ Hn) by (simpl; auto).
  rewrite Z.eqb_refl. reflexivity.
Qed.

Lemma out_data_zero (fuel n : nat) (b len : Z) (m : machine) :
  len <= 0 -> final (out_data fuel n b len m) = m.
Proof.
  intros Hl. destruct n; cbn [out_data final]; [reflexivity|].
  destruct (Z.ltb_spec 0 len); [lia|reflexivity].
Qed.

(** A control OUT transfer without data only uses the flag register. *)
Lemma control_out_zero (fuel : nat) (b : Z) (m : machine) :
  exists evs, final (usb_u2_control_out fuel b 0 m) = extend evs m /\ ctl evs.
Proof.
  unfold usb_u2_control_out. rewrite flag_clear_eq.
  case_if.
  { eexists; split; reflexivity. }
  rewrite and_not_eq, extend_extend.
  match goal with |- context [out_data fuel fuel b ?l (extend ?e m)] =>
    set (lenc := l); set (e1 := e) end.
  assert (Hc : lenc <= 0).
  { unfold lenc. match goal with |- context [if ?c then _ else _] =>
      destruct c eqn:Ec end; [apply Z.ltb_lt in Ec|]; lia. }
  pose proof (out_data_zero fuel fuel b lenc (extend e1 m) Hc) as E2.
  apply final_bind.
  { exists e1. rewrite E2. split; reflexivity. }
  intros m2 Hd. rewrite Hd in E2; cbn [final] in E2; subst m2.
  match goal with |- context [out_status fuel ?w _] => generalize w; intros wd end.
  destruct (out_status_ctl fuel wd (extend e1 m)) as (e3 & E3 & C3).
  exists (e1 ++ e3). rewrite E3, extend_extend. split; [reflexivity|].
  apply ctl_app; [reflexivity|assumption].
Qed.

(** *** The internal serial number *)

Lemma hex_digit_range (n : Z) : 0 <= n < 16 -> 48 <= hex_digit n <= 102.
Proof. intros Hn; unfold hex_digit; destruct (Z.ltb_spec 9 n); lia. Qed.

Lemma nibble_hi (b : Z) : 0 <= b < 256 -> 0 <= Z.shiftr b 4 < 16.
Proof.
  intros Hb. rewrite Z.shiftr_div_pow2 by lia. change (2 ^ 4) with 16.
  Z.div_mod_to_equations; lia.
Qed.

Lemma nibble_lo (b : Z) : 0 <= Z.land b 0xf < 16.
Proof. apply land_0xf_range. Qed.

Lemma store16_digit (a v : Z) (f : Z -> Z) (x : Z) :
  48 <= v <= 102 ->
  store16 a v f x = if x =? a then v else if x =? a + 1 then 0 else f x.
Proof.
  intros Hv. unfold store16, store8.
  destruct (Z.eqb_spec x (a + 1)); destruct (Z.eqb_spec x a);
    [lia| | |reflexivity].
  - unfold u16. rewrite (Z.mod_small v) by lia.
    rewrite Z.shiftr_div_pow2 by lia. change (2 ^ 8) with 256.
    rewrite Z.div_small by lia. reflexivity.
  - apply u8_small; lia.
Qed.

Lemma serial_loop_ram (n : nat) :
  forall a m, 0x0e <= a <= 0x18 -> (Z.to_nat (0x18 - a) <= n)%nat ->
  forall k,
    ram (serial_loop n (1 + 2 * (a - 0x0e)) a m) (internal_serial L + k)
    = if (2 + 4 * (a - 0x0e) <=? k) && (k <? 42) then serial_byte k
      else ram m (internal_serial L + k).
Proof.
  induction n as [|n IH]; intros a m Ha Hn k.
  - assert (a = 0x18) by lia. subst a. simpl.
    destruct (Z.leb_spec 42 k); destruct (Z.ltb_spec k 42); simpl;
      try reflexivity; lia.
  - cbn [serial_loop]. destruct (Z.ltb_spec a 0x18) as [Hlt|Hge].
    2:{ assert (a = 0x18) by lia. subst a.
        destruct (Z.leb_spec (2 + 4 * (24 - 14)) k);
          destruct (Z.ltb_spec k 42); simpl; try reflexivity; lia. }
    set (i := 1 + 2 * (a - 0x0e)).
    rewrite (u8_small (i + 1)) by (unfold i; lia).
    rewrite (u8_small (i + 1 + 1)) by (unfold i; lia).
    rewrite (u8_small (a + 1)) by lia.
    replace (i + 1 + 1) with (1 + 2 * (a + 1 - 0x0e)) by (unfold i; lia).
    rewrite IH by lia. cbn [ram set_ram].
    set (b := u8 (boot_signature_byte_get a)).
    assert (Hb : 0 <= b < 256) by apply u8_range.
    rewrite !store16_digit
      by (apply hex_digit_range; auto using nibble_hi, nibble_lo).
    unfold serial_byte, serial_char.
    destruct (Z.leb_spec (2 + 4 * (a + 1 - 14)) k);
      destruct (Z.leb_spec (2 + 4 * (a - 14)) k);
      destruct (Z.ltb_spec k 42); cbn [andb]; try lia; try reflexivity.
    + repeat match goal with |- context [internal_serial L + k =? ?y] =>
        destruct (Z.eqb_spec (internal_serial L + k) y) end;
        try (exfalso; unfold i in *; lia). reflexivity.
    + assert (Hk : k = 2 * i \/ k = 2 * i + 1 \/ k = 2 * i + 2 \/ k = 2 * i + 3)
        by (unfold i; lia).
      assert (Hd : (k / 2 - 1) / 2 = a - 14 /\
                   ((k / 2 - 1) mod 2 = 0 <-> k < 2 * i + 2))
        by (unfold i in *; Z.div_mod_to_equations; lia).
      destruct Hd as [Hd1 Hd2]. rewrite Hd1.
      replace (14 + (a - 14)) with a by lia. fold b.
      repeat match goal with |- context [internal_serial L + k =? ?y] =>
        destruct (Z.eqb_spec (internal_serial L + k) y) end;
        try (exfalso; lia);
        repeat match goal with |- context [?x =? 0] =>
          destruct (Z.eqb_spec x 0) end;
        try reflexivity;
        try (exfalso; Z.div_mod_to_equations; lia).
    + repeat match goal with |- context [internal_serial L + k =? ?y] =>
        destruct (Z.eqb_spec (internal_serial L + k) y) end;
        try (exfalso; unfold i in *; lia). reflexivity.
Qed.

Lemma hex_digit_nth (n : Z) :
  0 <= n < 16 -> hex_digit n = nth (Z.to_nat n) lowercase_hex 0.
Proof.
  intros Hn.
  assert (Hk : forall k, (k < 16)%nat ->
             hex_digit (Z.of_nat k) = nth k lowercase_hex 0).
  { intros k Hk. do 16 (destruct k as [|k]; [reflexivity|]). lia. }
  rewrite <- (Hk (Z.to_nat n)) by lia. rewrite Z2Nat.id by lia. reflexivity.
Qed.

Lemma serial_quad (q : Z) :
  0 <= q ->
  let b := u8 (boot_signature_byte_get (0x0e + q)) in
  serial_byte (2 + 4 * q) = nth (Z.to_nat (b / 16)) lowercase_hex 0 /\
  serial_byte (2 + 4 * q + 1) = 0 /\
  serial_byte (2 + 4 * q + 1 + 1) = nth (Z.to_nat (b mod 16)) lowercase_hex 0 /\
  serial_byte (2 + 4 * q + 1 + 1 + 1) = 0.
Proof.
  intros Hq b. assert (Hb : 0 <= b < 256) by apply u8_range.
  unfold serial_byte, serial_char.
  replace ((2 + 4 * q) mod 2) with 0 by (Z.div_mod_to_equations; lia).
  replace ((2 + 4 * q + 1) mod 2) with 1 by (Z.div_mod_to_equations; lia).
  replace ((2 + 4 * q + 1 + 1) mod 2) with 0 by (Z.div_mod_to_equations; lia).
  replace ((2 + 4 * q + 1 + 1 + 1) mod 2) with 1
    by (Z.div_mod_to_equations; lia).
  replace (((2 + 4 * q) / 2 - 1) mod 2) with 0
    by (Z.div_mod_to_equations; lia).
  replace (((2 + 4 * q + 1 + 1) / 2 - 1) mod 2) with 1
    by (Z.div_mod_to_equations; lia).
  replace (((2 + 4 * q) / 2 - 1) / 2) with q by (Z.div_mod_to_equations; lia).
  replace (((2 + 4 * q + 1 + 1) / 2 - 1) / 2) with q
    by (Z.div_mod_to_equations; lia).
  fold b. cbn [Z.eqb Pos.eqb].
  repeat split.
  - rewrite hex_digit_nth by (apply nibble_hi; assumption).
    rewrite Z.shiftr_div_pow2 by lia. reflexivity.
  - rewrite hex_digit_nth by apply nibble_lo.
    change 0xf with (Z.ones 4). rewrite Z.land_ones by lia. reflexivity.
Qed.

(** The array after the loop: untouched below word 1, the digits from there
    on. *)
Lemma load_serial_ram (m : machine) (k : Z) :
  ram (load_serial m) (internal_serial L + k)
  = if (2 <=? k) && (k <? 42) then serial_byte k
    else ram m (internal_serial L + k).
Proof.
  unfold load_serial.
  exact (serial_loop_ram 256 0x0e m ltac:(lia) ltac:(simpl; lia) k).
Qed.

Lemma serial_loop_payload (m : machine) (n : nat) :
  forall q, 0 <= q -> q + Z.of_nat n <= 10 ->
  bytes_from (ram (load_serial m))
             (internal_serial L + (2 + 4 * q)) (4 * n)
  = flat_map (fun c => [c; 0])
      (spec_serial_chars
         (bytes_from (fun a => u8 (boot_signature_byte_get a)) (0x0e + q) n)).
Proof.
  assert (Hat : forall k, 2 <= k < 42 ->
            ram (load_serial m) (internal_serial L + k) = serial_byte k).
  { intros k Hk. rewrite load_serial_ram.
    destruct (Z.leb_spec 2 k); destruct (Z.ltb_spec k 42); try lia.
    reflexivity. }
  generalize dependent (load_serial m). intros ms Hat.
  induction n as [|n IH]; intros q Hq Hn; [reflexivity|].
  replace (4 * S n)%nat with (S (S (S (S (4 * n))))) by lia.
  cbn [bytes_from spec_serial_chars flat_map app].
  rewrite <- !Z.add_assoc.
  rewrite !Hat by lia.
  rewrite !Z.add_assoc.
  destruct (serial_quad q Hq) as (Q0 & Q1 & Q2 & Q3).
  rewrite Q0, Q1, Q2, Q3.
  replace (internal_serial L + 2 + 4 * q + 1 + 1 + 1 + 1)
    with (internal_serial L + (2 + 4 * (q + 1))) by lia.
  rewrite IH by lia.
  replace (14 + (q + 1)) with (14 + q + 1) by lia.
  reflexivity.
Qed.

Lemma spec_serial_chars_length (id : list Z) :
  length (spec_serial_chars id) = (2 * length id)%nat.
Proof.
  unfold spec_serial_chars.
  induction id as [|b id IH]; [reflexivity|].
  cbn [flat_map app length]. rewrite IH. lia.
Qed.

Lemma spec_serial_chars_hex (id : list Z) :
  Forall (fun b => 0 <= b < 256) id ->
  Forall (fun c => In c lowercase_hex) (spec_serial_chars id).
Proof.
  induction 1 as [|b id Hb _ IH]; [constructor|].
  cbn [spec_serial_chars flat_map app].
  constructor; [|constructor; [|exact IH]]; apply nth_In; simpl;
    Z.div_mod_to_equations; lia.
Qed.

Lemma bytes_from_range (b : Z) (n : nat) :
  Forall (fun x => 0 <= x < 256)
         (bytes_from (fun a => u8 (boot_signature_byte_get a)) b n).
Proof.
  revert b; induction n as [|n IH]; intros b; simpl; constructor;
    [apply u8_range|apply IH].
Qed.

Lemma busy_wait_flag_extend (r : reg) (b : Z) (fuel : nat) :
  forall m, exists evs,
    final (busy_wait (flag_clear r b) fuel m) = extend evs m.
Proof.
  induction fuel as [|f IH]; intros m.
  - exists []. rewrite extend_nil. reflexivity.
  - cbn [busy_wait]. rewrite flag_clear_eq.
    case_if.
    + destruct (IH (extend [Rd r (sample (trace m) r)] m)) as (evs & E).
      rewrite E, extend_extend. eexists; reflexivity.
    + eexists; reflexivity.
Qed.

Lemma busy_wait_flag_ram (r : reg) (b : Z) (fuel : nat) :
  forall m, ram (final (busy_wait (flag_clear r b) fuel m)) = ram m.
Proof.
  intros m. destruct (busy_wait_flag_extend r b fuel m) as (evs & E).
  rewrite E. reflexivity.
Qed.

Lemma serial_loop_trace (n : nat) :
  forall i a m, trace (serial_loop n i a m) = trace m.
Proof.
  induction n as [|n IH]; intros i a m; cbn [serial_loop]; [reflexivity|].
  destruct (a <? 24); [|reflexivity]. rewrite IH. reflexivity.
Qed.

Lemma enable_controller_trace (fuel : nat) (m : machine) :
  exists evs,
    trace (final (enable_controller fuel m)) = trace m ++ Wr REGCR 0 :: evs.
Proof.
  unfold enable_controller.
  match goal with |- context [busy_wait ?c fuel ?x] =>
    destruct (busy_wait_flag_extend PLLCSR PLOCK fuel x) as (e1 & E1);
    destruct (busy_wait c fuel x) as [m1|m1] end;
    cbn [bind final] in *; subst m1.
  - rewrite and_not_eq, or_into_eq. unfold write. rewrite !log_extend.
    rewrite !extend_extend. cbn [trace extend app]. eexists; reflexivity.
  - rewrite or_into_eq. unfold write. rewrite !log_extend.
    rewrite !extend_extend. cbn [trace extend app]. eexists; reflexivity.
Qed.

Lemma enable_controller_ram (fuel : nat) (m : machine) :
  ram (final (enable_controller fuel m)) = ram m.
Proof.
  unfold enable_controller.
  match goal with |- context [busy_wait ?c fuel ?x] =>
    pose proof (busy_wait_flag_ram PLLCSR PLOCK fuel x) as Hr;
    destruct (busy_wait c fuel x) as [m1|m1] end;
    cbn [bind final] in *.
  - rewrite and_not_eq. unfold write. rewrite log_extend.
    cbn [ram extend]. rewrite Hr. rewrite or_into_eq.
    unfold write. cbn [ram extend log]. reflexivity.
  - rewrite Hr. rewrite or_into_eq.
    unfold write. cbn [ram extend log]. reflexivity.
Qed.

Lemma init_ram (fuel : nat) (m : machine) :
  state m = USB_U2_STATE_DEFAULT ->
  ram (final (usb_u2_init fuel m)) = ram (load_serial m).
Proof.
  intros Hs. unfold usb_u2_init. rewrite Hs. cbn [state_eqb negb].
  apply enable_controller_ram.
Qed.

Lemma init_serial (fuel : nat) (m : machine) :
  state m = USB_U2_STATE_DEFAULT ->
  ram m (internal_serial L) = 42 ->
  ram m (internal_serial L + 1) = USB_U2_DESCR_TYPE_STRING H ->
  bytes_from (ram (final (usb_u2_init fuel m))) (internal_serial L) 42
  = spec_string_descriptor H (spec_serial_chars identifier).
Proof.
  intros Hs H0 H1. rewrite (init_ram fuel m Hs).
  pose proof (serial_loop_payload m 10 0 ltac:(lia) ltac:(simpl; lia)) as Hp.
  pose proof (load_serial_ram m 0) as Hh0.
  pose proof (load_serial_ram m 1) as Hh1.
  rewrite Z.add_0_r in Hh0. cbn [Z.leb Z.compare andb] in Hh0, Hh1.
  rewrite H0 in Hh0. rewrite H1 in Hh1.
  generalize dependent (load_serial m). intros ms Hp Hh0 Hh1.
  change 42%nat with (2 + 4 * 10)%nat. rewrite bytes_from_app.
  change (Z.of_nat 2) with 2.
  change (2 + 4 * 0) with 2 in Hp. rewrite Hp.
  unfold spec_string_descriptor, identifier.
  rewrite spec_serial_chars_length, bytes_from_length.
  cbn [bytes_from app]. rewrite Hh0, Hh1. reflexivity.
Qed.

Lemma read_setup_bytes (n : nat) :
  forall i bs m,
    Forall (fun x => 0 <= x < 256) bs ->
    Forall (fun x => 0 <= x < 256) (fst (read_setup n i bs m)).
Proof.
  induction n as [|n IH]; intros i bs m Hb; simpl; [assumption|].
  destruct (i <? sizeof_control_request); [|assumption].
  unfold read. apply IH. apply Forall_app; split; [assumption|].
  constructor; [apply sample_range|constructor].
Qed.

Lemma nth_byte_range (bs : list Z) (i : nat) :
  Forall (fun x => 0 <= x < 256) bs -> 0 <= nth i bs 0 < 256.
Proof.
  intros Hb. destruct (Nat.lt_ge_cases i (length bs)) as [Hi|Hi].
  - rewrite Forall_forall in Hb. apply Hb, nth_In, Hi.
  - rewrite nth_overflow by assumption. lia.
Qed.

Lemma read_request_wLength (m : machine) :
  0 <= wLength (req (read_request m)).
Proof.
  unfold read_request.
  pose proof (read_setup_bytes 256 0 [] m (Forall_nil _)) as Hb.
  destruct (read_setup 256 0 [] m) as [bs m1]. cbn [fst] in Hb.
  cbn [req set_req request_of_bytes wLength].
  pose proof (nth_byte_range bs 6 Hb). pose proof (nth_byte_range bs 7 Hb).
  lia.
Qed.

Lemma standard_request_get_descriptor (fuel : nat) (m : machine) :
  NoDup (request_labels H) ->
  bRequest (req m) = USB_U2_REQ_GET_DESCRIPTOR H ->
  standard_request fuel m = get_descriptor fuel m.
Proof.
  intros Hn Hr. unfold standard_request. rewrite Hr.
  unfold request_labels in Hn.
  rewrite !(nodup_later _ _ [_; _; _; _] _ Hn) by (simpl; auto).
  rewrite Z.eqb_refl. reflexivity.
Qed.

Lemma resolve_descriptor_serial (m : machine) :
  NoDup (descriptor_labels H) ->
  Z.shiftr (wValue (req m)) 8 = USB_U2_DESCR_TYPE_STRING H ->
  usb_u2_string_descriptor_cb (wValue (req m)) (wIndex (req m)) = NULL ->
  u8 (wValue (req m)) = USB_U2_DESCR_STR_IDX_SERIAL_INTERNAL H ->
  USB_U2_DESCR_STR_IDX_SERIAL_INTERNAL H <> 0 ->
  resolve_descriptor m = (internal_serial L, 0, false).
Proof.
  intros Hn Hty Hcb Hix Hnz. unfold resolve_descriptor.
  rewrite Hty, Hcb, Hix. unfold descriptor_labels in Hn.
  rewrite !(nodup_later _ _ [_; _] _ Hn) by (simpl; auto).
  rewrite !Z.eqb_refl. apply Z.eqb_neq in Hnz. rewrite Hnz. reflexivity.
Qed.

Lemma bytes_from_firstn (src : Z -> Z) (b : Z) (j n : nat) :
  (j <= n)%nat -> bytes_from src b j = firstn j (bytes_from src b n).
Proof.
  revert b n; induction j as [|j IH]; intros b n Hj; [reflexivity|].
  destruct n as [|n]; [lia|]. cbn [bytes_from firstn].
  rewrite (IH (b + 1) n) by lia. reflexivity.
Qed.

Lemma bytes_from_ext (f g : Z -> Z) (b : Z) (n : nat) :
  (forall a, f a = g a) -> bytes_from f b n = bytes_from g b n.
Proof.
  intros He; revert b; induction n as [|n IH]; intros b; simpl;
    [|rewrite He, IH]; reflexivity.
Qed.

Lemma bytes_from_u8 (f : Z -> Z) (b : Z) (n : nat) :
  Forall (fun x => 0 <= x < 256) (bytes_from f b n) ->
  bytes_from (fun a => u8 (f a)) b n = bytes_from f b n.
Proof.
  revert b; induction n as [|n IH]; intros b Hr; [reflexivity|].
  cbn [bytes_from] in *. inversion Hr; subst.
  rewrite u8_small, IH by assumption. reflexivity.
Qed.

Lemma read_request_wValue (m : machine) :
  0 <= wValue (req (read_request m)) < 65536.
Proof.
  unfold read_request.
  pose proof (read_setup_bytes 256 0 [] m (Forall_nil _)) as Hb.
  destruct (read_setup 256 0 [] m) as [bs m1]. cbn [fst] in Hb.
  cbn [req set_req request_of_bytes wValue].
  pose proof (nth_byte_range bs 2 Hb). pose proof (nth_byte_range bs 3 Hb).
  lia.
Qed.

Lemma spec_string_descriptor_range (chars : list Z) :
  0 <= USB_U2_DESCR_TYPE_STRING H < 256 ->
  (length chars < 127)%nat ->
  Forall (fun c => 0 <= c < 256) chars ->
  Forall (fun x => 0 <= x < 256) (spec_string_descriptor H chars).
Proof.
  intros Ht Hl Hc. unfold spec_string_descriptor.
  constructor; [lia|]. constructor; [assumption|].
  clear Hl. induction Hc as [|c chars Hc0 _ IH]; [constructor|].
  cbn [flat_map app]. constructor; [assumption|]. constructor; [lia|exact IH].
Qed.

Lemma lowercase_hex_range (c : Z) : In c lowercase_hex -> 0 <= c < 256.
Proof.
  unfold lowercase_hex; simpl; intros Hi.
  repeat (destruct Hi as [<-|Hi]; [lia|]). contradiction.
Qed.

(** *** A control IN transfer with a cooperating host *)

Lemma land_bit (v n : Z) :
  0 <= n -> Z.land v (bit n) = if Z.testbit v n then 2 ^ n else 0.
Proof.
  intros Hn. apply Z.bits_inj'. intros i Hi.
  rewrite Z.land_spec. unfold bit. rewrite Z.shiftl_1_l.
  rewrite Z.pow2_bits_eqb by assumption.
  destruct (Z.eqb_spec n i) as [->|Hne].
  - rewrite andb_true_r. destruct (Z.testbit v i) eqn:E.
    + rewrite Z.pow2_bits_true by assumption. reflexivity.
    + rewrite Z.bits_0. reflexivity.
  - rewrite andb_false_r. destruct (Z.testbit v n).
    + rewrite Z.pow2_bits_false by lia. reflexivity.
    + rewrite Z.bits_0. reflexivity.
Qed.

Lemma flag_test (v n : Z) :
  0 <= n -> (Z.land v (bit n) =? 0) = negb (Z.testbit v n).
Proof.
  intros Hn. rewrite land_bit by assumption.
  destruct (Z.testbit v n); [|reflexivity].
  apply Z.eqb_neq. pose proof (Z.pow_pos_nonneg 2 n). lia.
Qed.

Lemma chunks_length (src : Z -> Z) (b : Z) (p k : nat) :
  length (chunks src b p k) = k.
Proof. revert b; induction k as [|k IH]; intros b; simpl; auto. Qed.

Lemma in_chunks_full (src : Z -> Z) (p : Z) (k : nat) :
  0 < p ->
  forall (r : nat) (b : Z), (k <= r)%nat ->
    in_chunks src p r b (Z.of_nat k * p) = chunks src b (Z.to_nat p) k.
Proof.
  intros Hp. induction k as [|k IH]; intros r b Hr.
  - destruct r; reflexivity.
  - destruct r as [|r]; [lia|]. cbn [in_chunks chunks].
    rewrite Nat2Z.inj_succ, Z.mul_succ_l.
    assert (Hk : 0 <= Z.of_nat k * p) by nia.
    destruct (Z.ltb_spec 0 (Z.of_nat k * p + p)); [|lia].
    rewrite Z.min_r by lia.
    replace (Z.of_nat k * p + p - p) with (Z.of_nat k * p) by lia.
    rewrite IH by lia. rewrite Z2Nat.id by lia. reflexivity.
Qed.

Lemma in_chunks_concat (src : Z -> Z) (p : Z) (r : nat) :
  0 < p ->
  forall b len, 0 <= len <= Z.of_nat r * p ->
    concat (in_chunks src p r b len) = bytes_from src b (Z.to_nat len).
Proof.
  intros Hp. induction r as [|r IH]; intros b len Hl.
  - replace len with 0 by lia. reflexivity.
  - cbn [in_chunks]. rewrite Nat2Z.inj_succ, Z.mul_succ_l in Hl.
    destruct (Z.ltb_spec 0 len) as [Hlen|Hlen].
    + cbn [concat]. rewrite IH by lia.
      replace (Z.to_nat len)
        with (Z.to_nat (Z.min len p) + Z.to_nat (len - Z.min len p))%nat
        by lia.
      rewrite bytes_from_app, Z2Nat.id by lia. reflexivity.
    + replace len with 0 by lia. reflexivity.
Qed.

Lemma distinct_NoDup (l : list Z) : distinct l = true -> NoDup l.
Proof.
  induction l as [|x l IH]; simpl; intros Hd; [constructor|].
  apply andb_true_iff in Hd. destruct Hd as [Hx Hd].
  constructor; [|auto]. intros Hi.
  apply negb_true_iff in Hx.
  assert (existsb (Z.eqb x) l = true); [|congruence].
  apply existsb_exists. exists x. split; [assumption|apply Z.eqb_refl].
Qed.

Lemma in_run_app (st : in_state) (a b : list event) :
  in_run st (a ++ b) = in_run (in_run st a) b.
Proof. apply fold_left_app. Qed.

Lemma in_run_polls (polls : list event) :
  forallb is_poll polls = true ->
  forall rdy cur sent, exists rdy',
    in_run (rdy, cur, sent) polls = (rdy', cur, sent).
Proof.
  induction polls as [|e polls IH]; intros Hp rdy cur sent.
  - exists rdy; reflexivity.
  - cbn [forallb] in Hp. apply andb_true_iff in Hp. destruct Hp as [He Hp].
    destruct e as [r v|r v]; [|discriminate]. destruct r; try discriminate.
    cbn [in_run fold_left in_step]. apply (IH Hp).
Qed.

Lemma in_run_fill (bytes : list Z) (rdy : bool) (cur : list Z)
  (sent : list (list Z)) :
  in_run (rdy, cur, sent) (map (Wr UEDATX) bytes) = (rdy, cur ++ bytes, sent).
Proof.
  revert cur; induction bytes as [|x bytes IH]; intros cur.
  - simpl. rewrite app_nil_r. reflexivity.
  - cbn [map in_run fold_left in_step]. unfold in_run in IH. rewrite IH.
    rewrite <- app_assoc. reflexivity.
Qed.

Lemma in_packets_polls (evs polls : list event) :
  forallb is_poll polls = true ->
  in_packets (evs ++ polls) = in_packets evs.
Proof.
  intros Hp. unfold in_packets. rewrite in_run_app.
  destruct (in_run (false, [], []) evs) as [[rdy cur] sent].
  destruct (in_run_polls polls Hp rdy cur sent) as (rdy' & E).
  rewrite E. reflexivity.
Qed.

Lemma forallb_snoc {A : Type} (f : A -> bool) (l : list A) (x : A) :
  forallb f l = true -> f x = true -> forallb f (l ++ [x]) = true.
Proof.
  intros Hl Hx. rewrite forallb_app, Hl. simpl. rewrite Hx. reflexivity.
Qed.

(** A wait for one flag ends, with the read that shows the flag. *)
Lemma wait_flag (f : Z) (m : machine) :
  0 <= f -> eventually f (trace m) ->
  exists f0 polls,
    forallb is_poll polls = true /\
    Z.testbit (sample (trace m ++ polls) UEINTX) f = true /\
    forall fuel, (f0 <= fuel)%nat ->
      busy_wait (flag_clear UEINTX f) fuel m
      = Done (extend (polls ++ [Rd UEINTX (sample (trace m ++ polls) UEINTX)])
                     m).
Proof.
  intros Hf (n & Hev).
  assert (Hgen : forall d polls0,
            forallb is_poll polls0 = true ->
            (n <= length polls0 + d)%nat ->
            exists polls,
              forallb is_poll polls = true /\
              Z.testbit (sample (trace m ++ polls) UEINTX) f = true /\
              forall fuel, (S d <= fuel)%nat ->
                busy_wait (flag_clear UEINTX f) fuel (extend polls0 m)
                = Done (extend (polls ++
                          [Rd UEINTX (sample (trace m ++ polls) UEINTX)]) m)).
  { induction d as [|d IH]; intros polls0 Hp Hn;
      destruct (Z.testbit (sample (trace m ++ polls0) UEINTX) f) eqn:Eb.
    - exists polls0. do 2 (split; [assumption|]). intros fuel Hfu.
      destruct fuel as [|fuel]; [lia|]. cbn [busy_wait].
      rewrite flag_clear_eq, flag_test by assumption. cbn [trace extend].
      rewrite Eb. cbn [negb]. rewrite extend_extend. reflexivity.
    - rewrite Hev in Eb by (assumption || lia). discriminate.
    - exists polls0. do 2 (split; [assumption|]). intros fuel Hfu.
      destruct fuel as [|fuel]; [lia|]. cbn [busy_wait].
      rewrite flag_clear_eq, flag_test by assumption. cbn [trace extend].
      rewrite Eb. cbn [negb]. rewrite extend_extend. reflexivity.
    - destruct (IH (polls0 ++ [Rd UEINTX (sample (trace m ++ polls0) UEINTX)]))
        as (polls & P1 & P2 & P3);
        [apply forallb_snoc; [assumption|reflexivity]
        |rewrite length_app; simpl; lia|].
      exists polls. do 2 (split; [assumption|]). intros fuel Hfu.
      destruct fuel as [|fuel]; [lia|]. cbn [busy_wait].
      rewrite flag_clear_eq, flag_test by assumption. cbn [trace extend].
      rewrite Eb. cbn [negb]. rewrite extend_extend. apply P3. lia. }
  destruct (Hgen n [] eq_refl ltac:(simpl; lia)) as (polls & P1 & P2 & P3).
  exists (S n), polls. do 2 (split; [assumption|]). intros fuel Hfu.
  rewrite <- (P3 fuel Hfu), extend_nil. reflexivity.
Qed.

(** The wait of the data stage ends with TXINI when the host keeps NAKOUTI
    clear. *)
Lemma wait_txini (m : machine) :
  eventually TXINI (trace m) ->
  (forall polls, forallb is_poll polls = true ->
     Z.testbit (sample (trace m ++ polls) UEINTX) NAKOUTI = false) ->
  exists f0 polls,
    forallb is_poll polls = true /\
    Z.testbit (sample (trace m ++ polls) UEINTX) TXINI = true /\
    forall fuel, (f0 <= fuel)%nat ->
      busy_wait (cand (flag_clear UEINTX TXINI) (flag_clear UEINTX NAKOUTI))
                fuel m
      = Done (extend (polls ++ [Rd UEINTX (sample (trace m ++ polls) UEINTX)])
                     m).
Proof.
  intros (n & Hev) Hnak.
  assert (Hgen : forall d polls0,
            forallb is_poll polls0 = true ->
            (n <= length polls0 + d)%nat ->
            exists polls,
              forallb is_poll polls = true /\
              Z.testbit (sample (trace m ++ polls) UEINTX) TXINI = true /\
              forall fuel, (S d <= fuel)%nat ->
                busy_wait (cand (flag_clear UEINTX TXINI)
                                (flag_clear UEINTX NAKOUTI))
                          fuel (extend polls0 m)
                = Done (extend (polls ++
                          [Rd UEINTX (sample (trace m ++ polls) UEINTX)]) m)).
  { induction d as [|d IH]; intros polls0 Hp Hn;
      destruct (Z.testbit (sample (trace m ++ polls0) UEINTX) TXINI) eqn:Eb.
    - exists polls0. do 2 (split; [assumption|]). intros fuel Hfu.
      destruct fuel as [|fuel]; [lia|]. cbn [busy_wait]. unfold cand at 1.
      rewrite flag_clear_eq, flag_test by (unfold TXINI; lia).
      cbn [trace extend]. rewrite Eb. cbn [negb].
      rewrite extend_extend. reflexivity.
    - rewrite Hev in Eb by (assumption || lia). discriminate.
    - exists polls0. do 2 (split; [assumption|]). intros fuel Hfu.
      destruct fuel as [|fuel]; [lia|]. cbn [busy_wait]. unfold cand at 1.
      rewrite flag_clear_eq, flag_test by (unfold TXINI; lia).
      cbn [trace extend]. rewrite Eb. cbn [negb].
      rewrite extend_extend. reflexivity.
    - set (v1 := sample (trace m ++ polls0) UEINTX) in *.
      set (v2 := sample (trace m ++ polls0 ++ [Rd UEINTX v1]) UEINTX).
      destruct (IH (polls0 ++ [Rd UEINTX v1; Rd UEINTX v2]))
        as (polls & P1 & P2 & P3);
        [rewrite forallb_app, Hp; reflexivity
        |rewrite length_app; simpl; lia|].
      exists polls. do 2 (split; [assumption|]). intros fuel Hfu.
      destruct fuel as [|fuel]; [lia|]. cbn [busy_wait]. unfold cand at 1.
      rewrite flag_clear_eq, flag_test by (unfold TXINI; lia).
      cbn [trace extend]. fold v1. rewrite Eb. cbn [negb].
      rewrite flag_clear_eq, flag_test by (unfold NAKOUTI; lia).
      cbn [trace extend]. rewrite !extend_extend, <- !app_assoc.
      rewrite Hnak by (apply forallb_snoc; [assumption|reflexivity]).
      cbn [negb app]. fold v2. apply P3. lia. }
  destruct (Hgen n [] eq_refl ltac:(simpl; lia)) as (polls & P1 & P2 & P3).
  exists (S n), polls. do 2 (split; [assumption|]). intros fuel Hfu.
  rewrite <- (P3 fuel Hfu), extend_nil. reflexivity.
Qed.

Lemma in_fill_min (fp : bool) (n : nat) :
  forall cur b len m,
    0 <= cur <= ep0size m -> ep0size m < 256 -> 0 <= len ->
    (Z.to_nat (Z.min len (ep0size m - cur)) <= n)%nat ->
    in_fill fp n cur b len m
    = (b + Z.min len (ep0size m - cur), len - Z.min len (ep0size m - cur),
       extend (map (Wr UEDATX)
                   (bytes_from (source fp m) b
                               (Z.to_nat (Z.min len (ep0size m - cur)))))
              m).
Proof.
  induction n as [|n IH]; intros cur b len m Hc Hp Hl Hn.
  - assert (E : Z.min len (ep0size m - cur) = 0) by lia. rewrite E.
    cbn [in_fill Z.to_nat bytes_from map]. rewrite extend_nil.
    rewrite Z.add_0_r, Z.sub_0_r. reflexivity.
  - cbn [in_fill].
    destruct (Z.ltb_spec 0 len) as [Hlen|Hlen];
      destruct (Z.ltb_spec cur (ep0size m)) as [Hlt|Hge]; cbn [andb].
    + rewrite (u8_small (cur + 1)) by lia.
      unfold write. rewrite log_extend.
      rewrite IH; cbn [ep0size extend]; try lia.
      rewrite extend_extend.
      replace (Z.to_nat (Z.min len (ep0size m - cur)))
        with (S (Z.to_nat (Z.min (len - 1) (ep0size m - (cur + 1))))) by lia.
      cbn [bytes_from map app].
      replace (b + 1 + Z.min (len - 1) (ep0size m - (cur + 1)))
        with (b + Z.min len (ep0size m - cur)) by lia.
      replace (len - 1 - Z.min (len - 1) (ep0size m - (cur + 1)))
        with (len - Z.min len (ep0size m - cur)) by lia.
      reflexivity.
    + assert (E : Z.min len (ep0size m - cur) = 0) by lia. rewrite E.
      cbn [Z.to_nat bytes_from map]. rewrite extend_nil.
      rewrite Z.add_0_r, Z.sub_0_r. reflexivity.
    + assert (E : Z.min len (ep0size m - cur) = 0) by lia. rewrite E.
      cbn [Z.to_nat bytes_from map]. rewrite extend_nil.
      rewrite Z.add_0_r, Z.sub_0_r. reflexivity.
    + assert (E : Z.min len (ep0size m - cur) = 0) by lia. rewrite E.
      cbn [Z.to_nat bytes_from map]. rewrite extend_nil.
      rewrite Z.add_0_r, Z.sub_0_r. reflexivity.
Qed.

Lemma clear_bit_testbit (v n i : Z) :
  0 <= n -> 0 <= i < 8 ->
  Z.testbit (u8 (Z.land v (Z.lnot (bit n)))) i
  = Z.testbit v i && negb (i =? n).
Proof.
  intros Hn Hi. unfold u8. change 256 with (2 ^ 8).
  rewrite Z.testbit_mod_pow2 by lia.
  destruct (Z.ltb_spec i 8); [|lia]. cbn [andb].
  rewrite Z.land_spec, Z.lnot_spec by lia.
  unfold bit. rewrite Z.shiftl_1_l, Z.pow2_bits_eqb by assumption.
  rewrite (Z.eqb_sym n i). reflexivity.
Qed.

Section CooperatingHost.

(** The machine when usb_u2_control_in is called, and the number of packets
    the host wants to see before it ends the data stage. *)
Variable m0 : machine.
Variable need : nat.
Hypothesis Hstable : txini_stable.
Hypothesis Hready : forall h, eventually TXINI h.
Hypothesis Hwaits : host_waits_for need (trace m0).
Hypothesis Hsize : 0 < ep0size m0 < 256.

Lemma nak_clear (evs : list event) (rdy : bool) (cur : list Z)
  (sent : list (list Z)) :
  in_run (false, [], []) evs = (rdy, cur, sent) ->
  (length sent < need)%nat ->
  Z.testbit (sample (trace m0 ++ evs) UEINTX) NAKOUTI = false.
Proof.
  intros Hr Hl.
  destruct (Z.testbit (sample (trace m0 ++ evs) UEINTX) NAKOUTI) eqn:E;
    [|reflexivity].
  apply Hwaits in E. unfold in_packets in E. rewrite Hr in E.
  cbn [snd] in E. lia.
Qed.

(** One round of the data loop: wait for the bank, fill it with the next
    packet, hand it over. *)
Lemma in_round (fp : bool) (evs : list event) (b len : Z) (rdy : bool)
  (sent : list (list Z)) :
  in_run (false, [], []) evs = (rdy, [], sent) ->
  (length sent < need)%nat ->
  0 < len ->
  exists f0 ev,
    in_run (false, [], []) (evs ++ ev)
    = (false, [],
       sent ++ [bytes_from (source fp m0) b
                           (Z.to_nat (Z.min len (ep0size m0)))]) /\
    forall fuel n, (f0 <= fuel)%nat ->
      in_data fp fuel (S n) b len (extend evs m0)
      = in_data fp fuel n (b + Z.min len (ep0size m0))
                (len - Z.min len (ep0size m0)) (extend (evs ++ ev) m0).
Proof.
  intros Hrun Hlen Hle.
  set (v := sample (trace m0 ++ evs) UEINTX).
  assert (Hv : Z.testbit v NAKOUTI = false) by (eapply nak_clear; eauto).
  assert (Hrun1 : in_run (false, [], []) (evs ++ [Rd UEINTX v])
                  = (Z.testbit v TXINI, [], sent)).
  { rewrite in_run_app, Hrun. reflexivity. }
  destruct (wait_txini (extend (evs ++ [Rd UEINTX v]) m0))
    as (f1 & polls & P1 & P2 & P3).
  { apply Hready. }
  { intros polls Hp. cbn [trace extend]. rewrite <- app_assoc.
    destruct (in_run_polls polls Hp (Z.testbit v TXINI) [] sent) as (r' & Er).
    eapply nak_clear; [|exact Hlen]. rewrite in_run_app, Hrun1. exact Er. }
  cbn [trace extend] in P2, P3. rewrite <- !app_assoc in P2, P3.
  set (h := trace m0 ++ evs ++ [Rd UEINTX v] ++ polls) in *.
  set (v2 := sample h UEINTX) in *.
  set (e2 := (evs ++ [Rd UEINTX v]) ++ polls ++ [Rd UEINTX v2]).
  assert (Hrun2 : in_run (false, [], []) e2 = (true, [], sent)).
  { unfold e2. rewrite in_run_app, Hrun1, in_run_app.
    destruct (in_run_polls polls P1 (Z.testbit v TXINI) [] sent) as (r' & Er).
    rewrite Er. cbn [in_run fold_left in_step]. rewrite P2. reflexivity. }
  set (bytes := bytes_from (source fp m0) b
                          (Z.to_nat (Z.min len (ep0size m0)))).
  set (e3 := e2 ++ map (Wr UEDATX) bytes).
  assert (Hrun3 : in_run (false, [], []) e3 = (true, bytes, sent)).
  { unfold e3. rewrite in_run_app, Hrun2, in_run_fill. reflexivity. }
  set (v3 := sample (trace m0 ++ e3) UEINTX).
  assert (Hv3 : Z.testbit v3 NAKOUTI = false) by (eapply nak_clear; eauto).
  set (v4 := sample (trace m0 ++ e3 ++ [Rd UEINTX v3]) UEINTX).
  assert (Hv4 : Z.testbit v4 TXINI = true).
  { unfold v4.
    replace (trace m0 ++ e3 ++ [Rd UEINTX v3])
      with (h ++ Rd UEINTX (sample h UEINTX)
              :: (map (Wr UEDATX) bytes ++ [Rd UEINTX v3])).
    - apply Hstable; [exact P2|].
      rewrite forallb_app. cbn [forallb is_quiet andb].
      rewrite andb_true_r. clear. induction bytes; simpl; auto.
    - unfold e3, e2, h. fold v2. rewrite <- !app_assoc. reflexivity. }
  set (w := u8 (Z.land v4 (Z.lnot (bit TXINI)))).
  assert (Hw : Z.testbit w TXINI = false).
  { unfold w. rewrite clear_bit_testbit by (unfold TXINI; lia).
    rewrite Z.eqb_refl, andb_false_r. reflexivity. }
  exists f1, ([Rd UEINTX v] ++ polls ++ [Rd UEINTX v2]
              ++ map (Wr UEDATX) bytes
              ++ [Rd UEINTX v3; Rd UEINTX v4; Wr UEINTX w]).
  split.
  { replace (evs ++ [Rd UEINTX v] ++ polls ++ [Rd UEINTX v2]
              ++ map (Wr UEDATX) bytes
              ++ [Rd UEINTX v3; Rd UEINTX v4; Wr UEINTX w])
      with (e3 ++ [Rd UEINTX v3; Rd UEINTX v4; Wr UEINTX w])
      by (unfold e3, e2; rewrite <- !app_assoc; reflexivity).
    rewrite in_run_app, Hrun3. cbn [in_run fold_left in_step].
    rewrite Hv4, Hw. reflexivity. }
  intros fuel n Hfu. cbn [in_data].
  destruct (Z.ltb_spec 0 len); [|lia].
  rewrite flag_clear_eq, flag_test by (unfold NAKOUTI; lia).
  cbn [trace extend]. fold v. rewrite Hv. cbn [negb].
  rewrite extend_extend, (P3 fuel Hfu). cbn [bind].
  rewrite extend_extend. fold e2.
  rewrite (in_fill_min fp 256 0 b len (extend e2 m0))
    by (cbn [ep0size extend]; lia).
  cbn [ep0size extend]. rewrite Z.sub_0_r.
  change (source fp (extend e2 m0)) with (source fp m0). fold bytes.
  rewrite extend_extend. fold e3.
  rewrite flag_clear_eq, flag_test by (unfold NAKOUTI; lia).
  cbn [trace extend]. fold v3. rewrite Hv3. cbn [negb].
  rewrite and_not_eq, !extend_extend. cbn [trace extend].
  fold v4. fold w.
  f_equal. f_equal. unfold e3, e2. rewrite <- !app_assoc. reflexivity.
Qed.

(** The rounds of the data loop, [r] of them at most. *)
Lemma in_data_total (fp : bool) (r : nat) :
  forall evs b len rdy sent,
    in_run (false, [], []) evs = (rdy, [], sent) ->
    0 <= len <= Z.of_nat r * ep0size m0 ->
    (length sent
     + length (in_chunks (source fp m0) (ep0size m0) r b len) <= need)%nat ->
    exists f0 ev rdy',
      in_run (false, [], []) (evs ++ ev)
      = (rdy', [],
         sent ++ in_chunks (source fp m0) (ep0size m0) r b len) /\
      forall fuel n, (f0 <= fuel)%nat -> (r < n)%nat ->
        in_data fp fuel n b len (extend evs m0)
        = Done (extend (evs ++ ev) m0).
Proof.
  induction r as [|r IH]; intros evs b len rdy sent Hrun Hl Hlen.
  - exists O, [], rdy. cbn [in_chunks]. rewrite !app_nil_r.
    split; [assumption|].
    intros fuel n _ Hn. destruct n as [|n]; [lia|]. cbn [in_data].
    destruct (Z.ltb_spec 0 len); [lia|reflexivity].
  - rewrite Nat2Z.inj_succ, Z.mul_succ_l in Hl.
    cbn [in_chunks] in *.
    destruct (Z.ltb_spec 0 len) as [Hpos|Hpos].
    + cbn [length] in Hlen.
      destruct (in_round fp evs b len rdy sent Hrun)
        as (f1 & ev1 & Hrun1 & Hstep1); [lia|lia|].
      destruct (IH (evs ++ ev1) (b + Z.min len (ep0size m0))
                   (len - Z.min len (ep0size m0)) false _ Hrun1)
        as (f2 & ev2 & rdy2 & Hrun2 & Hstep2);
        [lia|rewrite length_app; cbn [length]; lia|].
      exists (Nat.max f1 f2), (ev1 ++ ev2), rdy2. split.
      * rewrite app_assoc, Hrun2, <- app_assoc. reflexivity.
      * intros fuel n Hfu Hn. destruct n as [|n]; [lia|].
        rewrite Hstep1 by lia. rewrite Hstep2 by lia.
        rewrite app_assoc. reflexivity.
    + exists O, [], rdy. rewrite !app_nil_r. split; [assumption|].
      intros fuel n _ Hn. destruct n as [|n]; [lia|]. cbn [in_data].
      destruct (Z.ltb_spec 0 len); [lia|reflexivity].
Qed.

(** A read-modify-write that clears another flag hands nothing over. *)
Lemma rmw_no_commit (n v : Z) (rdy : bool) (cur : list Z)
  (sent : list (list Z)) :
  0 <= n -> n <> TXINI ->
  in_run (rdy, cur, sent)
         [Rd UEINTX v; Wr UEINTX (u8 (Z.land v (Z.lnot (bit n))))]
  = (Z.testbit v TXINI, cur, sent).
Proof.
  intros Hn Hne. cbn [in_run fold_left in_step].
  rewrite clear_bit_testbit by (unfold TXINI; lia).
  replace (TXINI =? n) with false by (symmetry; apply Z.eqb_neq; lia).
  cbn [negb]. rewrite andb_true_r.
  destruct (Z.testbit v TXINI); reflexivity.
Qed.

(** The zero-length packet. *)
Lemma in_zlp_full (evs : list event) (rdy : bool) (sent : list (list Z)) :
  in_run (false, [], []) evs = (rdy, [], sent) ->
  (length sent < need)%nat ->
  exists f0 ev,
    in_run (false, [], []) (evs ++ ev) = (true, [], sent ++ [[]]) /\
    forall fuel, (f0 <= fuel)%nat ->
      in_zlp fuel true (extend evs m0) = Done (extend (evs ++ ev) m0).
Proof.
  intros Hrun Hlen.
  set (v := sample (trace m0 ++ evs) UEINTX).
  assert (Hv : Z.testbit v NAKOUTI = false) by (eapply nak_clear; eauto).
  destruct (wait_flag TXINI (extend (evs ++ [Rd UEINTX v]) m0))
    as (f1 & polls & P1 & P2 & P3); [unfold TXINI; lia|apply Hready|].
  cbn [trace extend] in P2, P3. rewrite <- !app_assoc in P2, P3.
  set (h := trace m0 ++ evs ++ [Rd UEINTX v] ++ polls) in *.
  set (v2 := sample h UEINTX) in *.
  set (e2 := evs ++ [Rd UEINTX v] ++ polls ++ [Rd UEINTX v2]).
  assert (Hrun2 : in_run (false, [], []) e2 = (true, [], sent)).
  { unfold e2. rewrite in_run_app, Hrun. cbn [app].
    change (Rd UEINTX v :: polls ++ [Rd UEINTX v2])
      with ([Rd UEINTX v] ++ polls ++ [Rd UEINTX v2]).
    rewrite !in_run_app.
    destruct (in_run_polls polls P1 (Z.testbit v TXINI) [] sent) as (r' & Er).
    cbn [in_run fold_left in_step] in *. rewrite Er.
    cbn [fold_left in_step]. rewrite P2. reflexivity. }
  set (v3 := sample (trace m0 ++ e2) UEINTX).
  assert (Hv3 : Z.testbit v3 TXINI = true).
  { unfold v3.
    replace (trace m0 ++ e2) with (h ++ Rd UEINTX (sample h UEINTX) :: []).
    - apply Hstable; [exact P2|reflexivity].
    - unfold e2, h. fold v2. rewrite <- !app_assoc. reflexivity. }
  set (w := u8 (Z.land v3 (Z.lnot (bit TXINI)))).
  assert (Hw : Z.testbit w TXINI = false).
  { unfold w. rewrite clear_bit_testbit by (unfold TXINI; lia).
    rewrite Z.eqb_refl, andb_false_r. reflexivity. }
  set (e3 := e2 ++ [Rd UEINTX v3; Wr UEINTX w]).
  assert (Hrun3 : in_run (false, [], []) e3 = (false, [], sent ++ [[]])).
  { unfold e3. rewrite in_run_app, Hrun2. cbn [in_run fold_left in_step].
    rewrite Hv3, Hw. reflexivity. }
  destruct (wait_flag TXINI (extend e3 m0))
    as (f2 & polls2 & Q1 & Q2 & Q3); [unfold TXINI; lia|apply Hready|].
  cbn [trace extend] in Q2, Q3.
  set (v5 := sample ((trace m0 ++ e3) ++ polls2) UEINTX) in *.
  exists (Nat.max f1 f2),
    (([Rd UEINTX v] ++ polls ++ [Rd UEINTX v2])
     ++ [Rd UEINTX v3; Wr UEINTX w] ++ polls2 ++ [Rd UEINTX v5]).
  assert (Eall : evs ++ ([Rd UEINTX v] ++ polls ++ [Rd UEINTX v2])
                 ++ [Rd UEINTX v3; Wr UEINTX w] ++ polls2 ++ [Rd UEINTX v5]
                 = e3 ++ polls2 ++ [Rd UEINTX v5]).
  { unfold e3, e2. rewrite <- !app_assoc. reflexivity. }
  rewrite Eall. split.
  { rewrite in_run_app, Hrun3, in_run_app.
    destruct (in_run_polls polls2 Q1 false [] (sent ++ [[]])) as (r' & Er).
    rewrite Er. cbn [in_run fold_left in_step]. rewrite Q2. reflexivity. }
  intros fuel Hfu. unfold in_zlp.
  rewrite flag_clear_eq, flag_test by (unfold NAKOUTI; lia).
  cbn [trace extend]. fold v. rewrite Hv. cbn [negb].
  rewrite extend_extend, P3 by lia. cbn [bind].
  rewrite extend_extend, <- !app_assoc. fold e2.
  rewrite and_not_eq, extend_extend. cbn [trace extend]. fold v3. fold w.
  fold e3. rewrite Q3 by lia. rewrite extend_extend. reflexivity.
Qed.

(** The status stage. *)
Lemma in_status_full (evs : list event) (rdy : bool) (cur : list Z)
  (sent : list (list Z)) :
  in_run (false, [], []) evs = (rdy, cur, sent) ->
  eventually NAKOUTI (trace m0 ++ evs) ->
  exists f0 ev rdy',
    in_run (false, [], []) (evs ++ ev) = (rdy', cur, sent) /\
    forall fuel, (f0 <= fuel)%nat ->
      in_status fuel (extend evs m0) = Done (extend (evs ++ ev) m0).
Proof.
  intros Hrun Hev.
  destruct (wait_flag NAKOUTI (extend evs m0))
    as (f1 & polls & P1 & P2 & P3); [unfold NAKOUTI; lia|exact Hev|].
  cbn [trace extend] in P2, P3.
  set (v := sample ((trace m0 ++ evs) ++ polls) UEINTX) in *.
  set (e1 := evs ++ polls ++ [Rd UEINTX v]).
  set (v1 := sample (trace m0 ++ e1) UEINTX).
  set (w1 := u8 (Z.land v1 (Z.lnot (bit NAKOUTI)))).
  set (e2 := e1 ++ [Rd UEINTX v1; Wr UEINTX w1]).
  assert (Hrun2 : in_run (false, [], []) e2 = (Z.testbit v1 TXINI, cur, sent)).
  { unfold e2, e1. rewrite !in_run_app, Hrun.
    destruct (in_run_polls polls P1 rdy cur sent) as (r' & Er). rewrite Er.
    change (in_run (r', cur, sent) [Rd UEINTX v])
      with (Z.testbit v TXINI, cur, sent).
    apply rmw_no_commit; unfold NAKOUTI, TXINI; lia. }
  set (v5 := sample (trace m0 ++ e2) UEINTX).
  set (v6 := sample (trace m0 ++ e2 ++ [Rd UEINTX v5]) UEINTX).
  set (w6 := u8 (Z.land v6 (Z.lnot (bit RXOUTI)))).
  assert (Hstep : forall fuel, (f1 <= fuel)%nat ->
            in_status fuel (extend evs m0)
            = Done (if Z.testbit v5 RXOUTI
                    then extend (e2 ++ [Rd UEINTX v5; Rd UEINTX v6;
                                        Wr UEINTX w6]) m0
                    else extend (e2 ++ [Rd UEINTX v5]) m0)).
  { intros fuel Hfu. unfold in_status. rewrite P3 by assumption.
    cbn [bind]. rewrite extend_extend. fold e1.
    rewrite and_not_eq, extend_extend. cbn [trace extend].
    fold v1. fold w1. fold e2.
    rewrite flag_clear_eq, flag_test by (unfold RXOUTI; lia).
    cbn [trace extend]. fold v5. rewrite extend_extend.
    destruct (Z.testbit v5 RXOUTI); cbn [negb]; [|reflexivity].
    rewrite and_not_eq, extend_extend. cbn [trace extend].
    rewrite <- app_assoc. reflexivity. }
  destruct (Z.testbit v5 RXOUTI).
  - exists f1, (polls ++ [Rd UEINTX v] ++ [Rd UEINTX v1; Wr UEINTX w1]
                ++ [Rd UEINTX v5; Rd UEINTX v6; Wr UEINTX w6]),
           (Z.testbit v6 TXINI).
    replace (evs ++ polls ++ [Rd UEINTX v] ++ [Rd UEINTX v1; Wr UEINTX w1]
               ++ [Rd UEINTX v5; Rd UEINTX v6; Wr UEINTX w6])
      with (e2 ++ [Rd UEINTX v5] ++ [Rd UEINTX v6; Wr UEINTX w6])
      by (unfold e2, e1; rewrite <- !app_assoc; reflexivity).
    split; [|exact Hstep].
    rewrite !in_run_app, Hrun2.
    change (in_run (Z.testbit v1 TXINI, cur, sent) [Rd UEINTX v5])
      with (Z.testbit v5 TXINI, cur, sent).
    apply rmw_no_commit; unfold RXOUTI, TXINI; lia.
  - exists f1, (polls ++ [Rd UEINTX v] ++ [Rd UEINTX v1; Wr UEINTX w1]
                ++ [Rd UEINTX v5]),
           (Z.testbit v5 TXINI).
    replace (evs ++ polls ++ [Rd UEINTX v] ++ [Rd UEINTX v1; Wr UEINTX w1]
               ++ [Rd UEINTX v5])
      with (e2 ++ [Rd UEINTX v5])
      by (unfold e2, e1; rewrite <- !app_assoc; reflexivity).
    split; [|exact Hstep].
    rewrite in_run_app, Hrun2. reflexivity.
Qed.

Hypothesis Hack : host_acknowledges need (trace m0).

(** A control IN transfer with a pending setup packet and a cooperating
    host: with enough budget for the waits usb_u2_control_in returns, and the
    packets it has handed over are those of the first [min(len, wLength)]
    bytes of the source, followed by one packet without data exactly when
    [len < wLength] and [ep0size] divides [len]. *)
Lemma control_in_total (b len : Z) (fp : bool) :
  let lenc := Z.min len (wLength (req m0)) in
  let zlp := (len <? wLength (req m0)) && (len mod ep0size m0 =? 0) in
  let data :=
    in_chunks (source fp m0) (ep0size m0) (Z.to_nat lenc) b lenc in
  0 <= len -> 0 <= wLength (req m0) ->
  need = (length data + (if zlp then 1 else 0))%nat ->
  Z.testbit (sample (trace m0) UEINTX) RXSTPI = true ->
  exists f0 evs,
    in_packets evs = data ++ (if zlp then [[]] else []) /\
    forall fuel, (f0 <= fuel)%nat ->
      usb_u2_control_in fuel b len fp m0 = Done (extend evs m0).
Proof.
  intros lenc zlp data Hl Hw Hneed Hsetup.
  set (v0 := sample (trace m0) UEINTX) in *.
  set (v1 := sample (trace m0 ++ [Rd UEINTX v0]) UEINTX).
  set (w1 := u8 (Z.land v1 (Z.lnot (bit RXSTPI)))).
  set (e1 := [Rd UEINTX v0; Rd UEINTX v1; Wr UEINTX w1]).
  assert (Hrun1 : in_run (false, [], []) e1 = (Z.testbit v1 TXINI, [], [])).
  { change e1 with ([Rd UEINTX v0] ++ [Rd UEINTX v1; Wr UEINTX w1]).
    rewrite in_run_app.
    change (in_run (false, [], []) [Rd UEINTX v0])
      with (Z.testbit v0 TXINI, @nil Z, @nil (list Z)).
    apply rmw_no_commit; unfold RXSTPI, TXINI; lia. }
  destruct (in_data_total fp (Z.to_nat lenc) e1 b lenc _ [] Hrun1)
    as (f2 & ev2 & rdy2 & Hrun2 & Hstep2).
  { rewrite Z2Nat.id by lia. nia. }
  { fold data. cbn [length]. lia. }
  fold data in Hrun2. cbn [app] in Hrun2.
  assert (Hzlp : exists f3 ev3 rdy3,
             in_run (false, [], []) ((e1 ++ ev2) ++ ev3)
             = (rdy3, [], data ++ (if zlp then [[]] else [])) /\
             forall fuel, (f3 <= fuel)%nat ->
               in_zlp fuel zlp (extend (e1 ++ ev2) m0)
               = Done (extend ((e1 ++ ev2) ++ ev3) m0)).
  { destruct zlp.
    - destruct (in_zlp_full (e1 ++ ev2) rdy2 _ Hrun2)
        as (f3 & ev3 & Hrun3 & Hstep3); [lia|].
      exists f3, ev3, true. split; assumption.
    - exists O, [], rdy2. rewrite !app_nil_r. split; [assumption|].
      intros fuel _. reflexivity. }
  destruct Hzlp as (f3 & ev3 & rdy3 & Hrun3 & Hstep3).
  destruct (in_status_full ((e1 ++ ev2) ++ ev3) _ _ _ Hrun3)
    as (f4 & ev4 & rdy4 & Hrun4 & Hstep4).
  { apply Hack. unfold in_packets. rewrite Hrun3. cbn [snd].
    rewrite length_app, Hneed. destruct zlp; cbn [length]; lia. }
  exists (Nat.max (S (Z.to_nat lenc)) (Nat.max f2 (Nat.max f3 f4))),
    (((e1 ++ ev2) ++ ev3) ++ ev4).
  split; [unfold in_packets; rewrite Hrun4; reflexivity|].
  intros fuel Hfu. unfold usb_u2_control_in.
  rewrite flag_clear_eq, flag_test by (unfold RXSTPI; lia).
  fold v0. rewrite Hsetup. cbn [negb].
  rewrite and_not_eq, extend_extend. cbn [trace extend req ep0size].
  fold v1. fold w1. fold e1. fold zlp.
  replace (if wLength (req m0) <? len then wLength (req m0) else len)
    with lenc by (unfold lenc; destruct (Z.ltb_spec (wLength (req m0)) len);
                  lia).
  rewrite Hstep2 by lia. cbn [bind].
  rewrite Hstep3 by lia. cbn [bind].
  apply Hstep4. lia.
Qed.

(** C2: a control IN transfer of [k] full packets ([len = k * ep0size]) for
    which the host asked for more ([len < req.wLength]), with a setup packet
    pending and a host that does not end the data stage early (it waits for
    the [k + 1] packets and then starts the status stage): with enough budget
    for the waits usb_u2_control_in returns, and the packets it has handed to
    the controller are the [k] packets of the source followed by exactly one
    packet without data.  [k = 0] is included. *)
Theorem C2_zero_length_packet (b : Z) (from_progmem : bool) (k : nat) :
  need = S k ->
  Z.of_nat k * ep0size m0 < wLength (req m0) ->
  Z.testbit (sample (trace m0) UEINTX) RXSTPI = true ->
  exists f0 evs,
    in_packets evs
    = chunks (source from_progmem m0) b (Z.to_nat (ep0size m0)) k ++ [[]] /\
    forall fuel, (f0 <= fuel)%nat ->
      usb_u2_control_in fuel b (Z.of_nat k * ep0size m0) from_progmem m0
      = Done (extend evs m0).
Proof.
  intros Hneed Hlen Hsetup.
  set (len := Z.of_nat k * ep0size m0) in *.
  assert (Hl : 0 <= len) by (unfold len; nia).
  assert (Hz : (len <? wLength (req m0)) && (len mod ep0size m0 =? 0) = true).
  { apply andb_true_iff. split; [apply Z.ltb_lt; assumption|].
    apply Z.eqb_eq. unfold len. apply Z.mod_mul. lia. }
  assert (Hc : in_chunks (source from_progmem m0) (ep0size m0)
                         (Z.to_nat (Z.min len (wLength (req m0)))) b
                         (Z.min len (wLength (req m0)))
               = chunks (source from_progmem m0) b (Z.to_nat (ep0size m0)) k).
  { rewrite Z.min_l by lia. unfold len. apply in_chunks_full; nia. }
  pose proof (control_in_total b len from_progmem) as T.
  cbv zeta in T. rewrite Hz, Hc in T.
  apply T; [lia|lia| |assumption].
  rewrite chunks_length. lia.
Qed.

(** *** Transfers of any length, and the status stage of a transfer without
    data *)

Lemma in_chunks_sizes (src : Z -> Z) (p : Z) (r : nat) :
  0 < p ->
  forall b len,
    Forall (fun q => 0 < Z.of_nat (length q) <= p) (in_chunks src p r b len).
Proof.
  intros Hp. induction r as [|r IH]; intros b len; cbn [in_chunks];
    [constructor|].
  destruct (Z.ltb_spec 0 len); [|constructor].
  constructor; [|apply IH]. rewrite bytes_from_length. lia.
Qed.

Lemma in_chunks_count (src : Z -> Z) (p : Z) (r : nat) :
  0 < p ->
  forall b len, 0 <= len <= Z.of_nat r * p ->
    Z.of_nat (length (in_chunks src p r b len)) = (len + p - 1) / p.
Proof.
  intros Hp. induction r as [|r IH]; intros b len Hl.
  - replace len with 0 by lia. cbn [in_chunks length].
    symmetry. apply Z.div_small. lia.
  - cbn [in_chunks]. rewrite Nat2Z.inj_succ, Z.mul_succ_l in Hl.
    destruct (Z.ltb_spec 0 len) as [Hlen|Hlen].
    + cbn [length]. rewrite Nat2Z.inj_succ, IH by lia.
      destruct (Z.le_gt_cases len p) as [Hs|Hs].
      * rewrite Z.min_l by lia. replace (len - len + p - 1) with (p - 1) by lia.
        rewrite (Z.div_small (p - 1)) by lia.
        replace (len + p - 1) with (len - 1 + 1 * p) by lia.
        rewrite Z.div_add by lia. rewrite Z.div_small by lia. reflexivity.
      * rewrite Z.min_r by lia.
        replace (len + p - 1) with (len - p + p - 1 + 1 * p) by lia.
        rewrite Z.div_add by lia. lia.
    + replace len with 0 by lia. cbn [length].
      symmetry. apply Z.div_small. lia.
Qed.

(** X1: usb_u2_control_in for any length, with a setup packet pending and a
    host that takes the packets before it starts the status stage: with enough
    budget for the waits the function returns; the data packets handed over
    hold the first [min(len, wLength)] bytes of the source, in order, each
    packet between one and [ep0size] bytes long, as many packets as that
    takes; and they are followed by one empty packet exactly when [len <
    wLength] and [ep0size] divides [len]. *)
Theorem control_in_delivers (b len : Z) (fp : bool) :
  let n := Z.min len (wLength (req m0)) in
  let zlp := (len <? wLength (req m0)) && (len mod ep0size m0 =? 0) in
  0 <= len -> 0 <= wLength (req m0) ->
  Z.of_nat need = (n + ep0size m0 - 1) / ep0size m0 + (if zlp then 1 else 0) ->
  Z.testbit (sample (trace m0) UEINTX) RXSTPI = true ->
  exists f0 evs data,
    in_packets evs = data ++ (if zlp then [[]] else []) /\
    concat data = bytes_from (source fp m0) b (Z.to_nat n) /\
    Forall (fun q => 0 < Z.of_nat (length q) <= ep0size m0) data /\
    Z.of_nat (length data) = (n + ep0size m0 - 1) / ep0size m0 /\
    forall fuel, (f0 <= fuel)%nat ->
      usb_u2_control_in fuel b len fp m0 = Done (extend evs m0).
Proof.
  intros n zlp Hl Hw Hneed Hsetup.
  set (data := in_chunks (source fp m0) (ep0size m0) (Z.to_nat n) b n).
  assert (Hn : 0 <= n <= Z.of_nat (Z.to_nat n) * ep0size m0)
    by (unfold n; rewrite Z2Nat.id by lia; nia).
  assert (Hc : Z.of_nat (length data) = (n + ep0size m0 - 1) / ep0size m0)
    by (apply in_chunks_count; lia).
  destruct (control_in_total b len fp Hl Hw) as (f0 & evs & Hp & Hr).
  { fold n. fold zlp. fold data. destruct zlp; lia. }
  { assumption. }
  exists f0, evs, data. fold n in Hp. fold zlp in Hp.
  split; [exact Hp|]. split; [apply in_chunks_concat; lia|].
  split; [apply in_chunks_sizes; lia|]. split; assumption.
Qed.

Lemma polls_ctl (polls : list event) :
  forallb is_poll polls = true -> ctl polls.
Proof.
  unfold ctl. induction polls as [|e polls IH]; [reflexivity|].
  cbn [forallb]. intros Hp. apply andb_true_iff in Hp. destruct Hp as [He Hp].
  rewrite (IH Hp), andb_true_r.
  destruct e as [r v|r v]; [|discriminate]. destruct r; try discriminate.
  reflexivity.
Qed.

(** The zero-length IN packet of a status stage. *)
Lemma out_ack_total (evs : list event) (rdy : bool) (sent : list (list Z)) :
  in_run (false, [], []) evs = (rdy, [], sent) ->
  exists f0 ev,
    in_run (false, [], []) (evs ++ ev) = (true, [], sent ++ [[]]) /\
    ctl ev /\
    forall fuel, (f0 <= fuel)%nat ->
      out_ack fuel (extend evs m0) = Done (extend (evs ++ ev) m0).
Proof.
  intros Hrun.
  destruct (wait_flag TXINI (extend evs m0))
    as (f1 & polls & P1 & P2 & P3); [unfold TXINI; lia|apply Hready|].
  cbn [trace extend] in P2, P3. rewrite <- !app_assoc in P2, P3.
  set (h := trace m0 ++ evs ++ polls) in *.
  set (v2 := sample h UEINTX) in *.
  set (e2 := evs ++ polls ++ [Rd UEINTX v2]).
  assert (Hrun2 : in_run (false, [], []) e2 = (true, [], sent)).
  { unfold e2. rewrite !in_run_app, Hrun.
    destruct (in_run_polls polls P1 rdy [] sent) as (r' & Er).
    rewrite Er. cbn [in_run fold_left in_step]. rewrite P2. reflexivity. }
  set (v3 := sample (trace m0 ++ e2) UEINTX).
  assert (Hv3 : Z.testbit v3 TXINI = true).
  { unfold v3.
    replace (trace m0 ++ e2) with (h ++ Rd UEINTX (sample h UEINTX) :: []).
    - apply Hstable; [exact P2|reflexivity].
    - unfold e2, h. fold v2. rewrite <- !app_assoc. reflexivity. }
  set (w := u8 (Z.land v3 (Z.lnot (bit TXINI)))).
  assert (Hw : Z.testbit w TXINI = false).
  { unfold w. rewrite clear_bit_testbit by (unfold TXINI; lia).
    rewrite Z.eqb_refl, andb_false_r. reflexivity. }
  set (e3 := e2 ++ [Rd UEINTX v3; Wr UEINTX w]).
  assert (Hrun3 : in_run (false, [], []) e3 = (false, [], sent ++ [[]])).
  { unfold e3. rewrite in_run_app, Hrun2. cbn [in_run fold_left in_step].
    rewrite Hv3, Hw. reflexivity. }
  destruct (wait_flag TXINI (extend e3 m0))
    as (f2 & polls2 & Q1 & Q2 & Q3); [unfold TXINI; lia|apply Hready|].
  cbn [trace extend] in Q2, Q3.
  set (v5 := sample ((trace m0 ++ e3) ++ polls2) UEINTX) in *.
  exists (Nat.max f1 f2),
    ((polls ++ [Rd UEINTX v2])
     ++ [Rd UEINTX v3; Wr UEINTX w] ++ polls2 ++ [Rd UEINTX v5]).
  assert (Eall : evs ++ (polls ++ [Rd UEINTX v2])
                 ++ [Rd UEINTX v3; Wr UEINTX w] ++ polls2 ++ [Rd UEINTX v5]
                 = e3 ++ polls2 ++ [Rd UEINTX v5]).
  { unfold e3, e2. rewrite <- !app_assoc. reflexivity. }
  rewrite Eall. split; [|split].
  - rewrite in_run_app, Hrun3, in_run_app.
    destruct (in_run_polls polls2 Q1 false [] (sent ++ [[]])) as (r' & Er).
    rewrite Er. cbn [in_run fold_left in_step]. rewrite Q2. reflexivity.
  - repeat apply ctl_app; try (apply polls_ctl; assumption); reflexivity.
  - intros fuel Hfu. unfold out_ack.
    rewrite P3 by lia. cbn [bind].
    rewrite extend_extend. fold e2.
    rewrite and_not_eq, extend_extend. cbn [trace extend]. fold v3. fold w.
    fold e3. rewrite Q3 by lia. rewrite extend_extend. reflexivity.
Qed.

Lemma control_out_zero_total (b len : Z) :
  Z.min len (wLength (req m0)) <= 0 ->
  Z.testbit (sample (trace m0) UEINTX) RXSTPI = true ->
  exists f0 evs,
    in_packets evs = [[]] /\ ctl evs /\
    forall fuel, (f0 <= fuel)%nat ->
      usb_u2_control_out fuel b len m0 = Done (extend evs m0).
Proof.
  intros Hl Hsetup.
  set (v0 := sample (trace m0) UEINTX) in *.
  set (v1 := sample (trace m0 ++ [Rd UEINTX v0]) UEINTX).
  set (w1 := u8 (Z.land v1 (Z.lnot (bit RXSTPI)))).
  set (e1 := [Rd UEINTX v0; Rd UEINTX v1; Wr UEINTX w1]).
  assert (Hrun1 : in_run (false, [], []) e1 = (Z.testbit v1 TXINI, [], [])).
  { change e1 with ([Rd UEINTX v0] ++ [Rd UEINTX v1; Wr UEINTX w1]).
    rewrite in_run_app.
    change (in_run (false, [], []) [Rd UEINTX v0])
      with (Z.testbit v0 TXINI, @nil Z, @nil (list Z)).
    apply rmw_no_commit; unfold RXSTPI, TXINI; lia. }
  destruct (out_ack_total e1 _ [] Hrun1) as (f1 & ev & Hrun2 & C2 & Hstep).
  exists (Nat.max 1 f1), (e1 ++ ev).
  split; [unfold in_packets; rewrite Hrun2; reflexivity|].
  split; [apply ctl_app; [reflexivity|assumption]|].
  intros fuel Hfu. unfold usb_u2_control_out.
  rewrite flag_clear_eq, flag_test by (unfold RXSTPI; lia).
  fold v0. rewrite Hsetup. cbn [negb].
  rewrite and_not_eq, extend_extend. cbn [trace extend req app].
  fold v1. fold w1. fold e1.
  set (len' := if wLength (req m0) <? len then wLength (req m0) else len).
  assert (Hl' : len' <= 0)
    by (unfold len'; destruct (Z.ltb_spec (wLength (req m0)) len); lia).
  destruct fuel as [|fuel]; [lia|]. cbn [out_data].
  destruct (Z.ltb_spec 0 len'); [lia|]. cbn [bind out_status].
  apply Hstep. lia.
Qed.

(** X2: The status stage of a control transfer without data (SET_ADDRESS,
    SET_CONFIGURATION): usb_u2_control_out with nothing to receive ([min(len,
    wLength) = 0]) and a setup packet pending returns, with enough budget for
    the waits, after handing over exactly one packet, which is empty; it only
    uses the flag register, so the FIFO data register and RAM are not
    accessed. *)
Theorem control_out_status_handshake (b len : Z) :
  Z.min len (wLength (req m0)) <= 0 ->
  Z.testbit (sample (trace m0) UEINTX) RXSTPI = true ->
  exists f0 evs,
    in_packets evs = [[]] /\ ctl evs /\
    fifo_reads evs = [] /\ fifo_writes evs = [] /\
    forall fuel, (f0 <= fuel)%nat ->
      usb_u2_control_out fuel b len m0 = Done (extend evs m0).
Proof.
  intros Hl Hsetup.
  destruct (control_out_zero_total b len Hl Hsetup) as (f0 & evs & Hp & C & Hr).
  exists f0, evs. split; [assumption|]. split; [assumption|].
  split; [apply ctl_fifo_reads; assumption|].
  split; [apply ctl_fifo_writes; assumption|assumption].
Qed.

(** The bytes a transfer of any length delivers. *)
Lemma control_in_bytes (b len : Z) (fp : bool) :
  let n := Z.min len (wLength (req m0)) in
  let zlp := (len <? wLength (req m0)) && (len mod ep0size m0 =? 0) in
  0 <= len -> 0 <= wLength (req m0) ->
  Z.of_nat need = (n + ep0size m0 - 1) / ep0size m0 + (if zlp then 1 else 0) ->
  Z.testbit (sample (trace m0) UEINTX) RXSTPI = true ->
  exists f0 evs,
    concat (in_packets evs) = bytes_from (source fp m0) b (Z.to_nat n) /\
    forall fuel, (f0 <= fuel)%nat ->
      usb_u2_control_in fuel b len fp m0 = Done (extend evs m0).
Proof.
  intros n zlp Hl Hw Hneed Hsetup.
  set (data := in_chunks (source fp m0) (ep0size m0) (Z.to_nat n) b n).
  assert (Hn : 0 <= n <= Z.of_nat (Z.to_nat n) * ep0size m0)
    by (unfold n; rewrite Z2Nat.id by lia; nia).
  assert (Hc : Z.of_nat (length data) = (n + ep0size m0 - 1) / ep0size m0)
    by (apply in_chunks_count; lia).
  destruct (control_in_total b len fp Hl Hw) as (f0 & evs & Hp & Hr).
  { fold n. fold zlp. fold data. destruct zlp; lia. }
  { assumption. }
  exists f0, evs. split; [|exact Hr].
  rewrite Hp, concat_app. fold n. fold zlp. fold data.
  replace (concat (if zlp then [[]] else [])) with (@nil Z)
    by (destruct zlp; reflexivity).
  rewrite app_nil_r. apply in_chunks_concat; lia.
Qed.

End CooperatingHost.

(** *** The status stage of SET_ADDRESS *)

Lemma is_read_rd (r : reg) (v : Z) : is_read r (Rd r v) = true.
Proof. destruct r; reflexivity. Qed.

Lemma reads_polls (polls : list event) :
  forallb (is_read UEINTX) polls = true -> forallb is_poll polls = true.
Proof.
  induction polls as [|e polls IH]; [reflexivity|].
  cbn [forallb]. intros Hp. apply andb_true_iff in Hp. destruct Hp as [He Hp].
  rewrite (IH Hp), andb_true_r.
  destruct e as [r v|r v]; [|discriminate]. destruct r; try discriminate.
  reflexivity.
Qed.

(** A wait on a flag, whatever the budget: the polls read the register, and
    the wait ends on the first read that shows the flag. *)
Lemma busy_wait_cases (r : reg) (b : Z) (fuel : nat) :
  0 <= b ->
  forall m, exists polls,
    forallb (is_read r) polls = true /\
    match busy_wait (flag_clear r b) fuel m with
    | Spin m' => m' = extend polls m
    | Done m' =>
      Z.testbit (sample (trace m ++ polls) r) b = true /\
      m' = extend (polls ++ [Rd r (sample (trace m ++ polls) r)]) m
    end.
Proof.
  intros Hb. induction fuel as [|f IH]; intros m.
  - exists []. split; [reflexivity|]. cbn [busy_wait].
    rewrite extend_nil. reflexivity.
  - cbn [busy_wait]. rewrite flag_clear_eq, flag_test by assumption.
    destruct (Z.testbit (sample (trace m) r) b) eqn:Eb; cbn [negb].
    + exists []. split; [reflexivity|]. rewrite app_nil_r.
      split; [assumption|reflexivity].
    + destruct (IH (extend [Rd r (sample (trace m) r)] m))
        as (polls & P & Hm).
      exists (Rd r (sample (trace m) r) :: polls). split.
      * cbn [forallb]. rewrite is_read_rd, P. reflexivity.
      * destruct (busy_wait (flag_clear r b) f
                    (extend [Rd r (sample (trace m) r)] m)) as [m'|m'];
          cbn [trace extend] in Hm; rewrite <- ?app_assoc in Hm;
          rewrite extend_extend in Hm; exact Hm.
Qed.

(** The zero-length IN packet of a status stage, when the function has
    returned: the packet went out and TXINI was seen set again. *)
Lemma out_ack_done (fuel : nat) (evs : list event) (rdy : bool)
  (sent : list (list Z)) (m m' : machine) :
  txini_stable ->
  in_run (false, [], []) evs = (rdy, [], sent) ->
  out_ack fuel (extend evs m) = Done m' ->
  exists ev w,
    m' = extend (evs ++ ev ++ [Rd UEINTX w]) m /\
    Z.testbit w TXINI = true /\
    in_packets (evs ++ ev ++ [Rd UEINTX w]) = sent ++ [[]].
Proof.
  intros Hstable Hrun Hd. unfold out_ack in Hd.
  assert (Hb : 0 <= TXINI) by (unfold TXINI; lia).
  destruct (busy_wait_cases UEINTX TXINI fuel Hb (extend evs m))
    as (polls & P1 & Hm1).
  destruct (busy_wait (flag_clear UEINTX TXINI) fuel (extend evs m))
    as [m1|m1]; cbn [bind] in Hd; [|discriminate].
  destruct Hm1 as (T1 & ->). cbn [trace extend] in T1.
  rewrite <- app_assoc in T1.
  rewrite extend_extend in Hd. rewrite and_not_eq, extend_extend in Hd.
  cbn [trace extend] in Hd. rewrite <- !app_assoc in Hd.
  set (h := trace m ++ evs ++ polls) in *.
  set (v2 := sample h UEINTX) in *.
  set (e2 := evs ++ polls ++ [Rd UEINTX v2]).
  assert (Hrun2 : in_run (false, [], []) e2 = (true, [], sent)).
  { unfold e2. rewrite !in_run_app, Hrun.
    destruct (in_run_polls polls (reads_polls polls P1) rdy [] sent)
      as (r' & Er).
    rewrite Er. cbn [in_run fold_left in_step]. rewrite T1. reflexivity. }
  assert (Eh : trace m ++ e2 = h ++ [Rd UEINTX v2])
    by (unfold e2, h; rewrite <- !app_assoc; reflexivity).
  set (v3 := sample (trace m ++ e2) UEINTX).
  assert (Hv3 : Z.testbit v3 TXINI = true).
  { unfold v3. rewrite Eh. apply Hstable; [exact T1|reflexivity]. }
  set (w := u8 (Z.land v3 (Z.lnot (bit TXINI)))).
  assert (Hw : Z.testbit w TXINI = false).
  { unfold w. rewrite clear_bit_testbit by (unfold TXINI; lia).
    rewrite Z.eqb_refl, andb_false_r. reflexivity. }
  set (e3 := e2 ++ [Rd UEINTX v3; Wr UEINTX w]).
  assert (Hrun3 : in_run (false, [], []) e3 = (false, [], sent ++ [[]])).
  { unfold e3. rewrite in_run_app, Hrun2. cbn [in_run fold_left in_step].
    rewrite Hv3, Hw. reflexivity. }
  assert (Hd3 : busy_wait (flag_clear UEINTX TXINI) fuel (extend e3 m)
                = Done m').
  { rewrite <- Hd. unfold e3, w, v3. rewrite Eh. unfold e2, h.
    rewrite <- !app_assoc. reflexivity. }
  clear Hd.
  destruct (busy_wait_cases UEINTX TXINI fuel Hb (extend e3 m))
    as (polls2 & Q1 & Hm2).
  rewrite Hd3 in Hm2. destruct Hm2 as (T2 & ->). cbn [trace extend] in T2.
  set (v5 := sample ((trace m ++ e3) ++ polls2) UEINTX) in *.
  exists ((polls ++ [Rd UEINTX v2]) ++ [Rd UEINTX v3; Wr UEINTX w] ++ polls2),
    v5.
  assert (Eall : evs ++ ((polls ++ [Rd UEINTX v2])
                         ++ [Rd UEINTX v3; Wr UEINTX w] ++ polls2)
                     ++ [Rd UEINTX v5]
                 = e3 ++ polls2 ++ [Rd UEINTX v5]).
  { unfold e3, e2. rewrite <- !app_assoc. reflexivity. }
  rewrite Eall. split; [|split].
  - rewrite extend_extend. reflexivity.
  - exact T2.
  - unfold in_packets. rewrite in_run_app, Hrun3, in_run_app.
    destruct (in_run_polls polls2 (reads_polls polls2 Q1) false []
                (sent ++ [[]])) as (r' & Er).
    rewrite Er. reflexivity.
Qed.

(** The status stage of a request without data, when usb_u2_control_out has
    returned. *)
Lemma control_out_zero_done (fuel : nat) (b : Z) (m m' : machine) :
  txini_stable ->
  Z.testbit (sample (trace m) UEINTX) RXSTPI = true ->
  usb_u2_control_out fuel b 0 m = Done m' ->
  exists evs, m' = extend evs m /\ status_acknowledged evs.
Proof.
  intros Hstable Hsetup Hd.
  set (v0 := sample (trace m) UEINTX) in *.
  set (v1 := sample (trace m ++ [Rd UEINTX v0]) UEINTX).
  set (w1 := u8 (Z.land v1 (Z.lnot (bit RXSTPI)))).
  set (e1 := [Rd UEINTX v0; Rd UEINTX v1; Wr UEINTX w1]).
  assert (Hrun1 : in_run (false, [], []) e1 = (Z.testbit v1 TXINI, [], [])).
  { change e1 with ([Rd UEINTX v0] ++ [Rd UEINTX v1; Wr UEINTX w1]).
    rewrite in_run_app.
    change (in_run (false, [], []) [Rd UEINTX v0])
      with (Z.testbit v0 TXINI, @nil Z, @nil (list Z)).
    apply rmw_no_commit; unfold RXSTPI, TXINI; lia. }
  unfold usb_u2_control_out in Hd.
  rewrite flag_clear_eq, flag_test in Hd by (unfold RXSTPI; lia).
  fold v0 in Hd. rewrite Hsetup in Hd. cbn [negb] in Hd.
  rewrite and_not_eq, extend_extend in Hd. cbn [trace extend req app] in Hd.
  fold v1 in Hd. fold w1 in Hd. fold e1 in Hd.
  set (len' := if wLength (req m) <? 0 then wLength (req m) else 0) in *.
  assert (Hl' : len' <= 0)
    by (unfold len'; destruct (Z.ltb_spec (wLength (req m)) 0); lia).
  pose proof (out_data_zero fuel fuel b len' (extend e1 m) Hl') as E2.
  destruct (out_data fuel fuel b len' (extend e1 m)) as [m2|m2];
    cbn [bind final] in *; [|discriminate]. subst m2.
  destruct (Z.ltb_spec 0 len'); [lia|]. cbn [out_status] in Hd.
  destruct (out_ack_done fuel e1 _ [] m m' Hstable Hrun1 Hd)
    as (ev & w & -> & Hw & Hp).
  exists (e1 ++ ev ++ [Rd UEINTX w]). split; [reflexivity|].
  split; [exact Hp|].
  exists (e1 ++ ev), w. rewrite <- app_assoc. split; [reflexivity|exact Hw].
Qed.

(** C4: on a valid SET_ADDRESS request (standard, host to device, recipient
    device, state Default) the dispatcher first writes the address with ADDEN
    clear, then runs the status stage, a control OUT transfer without data.
    No write that sets ADDEN happens before usb_u2_control_out has returned:
    none while the request is read and the address programmed ([evs1]), none
    during the transfer ([evs2]).  If the transfer is still polling, the
    dispatcher is too, and ADDEN has not been written.  Once it has returned,
    with the setup packet still pending when it was entered and a controller
    that keeps TXINI until the firmware clears it, the status stage is over:
    the empty packet has been handed over and TXINI has been read as set
    again after it, all of it with address recognition off; the next I/O is
    the read-modify-write of UDADDR that sets ADDEN, and the state becomes
    Address.  With a controller that gives the bank back the transfer does
    return, given enough budget for the waits. *)
Theorem C4_address_enabled_after_status (fuel : nat) (m : machine) :
  let m1 := read_request (write UENUM 0 m) in
  let m2 := write UDADDR (Z.land (wValue (req m1)) 0x7f) m1 in
  NoDup (request_labels H) ->
  Z.land (bmRequestType (req m1)) (USB_U2_REQ_TYPE_MASK H)
  = USB_U2_REQ_TYPE_STANDARD H ->
  bRequest (req m1) = USB_U2_REQ_SET_ADDRESS H ->
  dir_of (req m1) <> USB_U2_REQ_DIR_DEVICE_TO_HOST H ->
  rcpt_of (req m1) = USB_U2_REQ_RCPT_DEVICE H ->
  state m = USB_U2_STATE_DEFAULT ->
  txini_stable ->
  Z.testbit (sample (trace m2) UEINTX) RXSTPI = true ->
  exists evs1 evs2,
    trace m2 = trace m ++ evs1 /\ address_disabled evs1 /\
    final (usb_u2_control_out fuel NULL 0 m2) = extend evs2 m2 /\
    address_disabled evs2 /\
    match usb_u2_control_out fuel NULL 0 m2 with
    | Spin m3 => handle_ctrl fuel m = Spin m3
    | Done m3 =>
      status_acknowledged evs2 /\
      exists evs3,
        trace (final (handle_ctrl fuel m))
        = trace m3
          ++ Rd UDADDR (sample (trace m3) UDADDR)
          :: Wr UDADDR (u8 (Z.lor (sample (trace m3) UDADDR) (bit ADDEN)))
          :: evs3 /\
        address_disabled evs3 /\
        state (final (handle_ctrl fuel m)) = USB_U2_STATE_ADDRESS
    end /\
    ((forall h, eventually TXINI h) ->
     exists f0, forall k, (f0 <= k)%nat ->
       exists m3, usb_u2_control_out k NULL 0 m2 = Done m3).
Proof.
  intros m1 m2 Hn Hty Hrq Hdir Hrc Hst Hstable Hsetup.
  destruct (read_request_spec (write UENUM 0 m)) as (e1 & E1 & D1 & S1 & _).
  fold m1 in E1, S1. cbn [state write log] in S1.
  destruct (control_out_zero fuel NULL m2) as (e2 & E2 & C2).
  exists ([Wr UENUM (u8 0)] ++ e1
          ++ [Wr UDADDR (u8 (Z.land (wValue (req m1)) 0x7f))]), e2.
  assert (Hbit : Z.testbit (u8 (Z.land (wValue (req m1)) 0x7f)) ADDEN = false).
  { unfold u8, ADDEN. change 0x7f with (Z.ones 7).
    rewrite Z.land_ones by lia.
    rewrite Z.mod_small
      by (pose proof (Z.mod_pos_bound (wValue (req m1)) (2 ^ 7)); lia).
    apply Z.mod_pow2_bits_high; lia. }
  split.
  { unfold m2, write. cbn [trace log]. rewrite E1. unfold write.
    cbn [trace log]. rewrite <- !app_assoc. reflexivity. }
  split.
  { apply address_disabled_app; [reflexivity|].
    apply address_disabled_app; [assumption|].
    unfold address_disabled; cbn [forallb enables_address].
    rewrite Hbit; reflexivity. }
  split; [assumption|]. split; [apply ctl_address_disabled; assumption|].
  assert (Hh : handle_ctrl fuel m
               = (usb_u2_control_out fuel NULL 0 m2 >>= fun m =>
                  Done (set_state USB_U2_STATE_ADDRESS
                          (or_into UDADDR (bit ADDEN) m))) >>= stall).
  { unfold handle_ctrl. fold m1. rewrite Hty, Z.eqb_refl.
    rewrite (standard_request_set_address fuel m1 Hn Hrq).
    unfold set_address. rewrite Hrc, Z.eqb_refl, S1, Hst.
    apply Z.eqb_neq in Hdir. rewrite Hdir. reflexivity. }
  split.
  - rewrite Hh.
    destruct (usb_u2_control_out fuel NULL 0 m2) as [m3|m3] eqn:Ed;
      cbn [bind]; [|reflexivity].
    split.
    + destruct (control_out_zero_done fuel NULL m2 m3 Hstable Hsetup Ed)
        as (evs & Em & Hack).
      cbn [final] in E2. rewrite Em in E2.
      assert (evs = e2).
      { apply (f_equal trace) in E2. cbn [trace extend] in E2.
        apply app_inv_head in E2. exact E2. }
      subst evs. exact Hack.
    + rewrite or_into_eq.
      match goal with |- context [stall ?x] =>
        destruct (stall_spec x) as (e3 & E3 & D3); rewrite E3 end.
      exists e3. cbn [final trace extend set_state state].
      rewrite <- app_assoc. auto.
  - intros Hready.
    destruct (control_out_zero_total m2 Hstable Hready NULL 0)
      as (f0 & evs & _ & _ & Hr); [lia|exact Hsetup|].
    exists f0. intros k Hk. exists (extend evs m2). apply Hr. exact Hk.
Qed.

(** *** The internal serial number *)

(** C8, as the code has it: usb_u2_init reads the ten bytes at 0x0e..0x17 of
    the signature row and stores their twenty lowercase hexadecimal digits,
    one 16-bit character each, behind the first word of [internal_serial];
    with the initializer of that word the array is the string descriptor
    {bLength = 42, bDescriptorType = STRING} with a 40-byte payload.  A
    GET_DESCRIPTOR request for the reserved string index that the
    application's callback does not answer is served by
    usb_u2_control_in from that array in RAM with length 42, and the bytes put
    into the FIFO are the first bytes of the descriptor, at most
    [min(42, wLength)] of them.  With a setup packet pending and a host that
    takes the packets of the data stage before it starts the status stage,
    handle_ctrl returns with enough budget for the waits, and the packets
    handed over hold the first [min(42, wLength)] bytes of the descriptor,
    all of them. *)
Theorem C8_internal_serial_descriptor (fuel fuel' : nat) (m0 m : machine) :
  let d := spec_string_descriptor H (spec_serial_chars identifier) in
  let m1 := read_request (write UENUM 0 m) in
  (state m0 = USB_U2_STATE_DEFAULT ->
   ram m0 (internal_serial L) = 42 ->
   ram m0 (internal_serial L + 1) = USB_U2_DESCR_TYPE_STRING H ->
   bytes_from (ram (final (usb_u2_init fuel' m0))) (internal_serial L) 42 = d)
  /\ length identifier = 10%nat
  /\ length (spec_serial_chars identifier) = 20%nat
  /\ Forall (fun c => In c lowercase_hex) (spec_serial_chars identifier)
  /\ firstn 2 d = [42; USB_U2_DESCR_TYPE_STRING H]
  /\ length d = 42%nat
  /\ (NoDup (request_labels H) -> NoDup (descriptor_labels H) ->
      Z.land (bmRequestType (req m1)) (USB_U2_REQ_TYPE_MASK H)
      = USB_U2_REQ_TYPE_STANDARD H ->
      bRequest (req m1) = USB_U2_REQ_GET_DESCRIPTOR H ->
      dir_of (req m1) <> USB_U2_REQ_DIR_HOST_TO_DEVICE H ->
      rcpt_of (req m1) <> USB_U2_REQ_RCPT_ENDPOINT H ->
      Z.shiftr (wValue (req m1)) 8 = USB_U2_DESCR_TYPE_STRING H ->
      usb_u2_string_descriptor_cb (wValue (req m1)) (wIndex (req m1)) = NULL ->
      u8 (wValue (req m1)) = USB_U2_DESCR_STR_IDX_SERIAL_INTERNAL H ->
      USB_U2_DESCR_STR_IDX_SERIAL_INTERNAL H <> 0 ->
      internal_serial L <> NULL ->
      bytes_from (ram m) (internal_serial L) 42 = d ->
      handle_ctrl fuel m
      = usb_u2_control_in fuel (internal_serial L) 42 false m1 >>= stall /\
      (exists evs (j : nat),
         final (usb_u2_control_in fuel (internal_serial L) 42 false m1)
         = extend evs m1 /\
         fifo_writes evs = firstn j d /\
         Z.of_nat j <= Z.min 42 (wLength (req m1))) /\
      forall need : nat,
        let n := Z.min 42 (wLength (req m1)) in
        let data := in_chunks (source false m1) (ep0size m1) (Z.to_nat n)
                              (internal_serial L) n in
        let zlp := (42 <? wLength (req m1)) && (42 mod ep0size m1 =? 0) in
        txini_stable -> (forall h, eventually TXINI h) ->
        host_waits_for need (trace m1) ->
        host_acknowledges need (trace m1) ->
        0 < ep0size m1 < 256 ->
        Z.testbit (sample (trace m1) UEINTX) RXSTPI = true ->
        need = (length data + (if zlp then 1 else 0))%nat ->
        exists f0 evs,
          concat (in_packets evs) = firstn (Z.to_nat n) d /\
          forall fuel0, (f0 <= fuel0)%nat ->
            handle_ctrl fuel0 m = stall (extend evs m1)).
Proof.
  intros d m1.
  assert (Hlen : length (spec_serial_chars identifier) = 20%nat).
  { rewrite spec_serial_chars_length. unfold identifier.
    rewrite bytes_from_length. reflexivity. }
  assert (Hhex : Forall (fun c => In c lowercase_hex)
                        (spec_serial_chars identifier)).
  { apply spec_serial_chars_hex. apply bytes_from_range. }
  assert (Hd2 : firstn 2 d = [42; USB_U2_DESCR_TYPE_STRING H]).
  { unfold d, spec_string_descriptor. rewrite Hlen. reflexivity. }
  assert (Hdl : length d = 42%nat).
  { unfold d, spec_string_descriptor. cbn [app length].
    assert (Hf : forall l : list Z,
               length (flat_map (fun c => [c; 0]) l) = (2 * length l)%nat).
    { induction l as [|c l IH]; [reflexivity|].
      cbn [flat_map app length]. rewrite IH. lia. }
    rewrite Hf, Hlen. reflexivity. }
  split; [intros; apply init_serial; assumption|].
  split; [unfold identifier; apply bytes_from_length|].
  do 4 (split; [assumption|]).
  intros Hn Hnd Hty Hrq Hdir Hrc Hst Hcb Hix Hnz Hnn Hram.
  destruct (read_request_spec (write UENUM 0 m)) as (e1 & _ & _ & _ & R1).
  fold m1 in R1. destruct R1 as (_ & _ & _ & R1). cbn [ram write log] in R1.
  assert (H42 : ram m1 (internal_serial L) = 42).
  { rewrite R1. apply (f_equal (fun l => nth 0 (firstn 2 l) 0)) in Hram.
    rewrite Hd2 in Hram. exact Hram. }
  assert (Hdisp : forall fu,
            handle_ctrl fu m
            = usb_u2_control_in fu (internal_serial L) 42 false m1 >>= stall).
  { intros fu. unfold handle_ctrl. fold m1. rewrite Hty, Z.eqb_refl.
    rewrite (standard_request_get_descriptor fu m1 Hn Hrq).
    unfold get_descriptor.
    apply Z.eqb_neq in Hdir, Hrc, Hnn. rewrite Hdir, Hrc. cbn [orb].
    rewrite (resolve_descriptor_serial m1 Hnd Hst Hcb Hix Hnz).
    rewrite Hnn, Z.add_0_r, H42. reflexivity. }
  pose proof (read_request_wLength (write UENUM 0 m)) as Hwl. fold m1 in Hwl.
  assert (Hsrc : bytes_from (source false m1) (internal_serial L) 42 = d).
  { unfold source.
    rewrite (bytes_from_ext _ (fun a => u8 (ram m a)))
      by (intros a; rewrite R1; reflexivity).
    rewrite bytes_from_u8; [assumption|]. rewrite Hram.
    apply spec_string_descriptor_range.
    - pose proof (read_request_wValue (write UENUM 0 m)) as Hv. fold m1 in Hv.
      rewrite <- Hst. rewrite Z.shiftr_div_pow2 by lia.
      change (2 ^ 8) with 256. Z.div_mod_to_equations; lia.
    - rewrite Hlen; lia.
    - eapply Forall_impl; [|exact Hhex]. apply lowercase_hex_range. }
  split; [apply Hdisp|]. split.
  { destruct (control_in_spec fuel (internal_serial L) 42 false m1
                ltac:(lia) Hwl) as (evs & E & j & Hw & Hj & _).
    exists evs, j. split; [assumption|]. split; [|assumption].
    rewrite Hw. rewrite (bytes_from_firstn _ _ j 42) by lia.
    rewrite Hsrc. reflexivity. }
  intros need n data zlp Hstable Hready Hwaits Hack Hsize Hsetup Hneed.
  destruct (control_in_total m1 need Hstable Hready Hwaits Hsize Hack
              (internal_serial L) 42 false ltac:(lia) Hwl Hneed Hsetup)
    as (f0 & evs & Hp & Hrun).
  exists f0, evs. split.
  - rewrite Hp, concat_app. fold n.
    replace (concat (if (42 <? wLength (req m1)) && (42 mod ep0size m1 =? 0)
                     then [[]] else [])) with (@nil Z)
      by (destruct ((42 <? wLength (req m1)) && (42 mod ep0size m1 =? 0));
          reflexivity).
    rewrite app_nil_r, in_chunks_concat by (rewrite ?Z2Nat.id; nia).
    rewrite (bytes_from_firstn _ _ (Z.to_nat n) 42) by lia.
    rewrite Hsrc. reflexivity.
  - intros fuel0 Hfu. rewrite Hdisp, (Hrun fuel0 Hfu). reflexivity.
Qed.

(** *** The endpoint configurator *)


(** C6: a call whose endpoint number (the low four bits of the address byte)
    is not [epmax + 1] leaves the machine as it was, no register touched; an
    in-order call raises [epmax] by exactly one; hence configuring the same
    endpoint twice in a row does nothing the second time. *)
Theorem C6_configure_endpoint_in_order (ep : Z) (m : machine) :
  let epnum := Z.land (pgm_read_byte_near (ep + off_bEndpointAddress H)) 0xf in
  (epnum <> epmax m + 1 -> usb_u2_configure_endpoint ep m = m) /\
  (ep <> NULL -> epnum = epmax m + 1 ->
   epmax (usb_u2_configure_endpoint ep m) = epmax m + 1) /\
  usb_u2_configure_endpoint ep (usb_u2_configure_endpoint ep m)
  = usb_u2_configure_endpoint ep m.
Proof.
  intros epnum.
  assert (Hr : 0 <= epnum < 16) by apply land_0xf_range.
  unfold usb_u2_configure_endpoint; fold epnum.
  destruct (ep =? NULL) eqn:En.
  - repeat split; intros; try reflexivity.
    apply Z.eqb_eq in En; contradiction.
  - destruct (epnum =? epmax m + 1) eqn:Ee; simpl.
    + apply Z.eqb_eq in Ee. repeat split; intros.
      * contradiction.
      * rewrite u8_small by lia. reflexivity.
      * rewrite u8_small by lia.
        replace (epnum =? epmax m + 1 + 1) with false; [reflexivity|].
        symmetry; apply Z.eqb_neq; lia.
    + repeat split; intros; try reflexivity.
      * apply Z.eqb_neq in Ee; contradiction.
      * rewrite Ee; reflexivity.
Qed.

(** *** The transfer engine without a pending setup packet *)

(** C9: when the setup-received flag reads as clear, usb_u2_control_in and
    usb_u2_control_out return at once, whatever the budget: the statics and
    RAM are untouched, and the only I/O is the one read of UEINTX that showed
    the flag; no register is written and the FIFO is not accessed. *)
Theorem C9_no_pending_setup (fuel : nat) (b len : Z) (from_progmem : bool)
  (m : machine) :
  Z.land (sample (trace m) UEINTX) (bit RXSTPI) = 0 ->
  usb_u2_control_in fuel b len from_progmem m
  = Done (extend [Rd UEINTX (sample (trace m) UEINTX)] m) /\
  usb_u2_control_out fuel b len m
  = Done (extend [Rd UEINTX (sample (trace m) UEINTX)] m).
Proof.
  intros Hc.
  unfold usb_u2_control_in, usb_u2_control_out, flag_clear, read.
  rewrite Hc; simpl. split; reflexivity.
Qed.

(** *** The reset handler *)

(** C5, as the code has it: on a bus reset (EORSTI reads as set) for which the
    application hands out a device descriptor, the handler leaves state
    Default, [config = 0] and [epmax = 0], whatever they were; when the
    application has no descriptor, the handler only acknowledges the
    interrupt: its I/O is the read of UDINT that shows the reset and the
    read-modify-write of UDINT that clears EORSTI, and nothing else of the
    machine changes, so that state, [config] and [epmax] are what they
    were. *)
Theorem C5_reset_with_descriptor (m : machine) :
  let v := sample (trace m) UDINT in
  let v' := sample (trace m ++ [Rd UDINT v]) UDINT in
  Z.land v (bit EORSTI) <> 0 ->
  (usb_u2_device_descriptor_cb <> NULL ->
   state (USB_GEN_vect m) = USB_U2_STATE_DEFAULT /\
   config (USB_GEN_vect m) = 0 /\ epmax (USB_GEN_vect m) = 0) /\
  (usb_u2_device_descriptor_cb = NULL ->
   USB_GEN_vect m
   = extend [Rd UDINT v; Rd UDINT v';
             Wr UDINT (u8 (Z.land v' (Z.lnot (bit EORSTI))))] m /\
   state (USB_GEN_vect m) = state m /\
   config (USB_GEN_vect m) = config m /\ epmax (USB_GEN_vect m) = epmax m).
Proof.
  intros v v' Hc. apply Z.eqb_neq in Hc.
  split; intros Hd.
  - unfold USB_GEN_vect, flag_clear, read. fold v. rewrite Hc; simpl.
    apply Z.eqb_neq in Hd. rewrite Hd. simpl. repeat split.
  - assert (E : USB_GEN_vect m
                = extend [Rd UDINT v; Rd UDINT v';
                          Wr UDINT (u8 (Z.land v' (Z.lnot (bit EORSTI))))] m).
    { unfold USB_GEN_vect. rewrite flag_clear_eq. fold v. rewrite Hc.
      rewrite and_not_eq, extend_extend. rewrite Hd. cbn [Z.eqb NULL].
      reflexivity. }
    rewrite E. repeat split.
Qed.

(** ** Further properties of the firmware *)

(** *** The setup packet and the stall *)

Lemma fifo_take_length (n : nat) :
  forall h, length (fifo_take n h) = n.
Proof. induction n as [|n IH]; intros h; simpl; auto. Qed.

Lemma fifo_take_range (n : nat) :
  forall h, Forall (fun x => 0 <= x < 256) (fifo_take n h).
Proof.
  induction n as [|n IH]; intros h; simpl; constructor;
    [apply sample_range|apply IH].
Qed.

Lemma read_setup_take (k : nat) :
  forall n i bs m,
    i = sizeof_control_request - Z.of_nat k -> (k <= 8)%nat -> (k <= n)%nat ->
    read_setup n i bs m
    = (bs ++ fifo_take k (trace m),
       extend (map (Rd UEDATX) (fifo_take k (trace m))) m).
Proof.
  unfold sizeof_control_request.
  induction k as [|k IH]; intros n i bs m Hi Hk Hn.
  - cbn [fifo_take map]. rewrite app_nil_r, extend_nil.
    destruct n; cbn [read_setup]; [reflexivity|].
    unfold sizeof_control_request.
    destruct (Z.ltb_spec i 8); [lia|reflexivity].
  - destruct n as [|n]; [lia|]. cbn [read_setup].
    unfold sizeof_control_request.
    destruct (Z.ltb_spec i 8); [|lia].
    unfold read. rewrite log_extend.
    rewrite (IH n (u8 (i + 1))) by (rewrite ?u8_small; lia).
    cbn [trace extend fifo_take map]. rewrite extend_extend, <- app_assoc.
    reflexivity.
Qed.

Lemma read_request_take (m : machine) :
  read_request m
  = set_req (request_of_bytes (fifo_take 8 (trace m)))
            (extend (map (Rd UEDATX) (fifo_take 8 (trace m))) m).
Proof.
  unfold read_request.
  rewrite (read_setup_take 8 256 0 [] m) by (try reflexivity; lia).
  reflexivity.
Qed.

Lemma word_range (lo hi : Z) :
  0 <= lo < 256 -> 0 <= hi < 256 -> 0 <= lo + 256 * hi < 65536.
Proof. lia. Qed.

Lemma follows_refl (m : machine) : follows m m.
Proof. split; [exists []; rewrite app_nil_r|]; reflexivity. Qed.

Lemma follows_trans (a b c : machine) :
  follows a b -> follows b c -> follows a c.
Proof.
  intros ((e1 & T1) & R1) ((e2 & T2) & R2). split.
  - exists (e1 ++ e2). rewrite T2, T1, app_assoc. reflexivity.
  - rewrite R2. exact R1.
Qed.

Lemma follows_extend (evs : list event) (m : machine) :
  follows m (extend evs m).
Proof. split; [exists evs|]; reflexivity. Qed.

Lemma follows_bind (m : machine) (o : outcome) (k : machine -> outcome) :
  follows m (final o) ->
  (forall m1, o = Done m1 -> follows m1 (final (k m1))) ->
  follows m (final (o >>= k)).
Proof.
  intros Ho Hk. destruct o as [m1|m1]; cbn [bind final] in *.
  - apply (follows_trans m m1); [exact Ho|apply Hk; reflexivity].
  - exact Ho.
Qed.

Lemma in_data_extend (fp : bool) (fuel n : nat) (b len : Z) (m : machine) :
  exists evs, final (in_data fp fuel n b len m) = extend evs m.
Proof.
  destruct (Z.le_gt_cases 0 len) as [Hl|Hl].
  - destruct (in_data_spec fp fuel n b len m Hl) as (evs & E & _).
    exists evs. exact E.
  - exists []. rewrite extend_nil. destruct n; cbn [in_data final];
      [reflexivity|].
    destruct (Z.ltb_spec 0 len); [lia|reflexivity].
Qed.

Lemma control_in_follows (fuel : nat) (b len : Z) (fp : bool) (m : machine) :
  follows m (final (usb_u2_control_in fuel b len fp m)).
Proof.
  unfold usb_u2_control_in. rewrite flag_clear_eq.
  case_if; [apply follows_extend|].
  rewrite and_not_eq, extend_extend. cbv zeta.
  match goal with |- context [in_data fp fuel fuel b ?l (extend ?e m)] =>
    generalize l; intros lenc; set (e1 := e) end.
  match goal with |- context [in_zlp fuel ?z] =>
    generalize z; intros wz end.
  apply (follows_trans m (extend e1 m)); [apply follows_extend|].
  apply follows_bind.
  - destruct (in_data_extend fp fuel fuel b lenc (extend e1 m)) as (evs & E).
    rewrite E. apply follows_extend.
  - intros m1 _. apply follows_bind.
    + destruct (in_zlp_ctl fuel wz m1) as (evs & E & _).
      rewrite E. apply follows_extend.
    + intros m2 _. destruct (in_status_ctl fuel m2) as (evs & E & _).
      rewrite E. apply follows_extend.
Qed.

Lemma control_out_zero_follows (fuel : nat) (b : Z) (m : machine) :
  follows m (final (usb_u2_control_out fuel b 0 m)).
Proof.
  destruct (control_out_zero fuel b m) as (evs & E & _).
  rewrite E. apply follows_extend.
Qed.

Lemma stall_follows (m : machine) : follows m (final (stall m)).
Proof.
  destruct (stall_spec m) as (evs & E & _). rewrite E. apply follows_extend.
Qed.

Lemma get_status_follows (fuel : nat) (m : machine) :
  follows m (final (get_status fuel m)).
Proof.
  assert (Hsend : forall status evs,
            follows m
              (final (usb_u2_control_in fuel (status_slot L) 2 false
                        (set_ram (store16 (status_slot L) status
                                          (ram (extend evs m)))
                                 (extend evs m))))).
  { intros status evs.
    eapply follows_trans; [|apply control_in_follows].
    split; [exists evs|]; reflexivity. }
  unfold get_status. cbv zeta.
  case_if; [apply follows_refl|].
  case_if; [rewrite <- (extend_nil m) at 2 3; apply Hsend|].
  case_if; [|rewrite <- (extend_nil m) at 2 3; apply Hsend].
  case_if; [apply follows_refl|].
  rewrite write_eq, flag_clear_eq, write_eq, !extend_extend.
  apply Hsend.
Qed.

Lemma set_address_follows (fuel : nat) (m : machine) :
  follows m (final (set_address fuel m)).
Proof.
  unfold set_address. cbv zeta. case_if; [apply follows_refl|].
  rewrite write_eq.
  eapply follows_trans; [apply follows_extend|].
  apply follows_bind; [apply control_out_zero_follows|].
  intros m1 _. rewrite or_into_eq. cbn [final].
  split; [eexists|]; reflexivity.
Qed.

Lemma get_descriptor_follows (fuel : nat) (m : machine) :
  follows m (final (get_descriptor fuel m)).
Proof.
  unfold get_descriptor. cbv zeta. case_if; [apply follows_refl|].
  destruct (resolve_descriptor m) as [[addr len_offset] from_flash].
  case_if; [apply follows_refl|]. apply control_in_follows.
Qed.

Lemma set_configuration_follows (fuel : nat) (m : machine) :
  callbacks_keep_request ->
  follows m (final (set_configuration fuel m)).
Proof.
  intros (Hcb & _). unfold set_configuration. cbv zeta.
  case_if; [apply follows_refl|].
  case_if; [split; [exists []; rewrite app_nil_r|]; reflexivity|].
  apply (follows_trans m (set_config (u8 (wValue (req m))) m));
    [split; [exists []; rewrite app_nil_r|]; reflexivity|].
  apply follows_bind; [apply control_out_zero_follows|].
  intros m1 _. apply follows_bind; [apply Hcb|].
  intros m2 _. cbn [final].
  split; [exists []; rewrite app_nil_r|]; reflexivity.
Qed.

Lemma standard_request_follows (fuel : nat) (m : machine) :
  callbacks_keep_request ->
  follows m (final (standard_request fuel m)).
Proof.
  intros Hcb. unfold standard_request. cbv zeta.
  repeat case_if; try apply follows_refl.
  - apply get_status_follows.
  - apply set_address_follows.
  - apply get_descriptor_follows.
  - apply set_configuration_follows. exact Hcb.
Qed.

(** Whatever the request, handle_ctrl goes on from the machine that has the
    setup packet read. *)
Lemma handle_ctrl_follows (fuel : nat) (m : machine) :
  callbacks_keep_request ->
  follows (read_request (write UENUM 0 m)) (final (handle_ctrl fuel m)).
Proof.
  intros Hcb. unfold handle_ctrl. cbv zeta.
  generalize (read_request (write UENUM 0 m)). intros m1.
  case_if.
  - apply follows_bind; [apply standard_request_follows; exact Hcb|].
    intros m2 _. apply stall_follows.
  - case_if; [|apply stall_follows].
    destruct usb_u2_control_vendor_cb as [cb|] eqn:Ev; [|apply stall_follows].
    apply follows_bind; [apply (proj2 Hcb cb); exact Ev|].
    intros m2 _. apply stall_follows.
Qed.

(** X3: Whatever the request and the budget, the I/O of handle_ctrl begins
    with the selection of endpoint 0 and eight reads of the FIFO: the whole
    setup packet is taken out before the request is looked at, also when the
    request is then refused.  The request the function leaves in [req] is
    made of these eight bytes, the 16-bit fields put together low byte first,
    each field within its width.  The callbacks of the application add to the
    I/O history and do not write [req], a static of usb-u2.c. *)
Theorem setup_packet_read_whole (fuel : nat) (m : machine) :
  let bs := fifo_take 8 (trace m ++ [Wr UENUM 0]) in
  let rq := req (final (handle_ctrl fuel m)) in
  callbacks_keep_request ->
  (exists rest,
     trace (final (handle_ctrl fuel m))
     = trace m ++ Wr UENUM 0 :: map (Rd UEDATX) bs ++ rest) /\
  read_request (write UENUM 0 m)
  = set_req (request_of_bytes bs)
            (extend (Wr UENUM 0 :: map (Rd UEDATX) bs) m) /\
  length bs = 8%nat /\
  bmRequestType rq = nth 0 bs 0 /\ bRequest rq = nth 1 bs 0 /\
  wValue rq = nth 2 bs 0 + 256 * nth 3 bs 0 /\
  wIndex rq = nth 4 bs 0 + 256 * nth 5 bs 0 /\
  wLength rq = nth 6 bs 0 + 256 * nth 7 bs 0 /\
  0 <= bmRequestType rq < 256 /\ 0 <= bRequest rq < 256 /\
  0 <= wValue rq < 65536 /\ 0 <= wIndex rq < 65536 /\
  0 <= wLength rq < 65536.
Proof.
  intros bs rq Hcb.
  assert (E : read_request (write UENUM 0 m)
              = set_req (request_of_bytes bs)
                        (extend (Wr UENUM 0 :: map (Rd UEDATX) bs) m)).
  { rewrite read_request_take. unfold write. rewrite log_extend.
    cbn [trace extend]. fold bs. rewrite extend_extend. reflexivity. }
  assert (Hr : forall i, 0 <= nth i bs 0 < 256).
  { intros i. apply nth_byte_range. apply fifo_take_range. }
  destruct (handle_ctrl_follows fuel m Hcb) as ((rest & T) & R).
  rewrite E in T, R. cbn [trace set_req extend req] in T, R.
  assert (Erq : rq = request_of_bytes bs) by exact R.
  split.
  { exists rest. rewrite T, <- app_assoc. reflexivity. }
  split; [exact E|]. split; [apply fifo_take_length|].
  rewrite Erq. cbn [request_of_bytes bmRequestType bRequest wValue wIndex
    wLength].
  do 5 (split; [reflexivity|]).
  repeat split; try apply Hr; apply word_range; apply Hr.
Qed.

Lemma standard_request_set_configuration (fuel : nat) (m : machine) :
  NoDup (request_labels H) ->
  bRequest (req m) = USB_U2_REQ_SET_CONFIGURATION H ->
  standard_request fuel m = set_configuration fuel m.
Proof.
  intros Hn Hr. unfold standard_request. rewrite Hr.
  unfold request_labels in Hn.
  rewrite !(nodup_later _ _ [_; _; _; _; _; _; _] _ Hn) by (simpl; auto 12).
  rewrite Z.eqb_refl. reflexivity.
Qed.

Lemma standard_request_get_status (fuel : nat) (m : machine) :
  bRequest (req m) = USB_U2_REQ_GET_STATUS H ->
  standard_request fuel m = get_status fuel m.
Proof.
  intros Hr. unfold standard_request. rewrite Hr, Z.eqb_refl. reflexivity.
Qed.

Lemma u8_0 : u8 0 = 0.
Proof. reflexivity. Qed.

Lemma stall_eq (m : machine) :
  stall m = Done (extend (stall_events (trace m)) m).
Proof.
  unfold stall, stall_events, write. rewrite u8_0.
  rewrite log_extend, flag_clear_eq, extend_extend.
  cbn [trace extend app]. rewrite flag_test by (unfold RXSTPI; lia).
  destruct (Z.testbit (sample (trace m ++ [Wr UENUM 0]) UEINTX) RXSTPI);
    cbn [negb]; [|reflexivity].
  rewrite or_into_eq, and_not_eq, !extend_extend.
  cbn [trace extend app]. rewrite <- ?app_assoc. reflexivity.
Qed.

Lemma stall_events_only_on (h : list event) :
  only_on [UENUM; UEINTX; UECONX] (stall_events h).
Proof. unfold stall_events. case_if; reflexivity. Qed.

Lemma read_request_same (m : machine) :
  state (read_request m) = state m /\ config (read_request m) = config m /\
  epmax (read_request m) = epmax m /\ ep0size (read_request m) = ep0size m /\
  ram (read_request m) = ram m.
Proof. rewrite read_request_take. repeat split. Qed.

(** X4: A request whose type is neither standard nor vendor (a class request,
    say), and a vendor request when no vendor callback is linked, gets the
    stall handshake and nothing else: after the setup packet, the only I/O is
    that of the label _stall, on UENUM, UEINTX and UECONX; state, config,
    epmax, ep0size and RAM are what they were. *)
Theorem foreign_request_stalled (fuel : nat) (m : machine) :
  let m1 := read_request (write UENUM 0 m) in
  let ty := Z.land (bmRequestType (req m1)) (USB_U2_REQ_TYPE_MASK H) in
  ty <> USB_U2_REQ_TYPE_STANDARD H ->
  (ty = USB_U2_REQ_TYPE_VENDOR H -> usb_u2_control_vendor_cb = None) ->
  handle_ctrl fuel m = Done (extend (stall_events (trace m1)) m1) /\
  only_on [UENUM; UEINTX; UECONX] (stall_events (trace m1)) /\
  state m1 = state m /\ config m1 = config m /\ epmax m1 = epmax m /\
  ep0size m1 = ep0size m /\ ram m1 = ram m.
Proof.
  intros m1 ty Hs Hv. split; [|split; [apply stall_events_only_on|]].
  - unfold handle_ctrl. fold m1. fold ty.
    apply Z.eqb_neq in Hs. rewrite Hs.
    destruct (Z.eqb_spec ty (USB_U2_REQ_TYPE_VENDOR H)) as [Ev|Ev].
    + rewrite (Hv Ev). apply stall_eq.
    + apply stall_eq.
  - exact (read_request_same (write UENUM 0 m)).
Qed.

(** X5: The standard requests the firmware does not implement: any request
    code other than GET_STATUS, SET_ADDRESS, GET_DESCRIPTOR and
    SET_CONFIGURATION (CLEAR_FEATURE, SET_FEATURE, GET_CONFIGURATION, the
    interface requests, unknown codes) is refused with the stall handshake; no
    transfer is started and nothing but the stored request changes. *)
Theorem unsupported_standard_request_stalled (fuel : nat) (m : machine) :
  let m1 := read_request (write UENUM 0 m) in
  Z.land (bmRequestType (req m1)) (USB_U2_REQ_TYPE_MASK H)
  = USB_U2_REQ_TYPE_STANDARD H ->
  bRequest (req m1) <> USB_U2_REQ_GET_STATUS H ->
  bRequest (req m1) <> USB_U2_REQ_SET_ADDRESS H ->
  bRequest (req m1) <> USB_U2_REQ_GET_DESCRIPTOR H ->
  bRequest (req m1) <> USB_U2_REQ_SET_CONFIGURATION H ->
  handle_ctrl fuel m = Done (extend (stall_events (trace m1)) m1) /\
  only_on [UENUM; UEINTX; UECONX] (stall_events (trace m1)) /\
  state m1 = state m /\ config m1 = config m /\ epmax m1 = epmax m /\
  ep0size m1 = ep0size m /\ ram m1 = ram m.
Proof.
  intros m1 Hty H1 H2 H3 H4.
  split; [|split; [apply stall_events_only_on|]].
  - unfold handle_ctrl. fold m1. rewrite Hty, Z.eqb_refl.
    unfold standard_request.
    apply Z.eqb_neq in H1, H2, H3, H4. rewrite H1, H2, H3, H4.
    repeat case_if; apply stall_eq.
  - exact (read_request_same (write UENUM 0 m)).
Qed.

(** X6: SET_ADDRESS out of place: when the device is not in state Default (it
    has an address already), or the request is device-to-host or not for the
    device, the request is refused with the stall handshake; UDADDR is not
    touched and the state stays what it was. *)
Theorem set_address_refused (fuel : nat) (m : machine) :
  let m1 := read_request (write UENUM 0 m) in
  NoDup (request_labels H) ->
  Z.land (bmRequestType (req m1)) (USB_U2_REQ_TYPE_MASK H)
  = USB_U2_REQ_TYPE_STANDARD H ->
  bRequest (req m1) = USB_U2_REQ_SET_ADDRESS H ->
  dir_of (req m1) = USB_U2_REQ_DIR_DEVICE_TO_HOST H \/
  rcpt_of (req m1) <> USB_U2_REQ_RCPT_DEVICE H \/
  state m <> USB_U2_STATE_DEFAULT ->
  handle_ctrl fuel m = Done (extend (stall_events (trace m1)) m1) /\
  only_on [UENUM; UEINTX; UECONX] (stall_events (trace m1)) /\
  state (final (handle_ctrl fuel m)) = state m.
Proof.
  intros m1 Hn Hty Hr Hc.
  assert (E : handle_ctrl fuel m = Done (extend (stall_events (trace m1)) m1)).
  { unfold handle_ctrl. fold m1. rewrite Hty, Z.eqb_refl.
    rewrite (standard_request_set_address fuel m1 Hn Hr).
    unfold set_address.
    assert (Hs : state m1 = state m)
      by exact (proj1 (read_request_same (write UENUM 0 m))).
    replace ((dir_of (req m1) =? USB_U2_REQ_DIR_DEVICE_TO_HOST H)
             || negb (rcpt_of (req m1) =? USB_U2_REQ_RCPT_DEVICE H)
             || negb (state_eqb (state m1) USB_U2_STATE_DEFAULT)) with true.
    - apply stall_eq.
    - symmetry. destruct Hc as [Hd|[Hd|Hd]].
      + rewrite Hd, Z.eqb_refl. reflexivity.
      + apply Z.eqb_neq in Hd. rewrite Hd. cbn [negb].
        apply orb_true_iff. left. apply orb_true_r.
      + rewrite Hs. destruct (state m); try contradiction;
          cbn [state_eqb negb]; apply orb_true_r. }
  assert (Hs : state m1 = state m)
    by exact (proj1 (read_request_same (write UENUM 0 m))).
  clearbody m1.
  split; [exact E|]. split; [apply stall_events_only_on|].
  rewrite E. exact Hs.
Qed.

(** X7: SET_CONFIGURATION out of place: unless the device is in state Address,
    and the request is host-to-device and for the device, the request is
    refused with the stall handshake; the stored configuration and the state
    stay what they were and the application's endpoint callback is not called.
    A configured device is therefore not configured anew. *)
Theorem set_configuration_refused (fuel : nat) (m : machine) :
  let m1 := read_request (write UENUM 0 m) in
  NoDup (request_labels H) ->
  Z.land (bmRequestType (req m1)) (USB_U2_REQ_TYPE_MASK H)
  = USB_U2_REQ_TYPE_STANDARD H ->
  bRequest (req m1) = USB_U2_REQ_SET_CONFIGURATION H ->
  dir_of (req m1) = USB_U2_REQ_DIR_DEVICE_TO_HOST H \/
  rcpt_of (req m1) <> USB_U2_REQ_RCPT_DEVICE H \/
  state m <> USB_U2_STATE_ADDRESS ->
  handle_ctrl fuel m = Done (extend (stall_events (trace m1)) m1) /\
  only_on [UENUM; UEINTX; UECONX] (stall_events (trace m1)) /\
  state (final (handle_ctrl fuel m)) = state m /\
  config (final (handle_ctrl fuel m)) = config m.
Proof.
  intros m1 Hn Hty Hr Hc.
  assert (E : handle_ctrl fuel m = Done (extend (stall_events (trace m1)) m1)).
  { unfold handle_ctrl. fold m1. rewrite Hty, Z.eqb_refl.
    rewrite (standard_request_set_configuration fuel m1 Hn Hr).
    unfold set_configuration.
    assert (Hs : state m1 = state m)
      by exact (proj1 (read_request_same (write UENUM 0 m))).
    replace ((dir_of (req m1) =? USB_U2_REQ_DIR_DEVICE_TO_HOST H)
             || negb (rcpt_of (req m1) =? USB_U2_REQ_RCPT_DEVICE H)
             || negb (state_eqb (state m1) USB_U2_STATE_ADDRESS)) with true.
    - apply stall_eq.
    - symmetry. destruct Hc as [Hd|[Hd|Hd]].
      + rewrite Hd, Z.eqb_refl. reflexivity.
      + apply Z.eqb_neq in Hd. rewrite Hd. cbn [negb].
        apply orb_true_iff. left. apply orb_true_r.
      + rewrite Hs. destruct (state m); try contradiction;
          cbn [state_eqb negb]; apply orb_true_r. }
  assert (Hs : state m1 = state m)
    by exact (proj1 (read_request_same (write UENUM 0 m))).
  assert (Hg : config m1 = config m)
    by exact (proj1 (proj2 (read_request_same (write UENUM 0 m)))).
  clearbody m1.
  split; [exact E|]. split; [apply stall_events_only_on|].
  rewrite E. split; assumption.
Qed.

(** *** The reset handler and the endpoint configurator, register by
    register *)

Lemma size_class_fits (s : Z) :
  0 <= size_class s <= 3 /\
  (s <= 64 -> s <= 8 * 2 ^ size_class s) /\
  (0 < size_class s -> 8 * 2 ^ (size_class s - 1) < s).
Proof.
  unfold size_class.
  destruct (Z.leb_spec s 8); [simpl; lia|].
  destruct (Z.leb_spec s 16); [simpl; lia|].
  destruct (Z.leb_spec s 32); simpl; lia.
Qed.

Lemma size_class_bits (s : Z) :
  u8 (Z.lor (Z.shiftl (size_class s) EPSIZE0) (bit ALLOC))
  = 16 * size_class s + 2.
Proof. unfold size_class. repeat case_if; reflexivity. Qed.

Lemma write_set_ep0size (r : reg) (v s : Z) (m : machine) :
  write r v (set_ep0size s m) = set_ep0size s (write r v m).
Proof. reflexivity. Qed.

Lemma or_into_set_ep0size (r : reg) (k s : Z) (m : machine) :
  or_into r k (set_ep0size s m) = set_ep0size s (or_into r k m).
Proof. reflexivity. Qed.

Lemma write_set_epmax (r : reg) (v s : Z) (m : machine) :
  write r v (set_epmax s m) = set_epmax s (write r v m).
Proof. reflexivity. Qed.

Lemma or_into_set_epmax (r : reg) (k s : Z) (m : machine) :
  or_into r k (set_epmax s m) = set_epmax s (or_into r k m).
Proof. reflexivity. Qed.

Lemma u8_low_byte (lo hi : Z) : u8 (u8 lo + 256 * hi) = u8 lo.
Proof.
  unfold u8. replace (lo mod 256 + 256 * hi) with (lo mod 256 + hi * 256)
    by lia.
  rewrite Z_mod_plus_full. apply Z.mod_mod. lia.
Qed.

(** X8: A bus reset with a device descriptor at hand: the handler acknowledges
    the interrupt, takes [ep0size] from the low byte of bMaxPacketSize0,
    selects endpoint 0, enables it as a control endpoint and allocates the
    smallest bank of 8, 16, 32 or 64 bytes that holds a packet of that size
    (64 for anything larger); the stored request and RAM are untouched. *)
Theorem reset_allocates_endpoint0 (m : machine) :
  let v := sample (trace m) UDINT in
  let s := pgm_read_byte_near
             (usb_u2_device_descriptor_cb + off_bMaxPacketSize0 H) in
  Z.testbit v EORSTI = true ->
  usb_u2_device_descriptor_cb <> NULL ->
  exists v' c,
    USB_GEN_vect m
    = set_epmax 0 (set_config 0 (set_state USB_U2_STATE_DEFAULT
        (set_ep0size s
           (extend [Rd UDINT v; Rd UDINT v';
                    Wr UDINT (u8 (Z.land v' (Z.lnot (bit EORSTI))));
                    Wr UENUM 0; Rd UECONX c;
                    Wr UECONX (u8 (Z.lor c (bit EPEN)));
                    Wr UECFG0X 0; Wr UECFG1X (16 * size_class s + 2)] m)))) /\
    0 <= size_class s <= 3 /\
    (s <= 64 -> s <= 8 * 2 ^ size_class s) /\
    (0 < size_class s -> 8 * 2 ^ (size_class s - 1) < s).
Proof.
  intros v s Hv Hd.
  exists (sample (trace m ++ [Rd UDINT v]) UDINT).
  exists (sample (trace m ++ [Rd UDINT v;
                              Rd UDINT (sample (trace m ++ [Rd UDINT v]) UDINT);
                              Wr UDINT (u8 (Z.land
                                (sample (trace m ++ [Rd UDINT v]) UDINT)
                                (Z.lnot (bit EORSTI))));
                              Wr UENUM 0]) UECONX).
  split; [|apply size_class_fits].
  unfold USB_GEN_vect.
  rewrite flag_clear_eq, flag_test by (unfold EORSTI; lia).
  fold v. rewrite Hv. cbn [negb].
  apply Z.eqb_neq in Hd. rewrite Hd. cbv zeta.
  rewrite and_not_eq, extend_extend. cbn [trace extend app].
  unfold pgm_read_word_near. rewrite u8_low_byte.
  change (u8 (pgm (usb_u2_device_descriptor_cb + off_bMaxPacketSize0 H)))
    with s.
  cbn [ep0size set_ep0size].
  rewrite !write_set_ep0size, or_into_set_ep0size, !write_set_ep0size.
  rewrite !write_eq, or_into_eq, !extend_extend.
  rewrite size_class_bits, !u8_0. cbn [trace extend app].
  rewrite <- ?app_assoc. reflexivity.
Qed.

Lemma endpoint_type_bits (a d : Z) :
  0 <= a -> d = 0 \/ d = 1 ->
  u8 (Z.lor (Z.shiftl a EPTYPE0) (Z.shiftl d EPDIR)) = 64 * (a mod 4) + d.
Proof.
  intros Ha Hd. unfold EPTYPE0, EPDIR. rewrite Z.shiftl_mul_pow2 by lia.
  rewrite Z.shiftl_0_r. change (2 ^ 6) with 64.
  assert (E : Z.lor (a * 64) d = a * 64 + d).
  { destruct Hd as [->| ->]; [rewrite Z.lor_0_r; lia|].
    pose proof (Z.add_lor_land (a * 64) 1) as Hl.
    assert (Hz : Z.land (a * 64) 1 = 0).
    { change 1 with (Z.ones 1). rewrite Z.land_ones by lia.
      change (2 ^ 1) with 2.
      apply Z.mod_divide; [lia|]. exists (a * 32). lia. }
    lia. }
  rewrite E. unfold u8.
  pose proof (Z.mod_pos_bound a 4 ltac:(lia)) as Hb.
  pose proof (Z.div_mod a 4 ltac:(lia)) as Hq.
  replace (a * 64 + d) with (64 * (a mod 4) + d + (a / 4) * 256) by lia.
  rewrite Z_mod_plus_full. apply Z.mod_small. lia.
Qed.

(** X9: An in-order call of usb_u2_configure_endpoint, register by register:
    the endpoint is selected and enabled; UECFG0X gets the transfer type (the
    low two bits of bmAttributes) in bits 7:6 and the direction (bit 7 of the
    address) in bit 0; UECFG1X gets the bank size class of the low byte of
    wMaxPacketSize, with ALLOC; the FIFOs of all endpoints are reset; and
    endpoint 0 is selected again. Of the statics only [epmax] changes. *)
Theorem configure_endpoint_registers (ep : Z) (m : machine) :
  let epaddr := pgm_read_byte_near (ep + off_bEndpointAddress H) in
  let epnum := Z.land epaddr 0xf in
  let attr := pgm_read_byte_near (ep + off_bmAttributes H) in
  let eps := pgm_read_byte_near (ep + off_wMaxPacketSize H) in
  ep <> NULL -> epnum = epmax m + 1 ->
  exists c,
    usb_u2_configure_endpoint ep m
    = set_epmax epnum
        (extend [Wr UENUM epnum; Rd UECONX c;
                 Wr UECONX (u8 (Z.lor c (bit EPEN)));
                 Wr UECFG0X (64 * (attr mod 4)
                             + (if Z.testbit epaddr 7 then 1 else 0));
                 Wr UECFG1X (16 * size_class eps + 2);
                 Wr UERST 31; Wr UERST 0; Wr UENUM 0] m).
Proof.
  intros epaddr epnum attr eps Hn He.
  assert (Hr : 0 <= epnum < 16) by apply land_0xf_range.
  exists (sample (trace m ++ [Wr UENUM epnum]) UECONX).
  unfold usb_u2_configure_endpoint. fold epaddr. fold epnum. fold attr.
  apply Z.eqb_neq in Hn. rewrite Hn.
  rewrite <- He, Z.eqb_refl. cbn [negb].
  rewrite (u8_small epnum) by lia.
  unfold pgm_read_word_near. rewrite u8_low_byte.
  change (u8 (pgm (ep + off_wMaxPacketSize H))) with eps.
  assert (E0 : u8 (Z.lor (Z.shiftl attr EPTYPE0)
                         (Z.shiftl (if Z.land epaddr 128 =? 0 then 0 else 1)
                                   EPDIR))
               = 64 * (attr mod 4) + (if Z.testbit epaddr 7 then 1 else 0)).
  { change 128 with (bit 7). rewrite flag_test by lia.
    destruct (Z.testbit epaddr 7); cbn [negb];
      apply endpoint_type_bits; try (pose proof (u8_range
        (pgm (ep + off_bmAttributes H))); unfold attr, pgm_read_byte_near;
        lia); auto. }
  assert (E1 : u8 (Z.lor (if eps <=? 8 then 0
                          else Z.shiftl (if eps <=? 16 then 1
                                         else if eps <=? 32 then 2 else 3)
                                        EPSIZE0) (bit ALLOC))
               = 16 * size_class eps + 2).
  { unfold size_class. repeat case_if; reflexivity. }
  cbv zeta.
  rewrite !write_set_epmax, or_into_set_epmax, !write_set_epmax.
  rewrite !write_eq, or_into_eq, !extend_extend. rewrite E0, E1.
  rewrite (u8_small epnum) by lia. rewrite !u8_0.
  cbn [trace extend app]. rewrite <- ?app_assoc. reflexivity.
Qed.

Lemma configure_endpoint_epmax (ep : Z) (m : machine) :
  let epnum := Z.land (pgm_read_byte_near (ep + off_bEndpointAddress H)) 0xf in
  epmax (usb_u2_configure_endpoint ep m)
  = if negb (ep =? NULL) && (epnum =? epmax m + 1) then epnum else epmax m.
Proof.
  intros epnum. assert (Hr : 0 <= epnum < 16) by apply land_0xf_range.
  unfold usb_u2_configure_endpoint. fold epnum.
  destruct (ep =? NULL); [reflexivity|]. cbn [negb andb].
  destruct (Z.eqb_spec epnum (epmax m + 1)) as [E|E]; [|reflexivity].
  cbn [negb]. rewrite <- E, (u8_small epnum) by lia. reflexivity.
Qed.

(** X10: [epmax], the number of endpoints configured since the last reset,
    never goes down in usb_u2_configure_endpoint, grows by at most one per
    call, and stays within 0..15, the numbers the four address bits can hold;
    the reset handler keeps it within 0..15 too. *)
Theorem epmax_stays_below_16 (ep : Z) (m : machine) :
  0 <= epmax m <= 15 ->
  epmax m <= epmax (usb_u2_configure_endpoint ep m) <= epmax m + 1 /\
  0 <= epmax (usb_u2_configure_endpoint ep m) <= 15 /\
  0 <= epmax (USB_GEN_vect m) <= 15.
Proof.
  intros Hm. rewrite configure_endpoint_epmax.
  pose proof (land_0xf_range
                (pgm_read_byte_near (ep + off_bEndpointAddress H))) as Hr.
  split; [|split].
  - destruct (negb (ep =? NULL)); cbn [andb]; [|lia].
    destruct (Z.eqb_spec
                (Z.land (pgm_read_byte_near (ep + off_bEndpointAddress H)) 15)
                (epmax m + 1)); lia.
  - destruct (negb (ep =? NULL)); cbn [andb]; [|lia].
    destruct (Z.eqb_spec
                (Z.land (pgm_read_byte_near (ep + off_bEndpointAddress H)) 15)
                (epmax m + 1)); lia.
  - unfold USB_GEN_vect. rewrite flag_clear_eq.
    case_if; [cbn [epmax extend]; lia|].
    case_if; [rewrite and_not_eq; cbn [epmax extend]; lia|].
    cbn [epmax set_epmax]. lia.
Qed.

(** X11: Endpoint descriptors handed to usb_u2_configure_endpoint one after
    the other, numbered [epmax + 1], [epmax + 2], ... without a gap, are all
    accepted: [epmax] ends up raised by their number. *)
Theorem endpoints_configured_in_order (eps : list Z) :
  forall m,
    0 <= epmax m -> epmax m + Z.of_nat (length eps) <= 15 ->
    (forall k, (k < length eps)%nat ->
       nth k eps NULL <> NULL /\
       Z.land (pgm_read_byte_near (nth k eps NULL + off_bEndpointAddress H))
              0xf
       = epmax m + Z.of_nat k + 1) ->
    epmax (fold_left (fun m ep => usb_u2_configure_endpoint ep m) eps m)
    = epmax m + Z.of_nat (length eps).
Proof.
  induction eps as [|ep eps IH]; intros m H0 Hl Hk.
  - cbn [fold_left length]. change (Z.of_nat 0) with 0. lia.
  - cbn [fold_left]. cbn [length] in Hl |- *.
    destruct (Hk O ltac:(simpl; lia)) as [Hn He]. cbn [nth] in Hn, He.
    assert (E : epmax (usb_u2_configure_endpoint ep m) = epmax m + 1).
    { rewrite configure_endpoint_epmax. apply Z.eqb_neq in Hn. rewrite Hn.
      cbn [negb andb]. change (Z.of_nat 0) with 0 in He.
      rewrite Z.add_0_r in He. rewrite He, Z.eqb_refl. reflexivity. }
    rewrite IH; rewrite E; try lia.
    intros k Hlt. destruct (Hk (S k) ltac:(simpl; lia)) as [Hn' He'].
    cbn [nth] in Hn', He'. split; [assumption|]. rewrite He'. lia.
Qed.

(** *** Initialization, register by register *)

Lemma wait_reg (r : reg) (f : Z) (m : machine) :
  0 <= f ->
  (exists n, forall polls,
      forallb (is_read r) polls = true -> (n <= length polls)%nat ->
      Z.testbit (sample (trace m ++ polls) r) f = true) ->
  exists f0 polls,
    forallb (is_read r) polls = true /\
    Z.testbit (sample (trace m ++ polls) r) f = true /\
    forall fuel, (f0 <= fuel)%nat ->
      busy_wait (flag_clear r f) fuel m
      = Done (extend (polls ++ [Rd r (sample (trace m ++ polls) r)]) m).
Proof.
  intros Hf (n & Hev).
  assert (Hrd : forall v, is_read r (Rd r v) = true)
    by (intros v; destruct r; reflexivity).
  assert (Hgen : forall d polls0,
            forallb (is_read r) polls0 = true ->
            (n <= length polls0 + d)%nat ->
            exists polls,
              forallb (is_read r) polls = true /\
              Z.testbit (sample (trace m ++ polls) r) f = true /\
              forall fuel, (S d <= fuel)%nat ->
                busy_wait (flag_clear r f) fuel (extend polls0 m)
                = Done (extend (polls ++
                          [Rd r (sample (trace m ++ polls) r)]) m)).
  { induction d as [|d IH]; intros polls0 Hp Hn;
      destruct (Z.testbit (sample (trace m ++ polls0) r) f) eqn:Eb.
    - exists polls0. do 2 (split; [assumption|]). intros fuel Hfu.
      destruct fuel as [|fuel]; [lia|]. cbn [busy_wait].
      rewrite flag_clear_eq, flag_test by assumption. cbn [trace extend].
      rewrite Eb. cbn [negb]. rewrite extend_extend. reflexivity.
    - rewrite Hev in Eb by (assumption || lia). discriminate.
    - exists polls0. do 2 (split; [assumption|]). intros fuel Hfu.
      destruct fuel as [|fuel]; [lia|]. cbn [busy_wait].
      rewrite flag_clear_eq, flag_test by assumption. cbn [trace extend].
      rewrite Eb. cbn [negb]. rewrite extend_extend. reflexivity.
    - destruct (IH (polls0 ++ [Rd r (sample (trace m ++ polls0) r)]))
        as (polls & P1 & P2 & P3);
        [apply forallb_snoc; [assumption|apply Hrd]
        |rewrite length_app; simpl; lia|].
      exists polls. do 2 (split; [assumption|]). intros fuel Hfu.
      destruct fuel as [|fuel]; [lia|]. cbn [busy_wait].
      rewrite flag_clear_eq, flag_test by assumption. cbn [trace extend].
      rewrite Eb. cbn [negb]. rewrite extend_extend. apply P3. lia. }
  destruct (Hgen n [] eq_refl ltac:(simpl; lia)) as (polls & P1 & P2 & P3).
  exists (S n), polls. do 2 (split; [assumption|]). intros fuel Hfu.
  rewrite <- (P3 fuel Hfu), extend_nil. reflexivity.
Qed.

(** X12: usb_u2_init in state Default, with a PLL that locks: it returns, and
    its I/O is, in this order, the regulator, the interrupts off, the
    controller enabled with the clock frozen and then running, the PLL
    prescaler for the clock frequency, the PLL switched on, reads of PLLCSR up
    to the first that shows the lock, and only then the reset interrupt
    enabled and the device attached (DETACH cleared). *)
Theorem init_attaches_after_pll_lock (m : machine) :
  let pre := [Wr REGCR 0; Wr UDIEN 0; Wr UDINT 0; Wr USBCON 160;
              Wr USBCON 128;
              Wr PLLCSR (if F_CPU =? 8000000 then 0 else 4)] in
  state m = USB_U2_STATE_DEFAULT ->
  F_CPU = 8000000 \/ F_CPU = 16000000 ->
  (forall h, pll_locks h) ->
  exists f0 p polls v d,
    forallb (is_read PLLCSR) polls = true /\
    Z.testbit v PLOCK = true /\
    forall fuel, (f0 <= fuel)%nat ->
      usb_u2_init fuel m
      = Done (extend
                (pre ++ [Rd PLLCSR p; Wr PLLCSR (u8 (Z.lor p (bit PLLE)))]
                 ++ polls
                 ++ [Rd PLLCSR v; Wr UDIEN 8; Rd UDCON d;
                     Wr UDCON (u8 (Z.land d (Z.lnot (bit DETACH))))])
                (load_serial m)).
Proof.
  intros pre Hs _ Hpll. subst pre. unfold usb_u2_init. rewrite Hs.
  cbn [state_eqb negb]. generalize (load_serial m). intros ms.
  unfold enable_controller. cbv zeta.
  rewrite !write_eq, or_into_eq, !extend_extend. cbn [trace extend app].
  assert (Ew : u8 (if F_CPU =? 8000000 then 0 else bit PLLP0)
               = if F_CPU =? 8000000 then 0 else 4)
    by (case_if; reflexivity).
  rewrite Ew, !u8_0.
  change (u8 (Z.lor (bit USBE) (bit FRZCLK))) with 160.
  change (u8 (bit USBE)) with 128.
  match goal with |- context [Rd PLLCSR ?x :: _] => set (p := x) end.
  match goal with |- context [busy_wait _ _ (extend ?e ms)] =>
    set (e1 := e) end.
  destruct (wait_reg PLLCSR PLOCK (extend e1 ms))
    as (f0 & polls & P1 & P2 & P3); [unfold PLOCK; lia|apply Hpll|].
  cbn [trace extend] in P2, P3.
  set (v := sample ((trace ms ++ e1) ++ polls) PLLCSR) in *.
  exists f0, p, polls, v.
  exists (sample (trace ms ++ (e1 ++ polls ++ [Rd PLLCSR v]) ++ [Wr UDIEN 8])
                 UDCON).
  do 2 (split; [assumption|]). intros fuel Hfu.
  rewrite (P3 fuel Hfu). cbn [bind].
  rewrite write_eq, and_not_eq, !extend_extend. cbn [trace extend].
  change (u8 (bit EORSTE)) with 8.
  unfold e1. rewrite <- !app_assoc. reflexivity.
Qed.

Lemma serial_loop_statics (n : nat) :
  forall i a m,
    config (serial_loop n i a m) = config m /\
    epmax (serial_loop n i a m) = epmax m /\
    ep0size (serial_loop n i a m) = ep0size m /\
    state (serial_loop n i a m) = state m /\
    req (serial_loop n i a m) = req m.
Proof.
  induction n as [|n IH]; intros i a m; [repeat split|].
  cbn [serial_loop]. case_if; [|repeat split].
  match goal with |- context [serial_loop n ?i' ?a' ?m'] =>
    destruct (IH i' a' m') as (E1 & E2 & E3 & E4 & E5) end.
  rewrite E1, E2, E3, E4, E5. repeat split.
Qed.

Lemma load_serial_statics (m : machine) :
  config (load_serial m) = config m /\
  epmax (load_serial m) = epmax m /\
  ep0size (load_serial m) = ep0size m /\
  state (load_serial m) = state m /\
  req (load_serial m) = req m.
Proof. exact (serial_loop_statics 256 1 0x0e m). Qed.

Lemma enable_controller_extend (fuel : nat) (m : machine) :
  exists evs, final (enable_controller fuel m) = extend evs m.
Proof.
  unfold enable_controller. cbv zeta.
  rewrite !write_eq, or_into_eq, !extend_extend.
  match goal with |- context [busy_wait ?c fuel ?x] =>
    destruct (busy_wait_flag_extend PLLCSR PLOCK fuel x) as (e1 & E1);
    destruct (busy_wait c fuel x) as [m1|m1] end;
    cbn [bind final] in *; subst m1.
  - rewrite write_eq, and_not_eq, !extend_extend. eexists; reflexivity.
  - rewrite !extend_extend. eexists; reflexivity.
Qed.

(** The switching on of the controller, up to the wait for the PLL. *)
Lemma enable_controller_eq (fuel : nat) (m : machine) :
  let pre := [Wr REGCR 0; Wr UDIEN 0; Wr UDINT 0; Wr USBCON 160;
              Wr USBCON 128;
              Wr PLLCSR (if F_CPU =? 8000000 then 0 else 4)] in
  let p := sample (trace m ++ pre) PLLCSR in
  enable_controller fuel m
  = busy_wait (flag_clear PLLCSR PLOCK) fuel
      (extend (pre ++ [Rd PLLCSR p; Wr PLLCSR (u8 (Z.lor p (bit PLLE)))]) m)
    >>= fun m1 =>
        Done (and_not UDCON (bit DETACH) (write UDIEN (bit EORSTE) m1)).
Proof.
  intros pre p. subst p pre. unfold enable_controller. cbv zeta.
  rewrite !write_eq, or_into_eq, !extend_extend. cbn [trace extend app].
  assert (Ew : u8 (if F_CPU =? 8000000 then 0 else bit PLLP0)
               = if F_CPU =? 8000000 then 0 else 4)
    by (case_if; reflexivity).
  rewrite Ew, !u8_0.
  change (u8 (Z.lor (bit USBE) (bit FRZCLK))) with 160.
  change (u8 (bit USBE)) with 128.
  reflexivity.
Qed.

Lemma usb_u2_init_default (fuel : nat) (m : machine) :
  state m = USB_U2_STATE_DEFAULT ->
  usb_u2_init fuel m = enable_controller fuel (load_serial m).
Proof. intros Hs. unfold usb_u2_init. rewrite Hs. reflexivity. Qed.

Lemma state_extend (evs : list event) (m : machine) :
  state (extend evs m) = state m.
Proof. reflexivity. Qed.

(** The switching on of the controller, whatever the budget. *)
Lemma enable_controller_cases (fuel : nat) (m : machine) :
  let pre := [Wr REGCR 0; Wr UDIEN 0; Wr UDINT 0; Wr USBCON 160;
              Wr USBCON 128;
              Wr PLLCSR (if F_CPU =? 8000000 then 0 else 4)] in
  exists p polls,
    forallb (is_read PLLCSR) polls = true /\
    match enable_controller fuel m with
    | Spin m' =>
      m' = extend (pre ++ [Rd PLLCSR p; Wr PLLCSR (u8 (Z.lor p (bit PLLE)))]
                   ++ polls) m
    | Done m' =>
      exists v d,
        Z.testbit v PLOCK = true /\
        m' = extend (pre
                     ++ [Rd PLLCSR p; Wr PLLCSR (u8 (Z.lor p (bit PLLE)))]
                     ++ polls
                     ++ [Rd PLLCSR v; Wr UDIEN 8; Rd UDCON d;
                         Wr UDCON (u8 (Z.land d (Z.lnot (bit DETACH))))]) m
    end.
Proof.
  intros pre.
  assert (Hb : 0 <= PLOCK) by (unfold PLOCK; lia).
  rewrite enable_controller_eq. cbv zeta. fold pre.
  set (p := sample (trace m ++ pre) PLLCSR).
  set (e1 := pre ++ [Rd PLLCSR p; Wr PLLCSR (u8 (Z.lor p (bit PLLE)))]).
  destruct (busy_wait_cases PLLCSR PLOCK fuel Hb (extend e1 m))
    as (polls & P1 & Hm).
  exists p, polls. split; [assumption|].
  destruct (busy_wait (flag_clear PLLCSR PLOCK) fuel (extend e1 m))
    as [m1|m1]; cbn [bind].
  - destruct Hm as (T & ->). cbn [trace extend] in T.
    exists (sample ((trace m ++ e1) ++ polls) PLLCSR).
    eexists. split; [exact T|].
    rewrite write_eq, and_not_eq, !extend_extend. cbn [trace extend].
    change (u8 (bit EORSTE)) with 8.
    unfold e1. rewrite <- !app_assoc. reflexivity.
  - subst m1. rewrite extend_extend. unfold e1.
    rewrite <- !app_assoc. reflexivity.
Qed.

Lemma enable_controller_returns (m : machine) :
  (forall h, pll_locks h) ->
  exists f0, forall k, (f0 <= k)%nat ->
    exists m', enable_controller k m = Done m'.
Proof.
  intros Hpll.
  set (pre := [Wr REGCR 0; Wr UDIEN 0; Wr UDINT 0; Wr USBCON 160;
               Wr USBCON 128;
               Wr PLLCSR (if F_CPU =? 8000000 then 0 else 4)]).
  set (p := sample (trace m ++ pre) PLLCSR).
  set (e1 := pre ++ [Rd PLLCSR p; Wr PLLCSR (u8 (Z.lor p (bit PLLE)))]).
  destruct (wait_reg PLLCSR PLOCK (extend e1 m))
    as (f0 & polls & _ & _ & P3); [unfold PLOCK; lia|apply Hpll|].
  exists f0. intros k Hk. rewrite enable_controller_eq. cbv zeta.
  fold pre. fold p. fold e1. rewrite (P3 k Hk). cbn [bind].
  eexists. reflexivity.
Qed.

(** C7, as the code has it: usb_u2_init returns at once, leaving the machine
    and its I/O history as they were, when the device state is not Default
    (the host has set an address or a configuration).  In state Default,
    which is also the state a call leaves, it runs the initialization, for
    the second time as for the first: the serial number is stored and the
    registers are written in the order of the source, REGCR, UDIEN, UDINT,
    USBCON twice, the PLL prescaler and PLLE, followed by reads of PLLCSR;
    when the call has returned, the last of these reads showed the lock and
    UDIEN and UDCON were written after it; while it has not, it is polling
    PLLCSR.  With a PLL that locks the call returns, given enough budget. *)
Theorem C7_init_noop_when_not_default (fuel : nat) (m : machine) :
  let pre := [Wr REGCR 0; Wr UDIEN 0; Wr UDINT 0; Wr USBCON 160;
              Wr USBCON 128;
              Wr PLLCSR (if F_CPU =? 8000000 then 0 else 4)] in
  (state m <> USB_U2_STATE_DEFAULT -> usb_u2_init fuel m = Done m) /\
  state (final (usb_u2_init fuel m)) = state m /\
  (state m = USB_U2_STATE_DEFAULT ->
   exists p polls,
     forallb (is_read PLLCSR) polls = true /\
     match usb_u2_init fuel m with
     | Spin m' =>
       m' = extend (pre ++ [Rd PLLCSR p; Wr PLLCSR (u8 (Z.lor p (bit PLLE)))]
                    ++ polls)
                   (load_serial m)
     | Done m' =>
       exists v d,
         Z.testbit v PLOCK = true /\
         m' = extend (pre
                      ++ [Rd PLLCSR p; Wr PLLCSR (u8 (Z.lor p (bit PLLE)))]
                      ++ polls
                      ++ [Rd PLLCSR v; Wr UDIEN 8; Rd UDCON d;
                          Wr UDCON (u8 (Z.land d (Z.lnot (bit DETACH))))])
                     (load_serial m)
     end) /\
  (state m = USB_U2_STATE_DEFAULT -> (forall h, pll_locks h) ->
   exists f0, forall k, (f0 <= k)%nat ->
     exists m', usb_u2_init k m = Done m').
Proof.
  intros pre. split; [|split; [|split]].
  - intros Hs. unfold usb_u2_init.
    destruct (state m); try contradiction; reflexivity.
  - destruct (state m) eqn:Hs;
      try (unfold usb_u2_init; rewrite Hs; cbn [state_eqb negb final];
           exact Hs).
    rewrite (usb_u2_init_default fuel m Hs).
    destruct (enable_controller_extend fuel (load_serial m)) as (evs & E).
    rewrite E, state_extend.
    rewrite (proj1 (proj2 (proj2 (proj2 (load_serial_statics m))))).
    exact Hs.
  - intros Hs. rewrite (usb_u2_init_default fuel m Hs).
    exact (enable_controller_cases fuel (load_serial m)).
  - intros Hs Hpll.
    destruct (enable_controller_returns (load_serial m) Hpll) as (f0 & Hf).
    exists f0. intros k Hk. rewrite (usb_u2_init_default k m Hs).
    apply Hf, Hk.
Qed.

(** X13: What usb_u2_init changes besides the I/O history: in state Default
    the bytes 2..41 of [internal_serial] (words 1..20 of the 21: the header
    word and everything outside the array keep their value), which become the
    serial number; in another state nothing. config, epmax, ep0size, state and
    the stored request are never changed. *)
Theorem init_writes_only_the_serial (fuel : nat) (m : machine) (a : Z) :
  let m' := final (usb_u2_init fuel m) in
  let s := internal_serial L in
  ram m' a
  = (if state_eqb (state m) USB_U2_STATE_DEFAULT
        && (s + 2 <=? a) && (a <? s + 42)
     then serial_byte (a - s) else ram m a) /\
  config m' = config m /\ epmax m' = epmax m /\ ep0size m' = ep0size m /\
  state m' = state m /\ req m' = req m.
Proof.
  intros m' s. unfold m', usb_u2_init.
  destruct (state_eqb (state m) USB_U2_STATE_DEFAULT) eqn:Es; cbn [negb andb].
  2:{ cbn [final]. repeat split. }
  destruct (enable_controller_extend fuel (load_serial m)) as (evs & E).
  destruct (load_serial_statics m) as (E1 & E2 & E3 & E4 & E5).
  pose proof (load_serial_ram m (a - s)) as Hram.
  replace (internal_serial L + (a - s)) with a in Hram by (unfold s; lia).
  revert E E1 E2 E3 E4 E5 Hram. generalize (load_serial m).
  intros ms E E1 E2 E3 E4 E5 Hram.
  rewrite E. cbn [ram config epmax ep0size state req extend].
  split; [|repeat split; assumption].
  rewrite Hram.
  destruct (Z.leb_spec 2 (a - s)); destruct (Z.leb_spec (s + 2) a); try lia;
    destruct (Z.ltb_spec (a - s) 42); destruct (Z.ltb_spec a (s + 42));
    try lia; reflexivity.
Qed.

(** *** A transfer the host has given up *)

Lemma hands_nothing_over_app (a b : list event) :
  hands_nothing_over a -> hands_nothing_over b -> hands_nothing_over (a ++ b).
Proof.
  intros Ha Hb rdy cur sent. rewrite in_run_app.
  destruct (Ha rdy cur sent) as (r1 & E1). rewrite E1. apply Hb.
Qed.

Lemma hands_nothing_over_read (v : Z) : hands_nothing_over [Rd UEINTX v].
Proof. intros rdy cur sent. eexists. reflexivity. Qed.

Lemma hands_nothing_over_rmw (n v : Z) :
  0 <= n -> n <> TXINI ->
  hands_nothing_over
    [Rd UEINTX v; Wr UEINTX (u8 (Z.land v (Z.lnot (bit n))))].
Proof.
  intros Hn Hne rdy cur sent. eexists. apply rmw_no_commit; assumption.
Qed.

(** X14: usb_u2_control_in when the host has already gone on to the status
    stage (NAKOUTI shows at every read) while a setup packet is pending: the
    function returns at once, for any budget of at least one poll; it only
    uses the flag register, puts nothing into the FIFO and hands no packet
    over. *)
Theorem control_in_given_up (fuel : nat) (b len : Z) (fp : bool)
  (m : machine) :
  (forall h, Z.testbit (sample h UEINTX) NAKOUTI = true) ->
  Z.testbit (sample (trace m) UEINTX) RXSTPI = true ->
  (0 < fuel)%nat ->
  exists evs,
    usb_u2_control_in fuel b len fp m = Done (extend evs m) /\
    ctl evs /\ fifo_writes evs = [] /\ in_packets evs = [].
Proof.
  intros Hnak Hsetup Hfu.
  assert (Hgoal : exists evs,
            usb_u2_control_in fuel b len fp m = Done (extend evs m) /\
            ctl evs /\ hands_nothing_over evs).
  { unfold usb_u2_control_in.
    rewrite flag_clear_eq, flag_test by (unfold RXSTPI; lia).
    rewrite Hsetup. cbn [negb].
    rewrite and_not_eq, extend_extend. cbn [trace extend req ep0size app].
    match goal with |- context [extend ?e m] => set (e1 := e) end.
    assert (C1 : ctl e1) by reflexivity.
    assert (N1 : hands_nothing_over e1).
    { apply (hands_nothing_over_app [_] [_; _]);
        [apply hands_nothing_over_read|].
      apply hands_nothing_over_rmw; unfold RXSTPI, TXINI; lia. }
    set (zlp := (len <? wLength (req m)) && (len mod ep0size m =? 0)).
    set (len' := if wLength (req m) <? len then wLength (req m) else len).
    assert (Hd : exists e2,
              in_data fp fuel fuel b len' (extend e1 m)
              = Done (extend (e1 ++ e2) m) /\
              ctl e2 /\ hands_nothing_over e2).
    { destruct fuel as [|f]; [lia|]. cbn [in_data].
      destruct (0 <? len').
      - rewrite flag_clear_eq, flag_test by (unfold NAKOUTI; lia).
        rewrite Hnak. cbn [negb]. rewrite extend_extend.
        eexists. split; [reflexivity|].
        split; [reflexivity|apply hands_nothing_over_read].
      - exists []. rewrite app_nil_r. split; [reflexivity|].
        split; [reflexivity|]. intros rdy cur sent. eexists. reflexivity. }
    destruct Hd as (e2 & E2 & C2 & N2). rewrite E2. cbn [bind].
    assert (Hz : exists e3,
              in_zlp fuel zlp (extend (e1 ++ e2) m)
              = Done (extend ((e1 ++ e2) ++ e3) m) /\
              ctl e3 /\ hands_nothing_over e3).
    { unfold in_zlp. destruct zlp.
      - rewrite flag_clear_eq, flag_test by (unfold NAKOUTI; lia).
        rewrite Hnak. cbn [negb]. rewrite extend_extend.
        eexists. split; [reflexivity|].
        split; [reflexivity|apply hands_nothing_over_read].
      - exists []. rewrite app_nil_r. split; [reflexivity|].
        split; [reflexivity|]. intros rdy cur sent. eexists. reflexivity. }
    destruct Hz as (e3 & E3 & C3 & N3). rewrite E3. cbn [bind].
    unfold in_status. destruct fuel as [|f]; [lia|]. cbn [busy_wait].
    rewrite flag_clear_eq, flag_test by (unfold NAKOUTI; lia).
    rewrite Hnak. cbn [negb bind].
    rewrite and_not_eq, !extend_extend.
    rewrite flag_clear_eq, extend_extend.
    case_if.
    - eexists. split; [reflexivity|]. split.
      + repeat apply ctl_app; try assumption; reflexivity.
      + repeat apply hands_nothing_over_app; try assumption.
        * apply hands_nothing_over_read.
        * apply hands_nothing_over_rmw; unfold NAKOUTI, TXINI; lia.
        * apply hands_nothing_over_read.
    - rewrite and_not_eq, extend_extend.
      eexists. split; [reflexivity|]. split.
      + repeat apply ctl_app; try assumption; reflexivity.
      + repeat apply hands_nothing_over_app; try assumption.
        * apply hands_nothing_over_read.
        * apply hands_nothing_over_rmw; unfold NAKOUTI, TXINI; lia.
        * apply hands_nothing_over_read.
        * apply hands_nothing_over_rmw; unfold RXOUTI, TXINI; lia. }
  destruct Hgoal as (evs & E & C & N). exists evs.
  split; [assumption|]. split; [assumption|].
  split; [apply ctl_fifo_writes; assumption|].
  unfold in_packets. destruct (N false [] []) as (r & Er). rewrite Er.
  reflexivity.
Qed.

(** *** What a control OUT transfer stores *)

Lemma stored_nil (f : Z -> Z) (b a : Z) : stored f b [] a = f a.
Proof.
  unfold stored. cbn [length]. change (Z.of_nat 0) with 0.
  destruct (Z.leb_spec b a); destruct (Z.ltb_spec a (b + 0)); try lia;
    reflexivity.
Qed.

Lemma stored_ext (f g : Z -> Z) (b : Z) (got : list Z) (a : Z) :
  (forall x, f x = g x) -> stored f b got a = stored g b got a.
Proof. intros E. unfold stored. case_if; [reflexivity|apply E]. Qed.

Lemma stored_first (f : Z -> Z) (b v : Z) (got : list Z) (a : Z) :
  0 <= v < 256 ->
  stored (store8 b v f) (b + 1) got a = stored f b (v :: got) a.
Proof.
  intros Hv. unfold stored, store8. cbn [length]. rewrite Nat2Z.inj_succ.
  destruct (Z.leb_spec (b + 1) a); destruct (Z.leb_spec b a); try lia;
    cbn [andb].
  - destruct (Z.ltb_spec a (b + 1 + Z.of_nat (length got)));
      destruct (Z.ltb_spec a (b + Z.succ (Z.of_nat (length got)))); try lia.
    + replace (Z.to_nat (a - b)) with (S (Z.to_nat (a - (b + 1)))) by lia.
      reflexivity.
    + destruct (Z.eqb_spec a b); [lia|reflexivity].
  - destruct (Z.ltb_spec a (b + Z.succ (Z.of_nat (length got)))); [|lia].
    replace a with b by lia. rewrite Z.eqb_refl, Z.sub_diag.
    apply u8_small; assumption.
  - destruct (Z.eqb_spec a b); [lia|reflexivity].
Qed.

Lemma stored_app (f : Z -> Z) (b : Z) (g1 g2 : list Z) (a : Z) :
  stored (stored f b g1) (b + Z.of_nat (length g1)) g2 a
  = stored f b (g1 ++ g2) a.
Proof.
  unfold stored. rewrite length_app, Nat2Z.inj_add.
  destruct (Z.leb_spec (b + Z.of_nat (length g1)) a);
    destruct (Z.leb_spec b a); try lia; cbn [andb].
  - destruct (Z.ltb_spec a (b + Z.of_nat (length g1) + Z.of_nat (length g2)));
      destruct (Z.ltb_spec a (b + (Z.of_nat (length g1)
                                   + Z.of_nat (length g2)))); try lia.
    + rewrite app_nth2 by lia. f_equal. lia.
    + destruct (Z.ltb_spec a (b + Z.of_nat (length g1))); [lia|reflexivity].
  - destruct (Z.ltb_spec a (b + Z.of_nat (length g1))); [|lia].
    destruct (Z.ltb_spec a (b + (Z.of_nat (length g1)
                                 + Z.of_nat (length g2)))); [|lia].
    rewrite app_nth1 by lia. reflexivity.
  - reflexivity.
Qed.

Lemma fifo_reads_map_rd (l : list Z) : fifo_reads (map (Rd UEDATX) l) = l.
Proof. induction l as [|x l IH]; simpl; [|rewrite IH]; reflexivity. Qed.

Lemma received_ctl (b : Z) (evs : list event) (m : machine) :
  ctl evs -> received b evs m (extend evs m).
Proof.
  intros C. unfold received. rewrite (ctl_fifo_reads evs C).
  split; [reflexivity|]. split; [|repeat split].
  intros a. rewrite stored_nil. reflexivity.
Qed.

Lemma received_trans (b : Z) (e1 e2 : list event) (m m1 m2 : machine) :
  received b e1 m m1 ->
  received (b + Z.of_nat (length (fifo_reads e1))) e2 m1 m2 ->
  received b (e1 ++ e2) m m2.
Proof.
  intros (T1 & R1 & A1 & B1 & C1 & D1 & E1) (T2 & R2 & A2 & B2 & C2 & D2 & E2).
  unfold received. rewrite T2, T1, <- app_assoc, fifo_reads_app.
  split; [reflexivity|]. split.
  - intros a. rewrite R2, (stored_ext _ _ _ _ _ R1). apply stored_app.
  - repeat split; congruence.
Qed.

Lemma out_fill_received (n : nat) :
  forall cur b len m, 0 <= len ->
  exists got,
    fst (fst (out_fill n cur b len m)) = b + Z.of_nat (length got) /\
    snd (fst (out_fill n cur b len m)) = len - Z.of_nat (length got) /\
    Z.of_nat (length got) <= len /\
    received b (map (Rd UEDATX) got) m (snd (out_fill n cur b len m)).
Proof.
  induction n as [|n IH]; intros cur b len m Hl; cbn [out_fill].
  - exists []. cbn [fst snd length map]. change (Z.of_nat 0) with 0.
    rewrite Z.add_0_r, Z.sub_0_r. repeat split; try lia.
    + rewrite app_nil_r. reflexivity.
    + intros a. cbn [fifo_reads]. rewrite stored_nil. reflexivity.
  - destruct ((0 <? len) && (cur <? ep0size m)) eqn:Ec.
    + apply andb_true_iff in Ec. destruct Ec as [Ec _]. apply Z.ltb_lt in Ec.
      unfold read. set (v := sample (trace m) UEDATX).
      match goal with |- context [out_fill n ?c ?b' ?l ?m'] =>
        destruct (IH c b' l m') as (got & E1 & E2 & Hj & R); [lia|]
      end.
      destruct R as (T & Rm & A1 & B1 & C1 & D1 & F1).
      exists (v :: got). rewrite E1, E2. cbn [length map].
      rewrite Nat2Z.inj_succ. repeat split; try lia; try assumption.
      * rewrite T. cbn [trace set_ram log]. rewrite <- app_assoc. reflexivity.
      * intros a. rewrite Rm. cbn [ram set_ram log fifo_reads].
        rewrite !fifo_reads_map_rd. apply stored_first. apply sample_range.
    + exists []. cbn [fst snd length map]. change (Z.of_nat 0) with 0.
      rewrite Z.add_0_r, Z.sub_0_r. repeat split; try lia.
      * rewrite app_nil_r. reflexivity.
      * intros a. cbn [fifo_reads]. rewrite stored_nil. reflexivity.
Qed.

Lemma received_nil (b : Z) (m : machine) : received b [] m m.
Proof.
  pose proof (received_ctl b [] m eq_refl) as R. rewrite extend_nil in R.
  exact R.
Qed.

Lemma out_data_received (fuel n : nat) :
  forall b len m, 0 <= len ->
  exists evs,
    received b evs m (final (out_data fuel n b len m)) /\
    Z.of_nat (length (fifo_reads evs)) <= len.
Proof.
  induction n as [|n IH]; intros b len m Hl; cbn [out_data final].
  - exists []. split; [apply received_nil|simpl; lia].
  - destruct (0 <? len) eqn:El.
    2:{ exists []. split; [apply received_nil|simpl; lia]. }
    rewrite flag_clear_eq.
    set (e1 := [Rd UEINTX (sample (trace m) UEINTX)]).
    destruct (Z.land (sample (trace m) UEINTX) (bit NAKINI) =? 0).
    2:{ exists e1. split; [apply received_ctl; reflexivity|simpl; lia]. }
    destruct (busy_wait_ctl _ (polling_cand _ _ (polling_flag RXOUTI)
                                 (polling_flag NAKINI)) fuel (extend e1 m))
      as (e2 & E2 & C2).
    rewrite extend_extend in E2.
    assert (C12 : ctl (e1 ++ e2)) by (apply ctl_app; [reflexivity|assumption]).
    destruct (busy_wait _ fuel (extend e1 m)) as [m2|m2];
      cbn [final bind] in *; subst m2.
    2:{ exists (e1 ++ e2). split; [apply received_ctl; assumption|].
        rewrite (ctl_fifo_reads _ C12). simpl; lia. }
    destruct (out_fill_received 256 0 b len (extend (e1 ++ e2) m) Hl)
      as (got & Eb & Elen & Hj & R3).
    destruct (out_fill 256 0 b len (extend (e1 ++ e2) m)) as [[b' len'] m3].
    cbn [fst snd] in Eb, Elen, R3. subst b' len'.
    rewrite flag_clear_eq.
    set (e4 := [Rd UEINTX (sample (trace m3) UEINTX)]).
    assert (Hm5 : exists e5, ctl e5 /\
              (if Z.land (sample (trace m3) UEINTX) (bit NAKINI) =? 0
               then and_not UEINTX (bit RXOUTI) (extend e4 m3)
               else extend e4 m3) = extend e5 m3).
    { destruct (Z.land (sample (trace m3) UEINTX) (bit NAKINI) =? 0).
      - rewrite and_not_eq, extend_extend. eexists.
        split; [|reflexivity]. reflexivity.
      - exists e4. split; reflexivity. }
    destruct Hm5 as (e5 & C5 & E5). rewrite E5.
    destruct (IH (b + Z.of_nat (length got)) (len - Z.of_nat (length got))
                 (extend e5 m3)) as (e6 & R6 & G6); [lia|].
    exists ((e1 ++ e2) ++ map (Rd UEDATX) got ++ e5 ++ e6).
    assert (F12 : fifo_reads (e1 ++ e2) = []) by (apply ctl_fifo_reads, C12).
    assert (F5 : fifo_reads e5 = []) by (apply ctl_fifo_reads, C5).
    split.
    + apply (received_trans b (e1 ++ e2) _ m (extend (e1 ++ e2) m));
        [apply received_ctl; assumption|].
      rewrite F12. cbn [length]. change (Z.of_nat 0) with 0.
      rewrite Z.add_0_r.
      apply (received_trans b (map (Rd UEDATX) got) _ _ m3); [exact R3|].
      rewrite fifo_reads_map_rd.
      apply (received_trans _ e5 _ m3 (extend e5 m3));
        [apply received_ctl; assumption|].
      rewrite F5. cbn [length]. change (Z.of_nat 0) with 0.
      rewrite Z.add_0_r. exact R6.
    + rewrite (fifo_reads_app (e1 ++ e2)), F12.
      rewrite (fifo_reads_app (map (Rd UEDATX) got)), fifo_reads_map_rd.
      rewrite (fifo_reads_app e5), F5. cbn [app].
      rewrite length_app. lia.
Qed.

(** X15: usb_u2_control_out stays within the buffer: whatever the controller
    shows and whatever the budget, the bytes taken from the FIFO, at most
    [min(len, wLength)], are stored at [b], [b + 1], ... in the order they
    were read; RAM outside [b .. b + min(len, wLength) - 1] is untouched,
    nothing is written to the FIFO, and config, epmax, ep0size, state and the
    stored request are unchanged. *)
Theorem control_out_stays_in_buffer (fuel : nat) (b len : Z) (m : machine) :
  0 <= len -> 0 <= wLength (req m) ->
  exists evs,
    received b evs m (final (usb_u2_control_out fuel b len m)) /\
    Z.of_nat (length (fifo_reads evs)) <= Z.min len (wLength (req m)) /\
    fifo_writes evs = [] /\
    forall a, a < b \/ b + Z.min len (wLength (req m)) <= a ->
      ram (final (usb_u2_control_out fuel b len m)) a = ram m a.
Proof.
  intros Hl Hw.
  assert (Hmain : exists evs,
            received b evs m (final (usb_u2_control_out fuel b len m)) /\
            Z.of_nat (length (fifo_reads evs))
            <= Z.min len (wLength (req m))).
  { unfold usb_u2_control_out. rewrite flag_clear_eq.
    set (e0 := [Rd UEINTX (sample (trace m) UEINTX)]).
    case_if.
    { exists e0. split; [apply received_ctl; reflexivity|simpl; lia]. }
    rewrite and_not_eq, extend_extend. cbn [trace extend req app].
    match goal with |- context [extend ?e m] => set (e1 := e) end.
    assert (C1 : ctl e1) by reflexivity.
    set (len' := if wLength (req m) <? len then wLength (req m) else len).
    assert (Hl' : len' = Z.min len (wLength (req m)))
      by (unfold len'; destruct (Z.ltb_spec (wLength (req m)) len); lia).
    destruct (out_data_received fuel fuel b len' (extend e1 m))
      as (e2 & R2 & G2); [lia|].
    assert (R12 : received b (e1 ++ e2) m
                    (final (out_data fuel fuel b len' (extend e1 m)))).
    { apply (received_trans b e1 e2 m (extend e1 m));
        [apply received_ctl; assumption|].
      rewrite (ctl_fifo_reads e1 C1). cbn [length].
      change (Z.of_nat 0) with 0. rewrite Z.add_0_r. exact R2. }
    assert (G12 : Z.of_nat (length (fifo_reads (e1 ++ e2))) <= len')
      by (rewrite fifo_reads_app, (ctl_fifo_reads e1 C1); exact G2).
    destruct (out_data fuel fuel b len' (extend e1 m)) as [m2|m2];
      cbn [final bind] in *.
    2:{ exists (e1 ++ e2). split; [assumption|lia]. }
    destruct (out_status_ctl fuel (0 <? len') m2) as (e3 & E3 & C3).
    rewrite E3. exists ((e1 ++ e2) ++ e3). split.
    - apply (received_trans b (e1 ++ e2) e3 m m2); [assumption|].
      apply received_ctl. assumption.
    - rewrite fifo_reads_app, (ctl_fifo_reads e3 C3), app_nil_r. lia. }
  destruct Hmain as (evs & R & G). exists evs.
  split; [assumption|]. split; [assumption|].
  destruct (control_out_spec fuel b len m Hl Hw) as (evs' & T' & _ & W').
  destruct R as (T & Rm & _).
  assert (evs' = evs) by (rewrite T in T'; apply app_inv_head in T'; auto).
  subst evs'. split; [assumption|].
  intros a Ha. rewrite Rm. unfold stored.
  destruct (Z.leb_spec b a); destruct (Z.ltb_spec a
    (b + Z.of_nat (length (fifo_reads evs)))); try lia; reflexivity.
Qed.

(** *** The standard requests that are served *)

Lemma in_chunks_one (src : Z -> Z) (p : Z) (r : nat) (b len : Z) :
  0 < len <= p -> (0 < r)%nat ->
  in_chunks src p r b len = [bytes_from src b (Z.to_nat len)].
Proof.
  intros Hl Hr. destruct r as [|r]; [lia|]. cbn [in_chunks].
  destruct (Z.ltb_spec 0 len); [|lia]. rewrite Z.min_l by lia.
  rewrite Z.sub_diag. destruct r; reflexivity.
Qed.

Lemma handle_ctrl_standard (fuel : nat) (m : machine) :
  Z.land (bmRequestType (req (read_request (write UENUM 0 m))))
         (USB_U2_REQ_TYPE_MASK H) = USB_U2_REQ_TYPE_STANDARD H ->
  handle_ctrl fuel m
  = standard_request fuel (read_request (write UENUM 0 m)) >>= stall.
Proof.
  intros Hty. unfold handle_ctrl. rewrite Hty, Z.eqb_refl. reflexivity.
Qed.

(** X16: SET_CONFIGURATION in its place (state Address, host-to-device, for
    the device) with a value of 0 or 1: the value is stored, the status stage
    hands over one empty packet, the application's endpoint callback is then
    called with the value, and when it returns the state becomes Configured,
    for the value 0 as well; the label _stall follows. The host must give the
    bank back (TXINI) for the function to return. *)
Theorem set_configuration_accepted (m : machine) :
  let m1 := read_request (write UENUM 0 m) in
  let c := u8 (wValue (req m1)) in
  NoDup (request_labels H) ->
  Z.land (bmRequestType (req m1)) (USB_U2_REQ_TYPE_MASK H)
  = USB_U2_REQ_TYPE_STANDARD H ->
  bRequest (req m1) = USB_U2_REQ_SET_CONFIGURATION H ->
  dir_of (req m1) <> USB_U2_REQ_DIR_DEVICE_TO_HOST H ->
  rcpt_of (req m1) = USB_U2_REQ_RCPT_DEVICE H ->
  state m = USB_U2_STATE_ADDRESS ->
  c <= 1 ->
  txini_stable -> (forall h, eventually TXINI h) ->
  Z.testbit (sample (trace m1) UEINTX) RXSTPI = true ->
  exists f0 evs,
    in_packets evs = [[]] /\ ctl evs /\
    forall fuel, (f0 <= fuel)%nat ->
      handle_ctrl fuel m
      = usb_u2_configure_endpoints_cb c (extend evs (set_config c m1))
        >>= fun m2 => stall (set_state USB_U2_STATE_CONFIGURED m2).
Proof.
  intros m1 c Hn Hty Hr Hdir Hrc Hst Hc Hstable Hready Hsetup.
  assert (Hs : state m1 = state m)
    by exact (proj1 (read_request_same (write UENUM 0 m))).
  assert (Hd : forall fuel,
            handle_ctrl fuel m
            = usb_u2_control_out fuel NULL 0 (set_config c m1)
              >>= (fun m3 => usb_u2_configure_endpoints_cb (config m3) m3
                     >>= fun m2 => Done (set_state USB_U2_STATE_CONFIGURED m2))
              >>= stall).
  { intros fuel. rewrite (handle_ctrl_standard fuel m Hty). fold m1.
    rewrite (standard_request_set_configuration fuel m1 Hn Hr).
    unfold set_configuration. apply Z.eqb_neq in Hdir. rewrite Hdir.
    rewrite Hrc, Z.eqb_refl, Hs, Hst. cbn [state_eqb negb orb].
    cbn [config set_config]. fold c.
    destruct (Z.ltb_spec 1 c); [lia|]. reflexivity. }
  clearbody m1.
  destruct (control_out_zero_total (set_config c m1) Hstable Hready NULL 0)
    as (f0 & evs & Hp & Hctl & Hrun).
  { cbn [req set_config]. lia. }
  { exact Hsetup. }
  exists f0, evs. do 2 (split; [assumption|]).
  intros fuel Hfu. rewrite Hd, (Hrun fuel Hfu). cbn [bind].
  cbn [config extend set_config].
  destruct (usb_u2_configure_endpoints_cb c (extend evs (set_config c m1)));
    reflexivity.
Qed.

(** X17: SET_ADDRESS in its place (state Default, host-to-device, for the
    device), with a controller that gives the bank back: handle_ctrl returns;
    UDADDR first gets the low seven bits of wValue with ADDEN clear, the
    status stage hands over one empty packet, ADDEN is set by a
    read-modify-write of UDADDR after that, and the state is Address when the
    label _stall is reached. *)
Theorem set_address_completes (m : machine) :
  let m1 := read_request (write UENUM 0 m) in
  let a := Z.land (wValue (req m1)) 0x7f in
  NoDup (request_labels H) ->
  Z.land (bmRequestType (req m1)) (USB_U2_REQ_TYPE_MASK H)
  = USB_U2_REQ_TYPE_STANDARD H ->
  bRequest (req m1) = USB_U2_REQ_SET_ADDRESS H ->
  dir_of (req m1) <> USB_U2_REQ_DIR_DEVICE_TO_HOST H ->
  rcpt_of (req m1) = USB_U2_REQ_RCPT_DEVICE H ->
  state m = USB_U2_STATE_DEFAULT ->
  txini_stable -> (forall h, eventually TXINI h) ->
  Z.testbit (sample (trace m1 ++ [Wr UDADDR a]) UEINTX) RXSTPI = true ->
  exists f0 evs d,
    in_packets evs = [[]] /\ ctl evs /\ Z.testbit a ADDEN = false /\
    forall fuel, (f0 <= fuel)%nat ->
      handle_ctrl fuel m
      = stall (set_state USB_U2_STATE_ADDRESS
                 (extend ([Wr UDADDR a] ++ evs
                          ++ [Rd UDADDR d;
                              Wr UDADDR (u8 (Z.lor d (bit ADDEN)))]) m1)).
Proof.
  intros m1 a Hn Hty Hr Hdir Hrc Hst Hstable Hready Hsetup.
  assert (Hs : state m1 = state m)
    by exact (proj1 (read_request_same (write UENUM 0 m))).
  assert (Ha : 0 <= a < 128).
  { unfold a. change 0x7f with (Z.ones 7). rewrite Z.land_ones by lia.
    apply Z.mod_pos_bound. lia. }
  assert (Hd : forall fuel,
            handle_ctrl fuel m
            = usb_u2_control_out fuel NULL 0 (extend [Wr UDADDR a] m1)
              >>= (fun m3 => Done (set_state USB_U2_STATE_ADDRESS
                                     (or_into UDADDR (bit ADDEN) m3)))
              >>= stall).
  { intros fuel. rewrite (handle_ctrl_standard fuel m Hty). fold m1.
    rewrite (standard_request_set_address fuel m1 Hn Hr).
    unfold set_address. apply Z.eqb_neq in Hdir. rewrite Hdir.
    rewrite Hrc, Z.eqb_refl, Hs, Hst. cbn [state_eqb negb orb].
    fold a. rewrite write_eq, (u8_small a) by lia. reflexivity. }
  clearbody m1.
  destruct (control_out_zero_total (extend [Wr UDADDR a] m1) Hstable Hready
              NULL 0) as (f0 & evs & Hp & Hctl & Hrun).
  { cbn [req extend]. pose proof (Z.le_min_l 0 (wLength (req m1))). lia. }
  { exact Hsetup. }
  exists f0, evs. eexists. do 2 (split; [assumption|]). split.
  - apply Z.bits_above_log2; [lia|].
    destruct (Z.eq_dec a 0) as [->|Hnz]; [cbn; unfold ADDEN; lia|].
    apply Z.log2_lt_pow2; [lia|]. unfold ADDEN. change (2 ^ 7) with 128. lia.
  - intros fuel Hfu. rewrite Hd, (Hrun fuel Hfu). cbn [bind].
    rewrite or_into_eq, !extend_extend. cbn [trace extend].
    rewrite <- ?app_assoc. reflexivity.
Qed.

(** X18: GET_STATUS for the device (or for an interface): the answer is the
    16-bit word 0, sent as one packet of two bytes. The host takes the packet
    and then starts the status stage; handle_ctrl returns with enough budget
    for the waits. [ep0size] is above 2, as it is for every size the
    controller has. *)
Theorem get_status_device_sends_zero (m : machine) :
  let m1 := read_request (write UENUM 0 m) in
  let m2 := set_ram (store16 (status_slot L) 0 (ram m1)) m1 in
  Z.land (bmRequestType (req m1)) (USB_U2_REQ_TYPE_MASK H)
  = USB_U2_REQ_TYPE_STANDARD H ->
  bRequest (req m1) = USB_U2_REQ_GET_STATUS H ->
  dir_of (req m1) <> USB_U2_REQ_DIR_HOST_TO_DEVICE H ->
  rcpt_of (req m1) <> USB_U2_REQ_RCPT_ENDPOINT H ->
  2 < ep0size m < 256 -> 2 <= wLength (req m1) ->
  txini_stable -> (forall h, eventually TXINI h) ->
  host_waits_for 1 (trace m1) -> host_acknowledges 1 (trace m1) ->
  Z.testbit (sample (trace m1) UEINTX) RXSTPI = true ->
  exists f0 evs,
    in_packets evs = [[0; 0]] /\
    forall fuel, (f0 <= fuel)%nat ->
      handle_ctrl fuel m = stall (extend evs m2).
Proof.
  intros m1 m2 Hty Hr Hdir Hrc Hsize Hwl Hstable Hready Hwaits Hack Hsetup.
  assert (Hz : ep0size m1 = ep0size m)
    by exact (proj1 (proj2 (proj2 (proj2
                (read_request_same (write UENUM 0 m)))))).
  assert (Hd : forall fuel,
            handle_ctrl fuel m
            = usb_u2_control_in fuel (status_slot L) 2 false m2 >>= stall).
  { intros fuel. rewrite (handle_ctrl_standard fuel m Hty). fold m1.
    rewrite (standard_request_get_status fuel m1 Hr).
    unfold get_status. apply Z.eqb_neq in Hdir, Hrc. rewrite Hdir, Hrc.
    case_if; reflexivity. }
  clearbody m1.
  assert (Hsz : 0 < ep0size m2 < 256) by (cbn [ep0size m2 set_ram]; lia).
  destruct (control_in_total m2 1 Hstable Hready Hwaits Hsz Hack
              (status_slot L) 2 false) as (f0 & evs & Hp & Hrun).
  - lia.
  - cbn [req m2 set_ram]. lia.
  - cbn [req ep0size m2 set_ram]. rewrite Z.min_l by lia.
    rewrite (Z.mod_small 2 (ep0size m1)) by lia.
    rewrite andb_false_r, in_chunks_one by lia. reflexivity.
  - exact Hsetup.
  - exists f0, evs. split.
    + rewrite Hp. cbn [req ep0size m2 set_ram]. rewrite Z.min_l by lia.
      rewrite (Z.mod_small 2 (ep0size m1)) by lia.
      rewrite andb_false_r, in_chunks_one by lia.
      change (Z.to_nat 2) with 2%nat. cbn [bytes_from app].
      unfold source. cbn [ram m2 set_ram]. unfold store16, store8.
      rewrite Z.eqb_refl.
      destruct (Z.eqb_spec (status_slot L) (status_slot L + 1)); [lia|].
      destruct (Z.eqb_spec (status_slot L + 1) (status_slot L)); [lia|].
      rewrite Z.eqb_refl. reflexivity.
    + intros fuel Hfu. rewrite Hd, (Hrun fuel Hfu). reflexivity.
Qed.

Lemma store16_small (a v : Z) (f : Z -> Z) :
  0 <= v < 256 ->
  store16 a v f a = v /\ store16 a v f (a + 1) = 0.
Proof.
  intros Hv. unfold store16, store8.
  destruct (Z.eqb_spec a (a + 1)); [lia|]. rewrite !Z.eqb_refl.
  split; [apply u8_small; assumption|].
  unfold u16. rewrite (Z.mod_small v) by lia.
  rewrite Z.shiftr_div_pow2 by lia. change (2 ^ 8) with 256.
  rewrite Z.div_small by lia. reflexivity.
Qed.

(** X19: GET_STATUS for an endpoint below 5: the endpoint is selected, its
    stall-request bit is read from UECONX, endpoint 0 is selected again, and
    the answer is one packet of two bytes, 1 and 0 when the bit is set, 0 and
    0 when it is clear. *)
Theorem get_status_endpoint_reports_halt (m : machine) :
  let m1 := read_request (write UENUM 0 m) in
  let ep := Z.land (wIndex (req m1)) 0xf in
  let c := sample (trace m1 ++ [Wr UENUM ep]) UECONX in
  let pre := [Wr UENUM ep; Rd UECONX c; Wr UENUM 0] in
  let halt := if Z.testbit c STALLRQ then 1 else 0 in
  let m2 := set_ram (store16 (status_slot L) halt (ram m1)) (extend pre m1) in
  Z.land (bmRequestType (req m1)) (USB_U2_REQ_TYPE_MASK H)
  = USB_U2_REQ_TYPE_STANDARD H ->
  bRequest (req m1) = USB_U2_REQ_GET_STATUS H ->
  dir_of (req m1) <> USB_U2_REQ_DIR_HOST_TO_DEVICE H ->
  rcpt_of (req m1) = USB_U2_REQ_RCPT_ENDPOINT H ->
  USB_U2_REQ_RCPT_ENDPOINT H <> USB_U2_REQ_RCPT_DEVICE H ->
  ep < 5 ->
  2 < ep0size m < 256 -> 2 <= wLength (req m1) ->
  txini_stable -> (forall h, eventually TXINI h) ->
  host_waits_for 1 (trace m1 ++ pre) ->
  host_acknowledges 1 (trace m1 ++ pre) ->
  Z.testbit (sample (trace m1 ++ pre) UEINTX) RXSTPI = true ->
  exists f0 evs,
    in_packets evs = [[halt; 0]] /\
    forall fuel, (f0 <= fuel)%nat ->
      handle_ctrl fuel m = stall (extend evs m2).
Proof.
  intros m1 ep c pre halt m2 Hty Hr Hdir Hrc Hne Hep Hsize Hwl Hstable Hready
         Hwaits Hack Hsetup.
  assert (Hz : ep0size m1 = ep0size m)
    by exact (proj1 (proj2 (proj2 (proj2
                (read_request_same (write UENUM 0 m)))))).
  assert (Hr16 : 0 <= ep < 16) by apply land_0xf_range.
  assert (Hd : forall fuel,
            handle_ctrl fuel m
            = usb_u2_control_in fuel (status_slot L) 2 false m2 >>= stall).
  { intros fuel. rewrite (handle_ctrl_standard fuel m Hty). fold m1.
    rewrite (standard_request_get_status fuel m1 Hr).
    unfold get_status. apply Z.eqb_neq in Hdir. rewrite Hdir, Hrc.
    apply Z.eqb_neq in Hne. rewrite Hne, Z.eqb_refl. fold ep.
    rewrite (u8_small ep) by lia.
    destruct (Z.leb_spec 5 ep); [lia|].
    rewrite flag_clear_eq, flag_test by (unfold STALLRQ; lia).
    rewrite !write_eq, !extend_extend, u8_0, (u8_small ep) by lia.
    cbn [trace extend app ram]. fold c.
    unfold m2, halt, pre. destruct (Z.testbit c STALLRQ); reflexivity. }
  clearbody m1.
  assert (Hh : 0 <= halt < 256) by (unfold halt; case_if; lia).
  assert (Hsz : 0 < ep0size m2 < 256)
    by (cbn [ep0size m2 set_ram extend]; lia).
  destruct (control_in_total m2 1 Hstable Hready Hwaits Hsz Hack
              (status_slot L) 2 false) as (f0 & evs & Hp & Hrun).
  - lia.
  - cbn [req m2 set_ram extend]. lia.
  - cbn [req ep0size m2 set_ram extend]. rewrite Z.min_l by lia.
    rewrite (Z.mod_small 2 (ep0size m1)) by lia.
    rewrite andb_false_r, in_chunks_one by lia. reflexivity.
  - exact Hsetup.
  - exists f0, evs. split.
    + rewrite Hp. cbn [req ep0size m2 set_ram extend].
      rewrite Z.min_l by lia.
      rewrite (Z.mod_small 2 (ep0size m1)) by lia.
      rewrite andb_false_r, in_chunks_one by lia.
      change (Z.to_nat 2) with 2%nat. cbn [bytes_from app].
      unfold source. cbn [ram m2 set_ram].
      destruct (store16_small (status_slot L) halt (ram m1) Hh) as [E0 E1].
      rewrite E0, E1, (u8_small halt) by lia. reflexivity.
    + intros fuel Hfu. rewrite Hd, (Hrun fuel Hfu). reflexivity.
Qed.

(** X20: GET_STATUS that is not answered: a host-to-device GET_STATUS, and one
    for an endpoint number of 5 or more, get the stall handshake; no endpoint
    but 0 is selected and nothing is sent. *)
Theorem get_status_refused (fuel : nat) (m : machine) :
  let m1 := read_request (write UENUM 0 m) in
  Z.land (bmRequestType (req m1)) (USB_U2_REQ_TYPE_MASK H)
  = USB_U2_REQ_TYPE_STANDARD H ->
  bRequest (req m1) = USB_U2_REQ_GET_STATUS H ->
  dir_of (req m1) = USB_U2_REQ_DIR_HOST_TO_DEVICE H \/
  (rcpt_of (req m1) = USB_U2_REQ_RCPT_ENDPOINT H /\
   USB_U2_REQ_RCPT_ENDPOINT H <> USB_U2_REQ_RCPT_DEVICE H /\
   5 <= Z.land (wIndex (req m1)) 0xf) ->
  handle_ctrl fuel m = Done (extend (stall_events (trace m1)) m1) /\
  only_on [UENUM; UEINTX; UECONX] (stall_events (trace m1)) /\
  fifo_writes (stall_events (trace m1)) = [].
Proof.
  intros m1 Hty Hr Hc.
  split; [|split; [apply stall_events_only_on
                  |unfold stall_events; case_if; reflexivity]].
  rewrite (handle_ctrl_standard fuel m Hty). fold m1.
  rewrite (standard_request_get_status fuel m1 Hr).
  unfold get_status.
  destruct Hc as [Hd|(Hrc & Hne & Hep)].
  - rewrite Hd, Z.eqb_refl. apply stall_eq.
  - case_if; [apply stall_eq|].
    rewrite Hrc. apply Z.eqb_neq in Hne. rewrite Hne, Z.eqb_refl.
    pose proof (land_0xf_range (wIndex (req m1))) as Hr16.
    rewrite u8_small by lia.
    destruct (Z.leb_spec 5 (Z.land (wIndex (req m1)) 15)); [|lia].
    apply stall_eq.
Qed.

(** *** GET_DESCRIPTOR *)

Lemma source_flash (m : machine) (b : Z) (n : nat) :
  bytes_from (source true m) b n = bytes_from pgm_read_byte_near b n.
Proof.
  apply bytes_from_ext. intros a. unfold source, pgm_read_byte_near, u8.
  apply Z.mod_mod. lia.
Qed.

(** A descriptor in flash, once resolved. *)
Lemma get_descriptor_flash (m : machine) (need : nat) (addr off : Z) :
  let m1 := read_request (write UENUM 0 m) in
  let blen := pgm_read_byte_near (addr + off) in
  let n := Z.min blen (wLength (req m1)) in
  let zlp := (blen <? wLength (req m1)) && (blen mod ep0size m =? 0) in
  NoDup (request_labels H) ->
  Z.land (bmRequestType (req m1)) (USB_U2_REQ_TYPE_MASK H)
  = USB_U2_REQ_TYPE_STANDARD H ->
  bRequest (req m1) = USB_U2_REQ_GET_DESCRIPTOR H ->
  dir_of (req m1) <> USB_U2_REQ_DIR_HOST_TO_DEVICE H ->
  rcpt_of (req m1) <> USB_U2_REQ_RCPT_ENDPOINT H ->
  resolve_descriptor m1 = (addr, off, true) ->
  addr <> NULL ->
  0 < ep0size m < 256 ->
  txini_stable -> (forall h, eventually TXINI h) ->
  host_waits_for need (trace m1) -> host_acknowledges need (trace m1) ->
  Z.testbit (sample (trace m1) UEINTX) RXSTPI = true ->
  Z.of_nat need = (n + ep0size m - 1) / ep0size m + (if zlp then 1 else 0) ->
  exists f0 evs,
    concat (in_packets evs) = bytes_from pgm_read_byte_near addr (Z.to_nat n) /\
    forall fuel, (f0 <= fuel)%nat ->
      handle_ctrl fuel m = stall (extend evs m1).
Proof.
  intros m1 blen n zlp Hn Hty Hr Hdir Hrc Hres Hnn Hsize Hstable Hready
         Hwaits Hack Hsetup Hneed.
  assert (Hz : ep0size m1 = ep0size m)
    by exact (proj1 (proj2 (proj2 (proj2
                (read_request_same (write UENUM 0 m)))))).
  assert (Hwl : 0 <= wLength (req m1))
    by exact (read_request_wLength (write UENUM 0 m)).
  assert (Hd : forall fuel,
            handle_ctrl fuel m
            = usb_u2_control_in fuel addr blen true m1 >>= stall).
  { intros fuel. rewrite (handle_ctrl_standard fuel m Hty). fold m1.
    rewrite (standard_request_get_descriptor fuel m1 Hn Hr).
    unfold get_descriptor. apply Z.eqb_neq in Hdir, Hrc, Hnn.
    rewrite Hdir, Hrc. cbn [orb]. rewrite Hres, Hnn. reflexivity. }
  clearbody m1.
  assert (Hb : 0 <= blen < 256) by apply u8_range.
  assert (Hsz : 0 < ep0size m1 < 256) by lia.
  destruct (control_in_bytes m1 need Hstable Hready Hwaits Hsz Hack
              addr blen true) as (f0 & evs & Hc & Hrun).
  - lia.
  - assumption.
  - rewrite Hz. exact Hneed.
  - exact Hsetup.
  - exists f0, evs. split.
    + rewrite Hc, source_flash. reflexivity.
    + intros fuel Hfu. rewrite Hd, (Hrun fuel Hfu). reflexivity.
Qed.

(** X21: GET_DESCRIPTOR for the device descriptor: it is sent from flash, from
    the address the application's callback gives, [bLength] bytes as the first
    byte of the descriptor says, or [wLength] if that is less; with a
    cooperating host handle_ctrl returns and the packets handed over hold
    exactly these bytes. *)
Theorem get_descriptor_device (m : machine) (need : nat) :
  let m1 := read_request (write UENUM 0 m) in
  let desc := usb_u2_device_descriptor_cb in
  let blen := pgm_read_byte_near desc in
  let n := Z.min blen (wLength (req m1)) in
  let zlp := (blen <? wLength (req m1)) && (blen mod ep0size m =? 0) in
  NoDup (request_labels H) ->
  Z.land (bmRequestType (req m1)) (USB_U2_REQ_TYPE_MASK H)
  = USB_U2_REQ_TYPE_STANDARD H ->
  bRequest (req m1) = USB_U2_REQ_GET_DESCRIPTOR H ->
  dir_of (req m1) <> USB_U2_REQ_DIR_HOST_TO_DEVICE H ->
  rcpt_of (req m1) <> USB_U2_REQ_RCPT_ENDPOINT H ->
  Z.shiftr (wValue (req m1)) 8 = USB_U2_DESCR_TYPE_DEVICE H ->
  desc <> NULL ->
  0 < ep0size m < 256 ->
  txini_stable -> (forall h, eventually TXINI h) ->
  host_waits_for need (trace m1) -> host_acknowledges need (trace m1) ->
  Z.testbit (sample (trace m1) UEINTX) RXSTPI = true ->
  Z.of_nat need = (n + ep0size m - 1) / ep0size m + (if zlp then 1 else 0) ->
  exists f0 evs,
    concat (in_packets evs) = bytes_from pgm_read_byte_near desc (Z.to_nat n) /\
    forall fuel, (f0 <= fuel)%nat ->
      handle_ctrl fuel m = stall (extend evs m1).
Proof.
  intros m1 desc blen n zlp Hn Hty Hr Hdir Hrc Hdt Hnn.
  pose proof (get_descriptor_flash m need desc 0 Hn Hty Hr Hdir Hrc) as G.
  cbv zeta in G. rewrite Z.add_0_r in G. apply G; [|exact Hnn].
  fold m1. unfold resolve_descriptor. rewrite Hdt, Z.eqb_refl. reflexivity.
Qed.

(** X22: GET_DESCRIPTOR for the configuration descriptor: the application's
    callback is asked for the descriptor of the stored configuration value,
    and the length sent is the byte at offset 2 of what it returns, the low
    byte of wTotalLength, or [wLength] if that is less: a configuration of
    more than 255 bytes is not sent whole. *)
Theorem get_descriptor_configuration (m : machine) (need : nat) :
  let m1 := read_request (write UENUM 0 m) in
  let desc := usb_u2_config_descriptor_cb (config m) in
  let blen := pgm_read_byte_near (desc + 2) in
  let n := Z.min blen (wLength (req m1)) in
  let zlp := (blen <? wLength (req m1)) && (blen mod ep0size m =? 0) in
  NoDup (request_labels H) -> NoDup (descriptor_labels H) ->
  Z.land (bmRequestType (req m1)) (USB_U2_REQ_TYPE_MASK H)
  = USB_U2_REQ_TYPE_STANDARD H ->
  bRequest (req m1) = USB_U2_REQ_GET_DESCRIPTOR H ->
  dir_of (req m1) <> USB_U2_REQ_DIR_HOST_TO_DEVICE H ->
  rcpt_of (req m1) <> USB_U2_REQ_RCPT_ENDPOINT H ->
  Z.shiftr (wValue (req m1)) 8 = USB_U2_DESCR_TYPE_CONFIGURATION H ->
  desc <> NULL ->
  0 < ep0size m < 256 ->
  txini_stable -> (forall h, eventually TXINI h) ->
  host_waits_for need (trace m1) -> host_acknowledges need (trace m1) ->
  Z.testbit (sample (trace m1) UEINTX) RXSTPI = true ->
  Z.of_nat need = (n + ep0size m - 1) / ep0size m + (if zlp then 1 else 0) ->
  exists f0 evs,
    concat (in_packets evs) = bytes_from pgm_read_byte_near desc (Z.to_nat n) /\
    n <= 255 /\
    forall fuel, (f0 <= fuel)%nat ->
      handle_ctrl fuel m = stall (extend evs m1).
Proof.
  intros m1 desc blen n zlp Hn Hnd Hty Hr Hdir Hrc Hdt Hnn Hsize Hstable
         Hready Hwaits Hack Hsetup Hneed.
  assert (Hg : config m1 = config m)
    by exact (proj1 (proj2 (read_request_same (write UENUM 0 m)))).
  destruct (get_descriptor_flash m need desc 2 Hn Hty Hr Hdir Hrc)
    as (f0 & evs & Hc & Hrun); try assumption.
  - fold m1. unfold resolve_descriptor. rewrite Hdt, Hg.
    unfold descriptor_labels in Hnd.
    rewrite (nodup_later _ _ [_] _ Hnd) by (simpl; auto).
    rewrite Z.eqb_refl. reflexivity.
  - exists f0, evs. split; [exact Hc|]. split; [|exact Hrun].
    pose proof (u8_range (pgm (desc + 2))) as Hb.
    unfold n, blen, pgm_read_byte_near. lia.
Qed.

(** X23: GET_DESCRIPTOR for string 0 when the application has no string
    descriptor for it: the firmware's own [default_enus_lang] is sent from
    flash, the four bytes {4, STRING, 0x09, 0x04} (language 0x0409), or the
    first [wLength] of them. *)
Theorem get_descriptor_language (m : machine) (need : nat) :
  let m1 := read_request (write UENUM 0 m) in
  let n := Z.min 4 (wLength (req m1)) in
  let zlp := (4 <? wLength (req m1)) && (4 mod ep0size m =? 0) in
  NoDup (request_labels H) -> NoDup (descriptor_labels H) ->
  Z.land (bmRequestType (req m1)) (USB_U2_REQ_TYPE_MASK H)
  = USB_U2_REQ_TYPE_STANDARD H ->
  bRequest (req m1) = USB_U2_REQ_GET_DESCRIPTOR H ->
  dir_of (req m1) <> USB_U2_REQ_DIR_HOST_TO_DEVICE H ->
  rcpt_of (req m1) <> USB_U2_REQ_RCPT_ENDPOINT H ->
  Z.shiftr (wValue (req m1)) 8 = USB_U2_DESCR_TYPE_STRING H ->
  u8 (wValue (req m1)) = 0 ->
  usb_u2_string_descriptor_cb (wValue (req m1)) (wIndex (req m1)) = NULL ->
  default_enus_lang L <> NULL ->
  bytes_from pgm_read_byte_near (default_enus_lang L) 4
  = [4; USB_U2_DESCR_TYPE_STRING H; 0x09; 0x04] ->
  0 < ep0size m < 256 ->
  txini_stable -> (forall h, eventually TXINI h) ->
  host_waits_for need (trace m1) -> host_acknowledges need (trace m1) ->
  Z.testbit (sample (trace m1) UEINTX) RXSTPI = true ->
  Z.of_nat need = (n + ep0size m - 1) / ep0size m + (if zlp then 1 else 0) ->
  exists f0 evs,
    concat (in_packets evs)
    = firstn (Z.to_nat n) [4; USB_U2_DESCR_TYPE_STRING H; 0x09; 0x04] /\
    forall fuel, (f0 <= fuel)%nat ->
      handle_ctrl fuel m = stall (extend evs m1).
Proof.
  intros m1 n zlp Hn Hnd Hty Hr Hdir Hrc Hdt Hix Hcb Hnn Hflash Hsize Hstable
         Hready Hwaits Hack Hsetup Hneed.
  assert (Hwl : 0 <= wLength (req m1))
    by exact (read_request_wLength (write UENUM 0 m)).
  assert (Hb : pgm_read_byte_near (default_enus_lang L + 0) = 4).
  { rewrite Z.add_0_r.
    apply (f_equal (fun l => nth 0 l 0)) in Hflash. exact Hflash. }
  destruct (get_descriptor_flash m need (default_enus_lang L) 0
              Hn Hty Hr Hdir Hrc) as (f0 & evs & Hc & Hrun); try assumption.
  - fold m1. unfold resolve_descriptor. rewrite Hdt, Hcb, Hix.
    unfold descriptor_labels in Hnd.
    rewrite !(nodup_later _ _ [_; _] _ Hnd) by (simpl; auto).
    rewrite !Z.eqb_refl. reflexivity.
  - rewrite Hb. exact Hneed.
  - exists f0, evs. split; [|exact Hrun].
    rewrite Hc, Hb. fold m1. fold n.
    rewrite (bytes_from_firstn _ _ (Z.to_nat n) 4) by (unfold n; lia).
    rewrite Hflash. reflexivity.
Qed.

(** X24: GET_DESCRIPTOR that is not answered: a host-to-device request, one
    for an endpoint, and one for a descriptor type other than device,
    configuration and string get the stall handshake; no callback is asked and
    nothing is sent. *)
Theorem get_descriptor_refused (fuel : nat) (m : machine) :
  let m1 := read_request (write UENUM 0 m) in
  let ty := Z.shiftr (wValue (req m1)) 8 in
  NoDup (request_labels H) ->
  Z.land (bmRequestType (req m1)) (USB_U2_REQ_TYPE_MASK H)
  = USB_U2_REQ_TYPE_STANDARD H ->
  bRequest (req m1) = USB_U2_REQ_GET_DESCRIPTOR H ->
  dir_of (req m1) = USB_U2_REQ_DIR_HOST_TO_DEVICE H \/
  rcpt_of (req m1) = USB_U2_REQ_RCPT_ENDPOINT H \/
  (ty <> USB_U2_DESCR_TYPE_DEVICE H /\
   ty <> USB_U2_DESCR_TYPE_CONFIGURATION H /\
   ty <> USB_U2_DESCR_TYPE_STRING H) ->
  handle_ctrl fuel m = Done (extend (stall_events (trace m1)) m1) /\
  only_on [UENUM; UEINTX; UECONX] (stall_events (trace m1)) /\
  fifo_writes (stall_events (trace m1)) = [].
Proof.
  intros m1 ty Hn Hty Hr Hc.
  split; [|split; [apply stall_events_only_on
                  |unfold stall_events; case_if; reflexivity]].
  rewrite (handle_ctrl_standard fuel m Hty). fold m1.
  rewrite (standard_request_get_descriptor fuel m1 Hn Hr).
  unfold get_descriptor.
  destruct Hc as [Hd|[Hd|(H1 & H2 & H3)]].
  - rewrite Hd, Z.eqb_refl. apply stall_eq.
  - rewrite Hd, Z.eqb_refl, orb_true_r. apply stall_eq.
  - case_if; [apply stall_eq|].
    unfold resolve_descriptor. fold ty.
    apply Z.eqb_neq in H1, H2, H3. rewrite H1, H2, H3.
    unfold NULL. cbn [Z.eqb]. apply stall_eq.
Qed.

(** *** The poll loop *)

Section PollLoop.

Variable usb_u2_endpoint_in_cb : Z -> bool -> machine -> Z * machine.
Variable usb_u2_endpoint_out_cb : Z -> Z -> bool -> machine -> machine.

Lemma only_on_app (rs : list reg) (a b : list event) :
  only_on rs a -> only_on rs b -> only_on rs (a ++ b).
Proof.
  unfold only_on. intros Ha Hb. rewrite forallb_app, Ha, Hb. reflexivity.
Qed.

Lemma writes_only_app (r : reg) (a b : list event) :
  writes_only r a -> writes_only r b -> writes_only r (a ++ b).
Proof.
  unfold writes_only. intros Ha Hb. rewrite forallb_app, Ha, Hb. reflexivity.
Qed.

Lemma serve_endpoint_skip (i : Z) (m : machine) :
  0 <= i < 256 ->
  (forall h, Z.testbit (sample h UEINTX) TXINI = false /\
             Z.testbit (sample h UEINTX) RXOUTI = false) ->
  exists c v,
    serve_endpoint usb_u2_endpoint_in_cb usb_u2_endpoint_out_cb i m
    = extend [Wr UENUM i; Rd UECFG0X c; Rd UEINTX v] m.
Proof.
  intros Hi Hidle. unfold serve_endpoint. cbv zeta.
  rewrite write_eq, (u8_small i) by assumption.
  rewrite flag_clear_eq, extend_extend. cbn [trace extend app].
  case_if.
  - rewrite flag_clear_eq, flag_test by (unfold RXOUTI; lia).
    rewrite extend_extend. cbn [trace extend app].
    rewrite (proj2 (Hidle _)). cbn [negb]. eexists _, _. reflexivity.
  - rewrite flag_clear_eq, flag_test by (unfold TXINI; lia).
    rewrite extend_extend. cbn [trace extend app].
    rewrite (proj1 (Hidle _)). cbn [negb]. eexists _, _. reflexivity.
Qed.

Lemma idle_endpoints (k : nat) :
  (forall h, Z.testbit (sample h UEINTX) TXINI = false /\
             Z.testbit (sample h UEINTX) RXOUTI = false) ->
  forall (n : nat) (i : Z) (m : machine),
    0 <= i -> epmax m < 255 -> i + Z.of_nat k = epmax m + 1 -> (k < n)%nat ->
    exists evs,
      task_endpoints usb_u2_endpoint_in_cb usb_u2_endpoint_out_cb n i m
      = Done (extend evs m) /\
      only_on [UENUM; UECFG0X; UEINTX] evs /\ writes_only UENUM evs.
Proof.
  intros Hidle. induction k as [|k IH]; intros n i m Hi Hm Hk Hn;
    (destruct n as [|n]; [lia|]); cbn [task_endpoints].
  - destruct (Z.leb_spec i (epmax m)); [lia|].
    exists []. rewrite extend_nil. repeat split.
  - destruct (Z.leb_spec i (epmax m)); [|lia].
    destruct (serve_endpoint_skip i m ltac:(lia) Hidle) as (c & v & E).
    rewrite E, (u8_small (i + 1)) by lia.
    destruct (IH n (i + 1) (extend [Wr UENUM i; Rd UECFG0X c; Rd UEINTX v] m))
      as (evs & E2 & O2 & W2); try (cbn [epmax extend]; lia).
    rewrite E2, extend_extend. eexists. split; [reflexivity|].
    split; [apply only_on_app|apply writes_only_app]; try assumption.
    + unfold only_on. cbn [forallb reg_of existsb reg_eqb orb andb].
      reflexivity.
    + reflexivity.
Qed.

(** X25: usb_u2_task when nothing is pending (the flag register shows neither
    a setup packet nor a free IN bank nor a received OUT packet): it returns,
    given a budget above [epmax]; it has selected each endpoint in turn and
    endpoint 0 at the end, read the direction and the flags, and done nothing
    else: no callback is called, the FIFO is not accessed, the statics and RAM
    are what they were. *)
Theorem task_idle (fuel : nat) (m : machine) :
  (forall h, Z.testbit (sample h UEINTX) TXINI = false /\
             Z.testbit (sample h UEINTX) RXOUTI = false) ->
  (forall h, Z.testbit (sample h UEINTX) RXSTPI = false) ->
  0 <= epmax m < 255 -> (Z.to_nat (epmax m) < fuel)%nat ->
  exists evs,
    usb_u2_task usb_u2_endpoint_in_cb usb_u2_endpoint_out_cb fuel m
    = Done (extend (evs ++ [Wr UENUM 0]) m) /\
    only_on [UENUM; UECFG0X; UEINTX] evs /\ writes_only UENUM evs /\
    fifo_reads evs = [] /\ fifo_writes evs = [].
Proof.
  intros Hidle Hsetup Hm Hfu.
  assert (Hmain : exists evs,
            usb_u2_task usb_u2_endpoint_in_cb usb_u2_endpoint_out_cb fuel m
            = Done (extend (evs ++ [Wr UENUM 0]) m) /\
            only_on [UENUM; UECFG0X; UEINTX] evs /\ writes_only UENUM evs).
  { unfold usb_u2_task. cbv zeta.
    rewrite write_eq, u8_0, flag_clear_eq, flag_test by (unfold RXSTPI; lia).
    rewrite Hsetup. cbn [negb bind]. rewrite extend_extend.
    cbn [trace extend app].
    match goal with |- context [extend ?e m] => set (e0 := e) end.
    destruct (idle_endpoints (Z.to_nat (epmax m)) Hidle fuel 1 (extend e0 m))
      as (evs & E & O & W); try (cbn [epmax extend]; lia).
    rewrite E. cbn [bind]. rewrite write_eq, u8_0, !extend_extend.
    exists (e0 ++ evs). rewrite <- app_assoc. split; [reflexivity|].
    split; [apply only_on_app|apply writes_only_app]; try assumption;
      reflexivity. }
  destruct Hmain as (evs & E & O & W). exists evs.
  do 3 (split; [assumption|]).
  assert (Hf : forall l, only_on [UENUM; UECFG0X; UEINTX] l ->
                 fifo_reads l = [] /\ fifo_writes l = []).
  { induction l as [|e l IHl]; [split; reflexivity|].
    unfold only_on. cbn [forallb]. intros Hl.
    apply andb_true_iff in Hl. destruct Hl as [He Hl].
    destruct (IHl Hl) as [R1 R2].
    destruct e as [r v|r v]; destruct r; try discriminate;
      cbn [fifo_reads fifo_writes]; split; assumption. }
  apply Hf. assumption.
Qed.




Lemma task_in_len_8 (s : Z) :
  Z.land s (Z.shiftl 3 EPSIZE0) = 0 -> task_in_len s = 1.
Proof. intros E. unfold task_in_len. rewrite E. reflexivity. Qed.

(** X27: An IN endpoint with a free bank of the 8-byte class (the EPSIZE bits
    of UECFG1X read as 0, the one case in which the shift that computes [len]
    is defined): usb_u2_task asks the callback for at most one byte, with
    [first] set, puts it into the FIFO, and hands the bank over (TXINI and
    FIFOCON cleared); when the controller does not allow a write (RWAL), no
    byte is asked for and the bank is handed over empty. A packet of an 8-byte
    endpoint thus carries one byte at most. *)
Theorem in_endpoint_one_byte (i : Z) (m : machine) :
  let c := sample (trace m ++ [Wr UENUM i]) UECFG0X in
  let v := sample (trace m ++ [Wr UENUM i; Rd UECFG0X c]) UEINTX in
  let s := sample (trace m ++ [Wr UENUM i; Rd UECFG0X c; Rd UEINTX v])
                  UECFG1X in
  let pre := [Wr UENUM i; Rd UECFG0X c; Rd UEINTX v; Rd UECFG1X s] in
  let r := sample (trace m ++ pre) UEINTX in
  let val := u8 (fst (usb_u2_endpoint_in_cb i true m)) in
  let mask := Z.lnot (Z.lor (bit TXINI) (bit FIFOCON)) in
  0 <= i < 256 ->
  in_cb_blind usb_u2_endpoint_in_cb ->
  Z.testbit c EPDIR = true -> Z.testbit v TXINI = true ->
  Z.land s (Z.shiftl 3 EPSIZE0) = 0 ->
  exists w,
    serve_endpoint usb_u2_endpoint_in_cb usb_u2_endpoint_out_cb i m
    = if Z.testbit r RWAL
      then extend (pre ++ [Rd UEINTX r; Wr UEDATX val; Rd UEINTX w;
                           Wr UEINTX (u8 (Z.land w mask))])
                  (snd (usb_u2_endpoint_in_cb i true m))
      else extend (pre ++ [Rd UEINTX r; Rd UEINTX w;
                           Wr UEINTX (u8 (Z.land w mask))]) m.
Proof.
  intros c v s pre r val mask Hi Hb Hc Hv Hs. unfold serve_endpoint. cbv zeta.
  rewrite write_eq, (u8_small i) by assumption.
  rewrite flag_clear_eq, flag_test by (unfold EPDIR; lia).
  cbn [trace extend]. fold c. rewrite Hc. cbn [negb].
  rewrite extend_extend, flag_clear_eq, flag_test by (unfold TXINI; lia).
  cbn [trace extend app]. fold v. rewrite Hv. cbn [negb].
  rewrite extend_extend. unfold read. rewrite log_extend, extend_extend.
  cbn [trace extend app]. fold s. rewrite (task_in_len_8 s Hs).
  fold pre. change 256%nat with (S (S 254)). cbn [task_in_loop].
  change (0 <? 1) with true. cbv iota.
  rewrite flag_clear_eq, flag_test by (unfold RWAL; lia).
  cbn [trace extend]. fold r. rewrite extend_extend.
  destruct (Z.testbit r RWAL); cbn [negb].
  - rewrite Hb. cbn [Z.eqb]. rewrite write_eq, extend_extend.
    change (u8 (0 + 1) <? 1) with false. cbv iota.
    rewrite and_not_eq, extend_extend. fold val. fold mask.
    eexists. rewrite <- ?app_assoc. reflexivity.
  - rewrite and_not_eq, extend_extend. fold mask.
    eexists. rewrite <- ?app_assoc. reflexivity.
Qed.

Lemma task_in_loop_epmax (i : Z) (n : nat) :
  callbacks_keep_epmax usb_u2_endpoint_in_cb usb_u2_endpoint_out_cb ->
  forall j len m,
    epmax (task_in_loop usb_u2_endpoint_in_cb n i j len m) = epmax m.
Proof.
  intros [Hin _]. induction n as [|n IH]; intros j len m; cbn [task_in_loop];
    [reflexivity|].
  case_if; [|reflexivity]. rewrite flag_clear_eq. case_if; [reflexivity|].
  pose proof (Hin i (j =? 0) (extend [Rd UEINTX (sample (trace m) UEINTX)] m))
    as Hk.
  destruct (usb_u2_endpoint_in_cb i (j =? 0)
              (extend [Rd UEINTX (sample (trace m) UEINTX)] m)) as [val m2].
  rewrite IH. cbn [snd epmax extend write log] in *. assumption.
Qed.

Lemma task_out_loop_epmax (i : Z) (n : nat) :
  callbacks_keep_epmax usb_u2_endpoint_in_cb usb_u2_endpoint_out_cb ->
  forall j len m,
    epmax (task_out_loop usb_u2_endpoint_out_cb n i j len m) = epmax m.
Proof.
  intros [_ Hout]. induction n as [|n IH]; intros j len m;
    cbn [task_out_loop]; [reflexivity|].
  case_if; [|reflexivity]. rewrite flag_clear_eq. case_if; [reflexivity|].
  unfold read. rewrite IH, Hout. reflexivity.
Qed.

Lemma serve_endpoint_epmax (i : Z) (m : machine) :
  callbacks_keep_epmax usb_u2_endpoint_in_cb usb_u2_endpoint_out_cb ->
  epmax (serve_endpoint usb_u2_endpoint_in_cb usb_u2_endpoint_out_cb i m)
  = epmax m.
Proof.
  intros Hk. unfold serve_endpoint. cbv zeta.
  rewrite write_eq, flag_clear_eq. case_if; rewrite flag_clear_eq;
    (case_if; [reflexivity|]); unfold read; rewrite and_not_eq;
    cbn [epmax extend]; [rewrite task_out_loop_epmax by assumption
                        |rewrite task_in_loop_epmax by assumption];
    reflexivity.
Qed.

Lemma task_endpoints_fold (k : nat) :
  callbacks_keep_epmax usb_u2_endpoint_in_cb usb_u2_endpoint_out_cb ->
  forall (n : nat) (i : Z) (m : machine),
    0 <= i -> epmax m < 255 -> i + Z.of_nat k = epmax m + 1 -> (k < n)%nat ->
    task_endpoints usb_u2_endpoint_in_cb usb_u2_endpoint_out_cb n i m
    = Done (fold_left
              (fun m i =>
                 serve_endpoint usb_u2_endpoint_in_cb usb_u2_endpoint_out_cb
                                i m)
              (map Z.of_nat (seq (Z.to_nat i) k)) m).
Proof.
  intros Hk. induction k as [|k IH]; intros n i m Hi Hm Hik Hn;
    (destruct n as [|n]; [lia|]); cbn [task_endpoints].
  - destruct (Z.leb_spec i (epmax m)); [lia|]. reflexivity.
  - destruct (Z.leb_spec i (epmax m)); [|lia].
    rewrite (u8_small (i + 1)) by lia.
    rewrite IH; rewrite ?serve_endpoint_epmax by assumption; try lia.
    cbn [seq map fold_left]. rewrite Z2Nat.id by lia.
    replace (Z.to_nat (i + 1)) with (S (Z.to_nat i)) by lia. reflexivity.
Qed.

(** X28: The endpoints in usb_u2_task: after the control endpoint (handle_ctrl
    when a setup packet is pending), each configured endpoint 1, 2, ...,
    [epmax] is served exactly once, in ascending order, and endpoint 0 is
    selected at the end; the function returns given a budget above [epmax].
    The callbacks configure no endpoint. *)
Theorem task_serves_endpoints_in_order (fuel : nat) (m m1 : machine) :
  let v := sample (trace m ++ [Wr UENUM 0]) UEINTX in
  let m0 := extend [Wr UENUM 0; Rd UEINTX v] m in
  callbacks_keep_epmax usb_u2_endpoint_in_cb usb_u2_endpoint_out_cb ->
  (if Z.testbit v RXSTPI then handle_ctrl fuel m0 else Done m0) = Done m1 ->
  0 <= epmax m1 < 255 -> (Z.to_nat (epmax m1) < fuel)%nat ->
  usb_u2_task usb_u2_endpoint_in_cb usb_u2_endpoint_out_cb fuel m
  = Done (write UENUM 0
            (fold_left
               (fun m i =>
                  serve_endpoint usb_u2_endpoint_in_cb usb_u2_endpoint_out_cb
                                 i m)
               (map Z.of_nat (seq 1 (Z.to_nat (epmax m1)))) m1)).
Proof.
  intros v m0 Hk Hc Hm Hfu. unfold usb_u2_task. cbv zeta.
  rewrite write_eq, u8_0, flag_clear_eq, flag_test by (unfold RXSTPI; lia).
  rewrite extend_extend. cbn [trace extend app]. fold v. fold m0.
  replace (if negb (Z.testbit v RXSTPI) then Done m0 else handle_ctrl fuel m0)
    with (Done m1)
    by (rewrite <- Hc; destruct (Z.testbit v RXSTPI); reflexivity).
  cbn [bind].
  rewrite (task_endpoints_fold (Z.to_nat (epmax m1)) Hk fuel 1 m1)
    by lia.
  reflexivity.
Qed.

End PollLoop.

End Firmware.

(** ** The serial numbers of two devices *)

Lemma hex_nth_inj (j k : nat) :
  (j < 16)%nat -> (k < 16)%nat ->
  nth j lowercase_hex 0 = nth k lowercase_hex 0 -> j = k.
Proof.
  intros Hj Hk.
  do 16 (destruct j as [|j];
         [do 16 (destruct k as [|k];
                 [first [reflexivity | discriminate]|]); lia|]).
  lia.
Qed.

Lemma byte_digits_inj (a b : Z) :
  0 <= a < 256 -> 0 <= b < 256 ->
  nth (Z.to_nat (a / 16)) lowercase_hex 0
  = nth (Z.to_nat (b / 16)) lowercase_hex 0 ->
  nth (Z.to_nat (a mod 16)) lowercase_hex 0
  = nth (Z.to_nat (b mod 16)) lowercase_hex 0 ->
  a = b.
Proof.
  intros Ha Hb Hhi Hlo.
  pose proof (Z.div_mod a 16 ltac:(lia)) as Da.
  pose proof (Z.div_mod b 16 ltac:(lia)) as Db.
  pose proof (Z.mod_pos_bound a 16 ltac:(lia)) as Ma.
  pose proof (Z.mod_pos_bound b 16 ltac:(lia)) as Mb.
  assert (Qa : 0 <= a / 16 < 16)
    by (split; [apply Z.div_pos; lia|apply Z.div_lt_upper_bound; lia]).
  assert (Qb : 0 <= b / 16 < 16)
    by (split; [apply Z.div_pos; lia|apply Z.div_lt_upper_bound; lia]).
  apply hex_nth_inj in Hhi; [|lia|lia].
  apply hex_nth_inj in Hlo; [|lia|lia].
  lia.
Qed.

Lemma spec_serial_chars_inj (l1 : list Z) :
  forall l2,
    Forall (fun x => 0 <= x < 256) l1 -> Forall (fun x => 0 <= x < 256) l2 ->
    spec_serial_chars l1 = spec_serial_chars l2 -> l1 = l2.
Proof.
  unfold spec_serial_chars.
  induction l1 as [|a l1 IH]; intros [|b l2] H1 H2 E;
    cbn [flat_map app] in E; try discriminate; [reflexivity|].
  inversion H1; subst. inversion H2; subst.
  injection E as Ehi Elo Et.
  f_equal; [apply byte_digits_inj; assumption|apply IH; assumption].
Qed.

Lemma wide_chars_inj (l1 : list Z) :
  forall l2,
    flat_map (fun c => [c; 0]) l1 = flat_map (fun c => [c; 0]) l2 -> l1 = l2.
Proof.
  induction l1 as [|a l1 IH]; intros [|b l2] E; cbn [flat_map app] in E;
    try discriminate; [reflexivity|].
  injection E as Ea Et. f_equal; [assumption|apply IH; assumption].
Qed.

(** X29: The serial number tells devices apart as far as their identifiers do:
    when usb_u2_init leaves the same serial descriptor in RAM for two
    signature rows, the ten identifier bytes at 0x0e..0x17 of the rows are the
    same. The hexadecimal digits lose nothing of the identifier. *)
Theorem serial_identifies_device (hw1 hw2 : list event -> reg -> Z)
  (row1 row2 : Z -> Z) (F_CPU : Z) (L : layout) (fuel1 fuel2 : nat)
  (m : machine) :
  state m = USB_U2_STATE_DEFAULT ->
  bytes_from (ram (final (usb_u2_init hw1 row1 F_CPU L fuel1 m)))
             (internal_serial L) 42
  = bytes_from (ram (final (usb_u2_init hw2 row2 F_CPU L fuel2 m)))
               (internal_serial L) 42 ->
  identifier row1 = identifier row2.
Proof.
  intros Hs E.
  rewrite (init_ram hw1 row1 F_CPU L fuel1 m Hs) in E.
  rewrite (init_ram hw2 row2 F_CPU L fuel2 m Hs) in E.
  pose proof (serial_loop_payload row1 row1 L row1 (fun _ => row1)
                (fun _ m => Done m) m 10 0 ltac:(lia) ltac:(simpl; lia)) as P1.
  pose proof (serial_loop_payload row2 row2 L row2 (fun _ => row2)
                (fun _ m => Done m) m 10 0 ltac:(lia) ltac:(simpl; lia)) as P2.
  change (2 + 4 * 0) with 2 in P1, P2.
  revert E P1 P2.
  generalize (load_serial row1 L m), (load_serial row2 L m).
  intros ms1 ms2 E P1 P2.
  change 42%nat with (2 + 4 * 10)%nat in E. rewrite !bytes_from_app in E.
  change (Z.of_nat 2) with 2 in E.
  apply (f_equal (skipn 2)) in E.
  rewrite !skipn_app in E. cbn [bytes_from length skipn Nat.sub app] in E.
  rewrite P1, P2 in E.
  apply wide_chars_inj in E.
  apply spec_serial_chars_inj in E; [exact E| |]; apply bytes_from_range.
Qed.

(** ** The properties at concrete inputs *)

(** *** SET_CONFIGURATION with a value above 1 *)

(** C1 (the code departs from the claim): from the machine at boot, a bus
    reset and SET_ADDRESS(5) lead to state Address with [config = 0]; the
    request SET_CONFIGURATION(2) is then stalled (STALLRQ is set, the state
    stays Address), but [config] is 2 afterwards: the value is stored before
    it is checked, and it is what usb_u2_config_descriptor_cb receives at the
    next GET_DESCRIPTOR(CONFIGURATION). *)
Theorem C1_rejected_configuration_is_stored :
  let hc := handle_ctrl hw_enumeration flash0 usb20_h layout0 0x200 cfg0 str0
                        None eps0 2 in
  let m1 := USB_GEN_vect hw_enumeration flash0 usb20_h 0x200
                         (boot usb20_h layout0) in
  let m2 := final (hc m1) in
  let m3 := final (hc m2) in
  (state m1, config m1) = (USB_U2_STATE_DEFAULT, 0) /\
  (state m2, config m2) = (USB_U2_STATE_ADDRESS, 0) /\
  skipn (length (trace m2)) (trace m3)
  = [Wr UENUM 0; Rd UEDATX 0; Rd UEDATX 9; Rd UEDATX 2; Rd UEDATX 0;
     Rd UEDATX 0; Rd UEDATX 0; Rd UEDATX 0; Rd UEDATX 0; Wr UENUM 0;
     Rd UEINTX 9; Rd UECONX 1; Wr UECONX 33; Rd UEINTX 9; Wr UEINTX 1] /\
  (state m3, config m3) = (USB_U2_STATE_ADDRESS, 2) /\
  resolve_descriptor usb20_h layout0 0x200 cfg0 str0
    (set_req (mkReq 0x80 6 0x0200 0 9) m3)
  = (cfg0 2, 2, true).
Proof. vm_compute. repeat split. Qed.

(** *** Witnesses *)

Lemma hw_polite_stable (need : nat) : txini_stable (hw_polite need).
Proof.
  intros h evs _ _. unfold sample, hw_polite.
  destruct (_ <=? _)%nat; reflexivity.
Qed.

Lemma hw_polite_ready (need : nat) (h : list event) :
  eventually (hw_polite need) TXINI h.
Proof.
  exists O. intros polls _ _. unfold sample, hw_polite.
  destruct (_ <=? _)%nat; reflexivity.
Qed.

Lemma hw_polite_waits (need : nat) : host_waits_for (hw_polite need) need [].
Proof.
  intros evs. cbn [app]. unfold sample, hw_polite.
  destruct (Nat.leb_spec need (length (in_packets evs))); [auto|].
  intros Hb; vm_compute in Hb; discriminate.
Qed.

Lemma hw_polite_acknowledges (need : nat) :
  host_acknowledges (hw_polite need) need [].
Proof.
  intros evs Hn. exists O. intros polls Hp _. cbn [app].
  unfold sample, hw_polite. rewrite in_packets_polls by assumption.
  destruct (Nat.leb_spec need (length (in_packets evs))); [reflexivity|lia].
Qed.

Lemma hw_asking_stable (packet : list Z) (need : nat) :
  txini_stable (hw_asking packet need).
Proof.
  intros h evs _ _. unfold sample, hw_asking, hw_polite.
  destruct (_ <=? _)%nat; reflexivity.
Qed.

Lemma hw_asking_ready (packet : list Z) (need : nat) (h : list event) :
  eventually (hw_asking packet need) TXINI h.
Proof.
  exists O. intros polls _ _. unfold sample, hw_asking, hw_polite.
  destruct (_ <=? _)%nat; reflexivity.
Qed.

Lemma in_packets_since (t0 evs : list event) :
  in_run (false, [], []) t0 = (false, [], []) ->
  in_packets (t0 ++ evs) = in_packets evs.
Proof. intros E. unfold in_packets. rewrite in_run_app, E. reflexivity. Qed.

Lemma hw_asking_waits (packet : list Z) (need : nat) (t0 : list event) :
  in_run (false, [], []) t0 = (false, [], []) ->
  host_waits_for (hw_asking packet need) need t0.
Proof.
  intros E evs. unfold sample, hw_asking, hw_polite.
  rewrite (in_packets_since t0 evs E).
  destruct (Nat.leb_spec need (length (in_packets evs))); [auto|].
  intros Hb; vm_compute in Hb; discriminate.
Qed.

Lemma hw_asking_acknowledges (packet : list Z) (need : nat)
  (t0 : list event) :
  in_run (false, [], []) t0 = (false, [], []) ->
  host_acknowledges (hw_asking packet need) need t0.
Proof.
  intros E evs Hn. exists O. intros polls Hp _.
  unfold sample, hw_asking, hw_polite.
  rewrite in_packets_polls, (in_packets_since t0 evs E) by assumption.
  destruct (Nat.leb_spec need (length (in_packets evs))); [reflexivity|lia].
Qed.

Lemma C2_witness :
  exists f0 evs,
    in_packets evs
    = [[18; 1; 0; 2; 0; 0; 0; 8]; [0xc0; 0x16; 0xdc; 0x05; 0; 1; 1; 2]; []] /\
    forall fuel, (f0 <= fuel)%nat ->
      usb_u2_control_in (hw_polite 3) flash0 fuel 0x200 16 true pending
      = Done (extend evs pending).
Proof.
  exact (C2_zero_length_packet (hw_polite 3) flash0 pending 3
           (hw_polite_stable 3) (hw_polite_ready 3) (hw_polite_waits 3)
           (conj eq_refl eq_refl) (hw_polite_acknowledges 3)
           0x200 true 2 eq_refl eq_refl eq_refl).
Defined.

Lemma C3_witness :
  (exists evs (j : nat),
     final (usb_u2_control_in (hw_polite 3) flash0 5 0x200 100 true pending)
     = extend evs pending /\
     fifo_writes evs = bytes_from (source flash0 true pending) 0x200 j /\
     Z.of_nat (length (fifo_writes evs)) <= 64 /\
     fifo_reads evs = []) /\
  (exists evs,
     trace (final (usb_u2_control_out (hw_polite 3) 5 0x200 100 pending))
     = trace pending ++ evs /\
     Z.of_nat (length (fifo_reads evs)) <= 64 /\
     fifo_writes evs = []).
Proof.
  apply (C3_transfer_bounded (hw_polite 3) flash0 5 0x200 100 true pending);
    vm_compute; discriminate.
Defined.

Lemma C4_witness :
  exists evs2,
    status_acknowledged evs2 /\ address_disabled evs2 /\
    state (final (handle_ctrl (hw_asking set_address_5 0) flash0 usb20_h
                    layout0 0x200 cfg0 str0 None eps0 1
                    (boot usb20_h layout0)))
    = USB_U2_STATE_ADDRESS.
Proof.
  destruct (C4_address_enabled_after_status (hw_asking set_address_5 0)
              flash0 usb20_h layout0 0x200 cfg0 str0 None eps0 1
              (boot usb20_h layout0))
    as (evs1 & evs2 & _ & _ & _ & D2 & Hm & _).
  - apply distinct_NoDup. reflexivity.
  - reflexivity.
  - reflexivity.
  - vm_compute. discriminate.
  - reflexivity.
  - reflexivity.
  - apply hw_asking_stable.
  - vm_compute. reflexivity.
  - exists evs2.
    destruct (usb_u2_control_out (hw_asking set_address_5 0) 1 NULL 0 _)
      as [m3|m3] eqn:E.
    + destruct Hm as (Hack & evs3 & _ & _ & Hs). auto.
    + vm_compute in E. discriminate.
Defined.

Lemma C5_witness :
  (state (USB_GEN_vect (hw_const 0xff) flash0 usb20_h 0x200 configured2)
   = USB_U2_STATE_DEFAULT /\
   config (USB_GEN_vect (hw_const 0xff) flash0 usb20_h 0x200 configured2)
   = 0 /\
   epmax (USB_GEN_vect (hw_const 0xff) flash0 usb20_h 0x200 configured2)
   = 0) /\
  USB_GEN_vect (hw_const 0xff) flash0 usb20_h NULL configured2
  = extend [Rd UDINT 0xff; Rd UDINT 0xff; Wr UDINT 0xf7] configured2.
Proof.
  split.
  - destruct (C5_reset_with_descriptor (hw_const 0xff) flash0 usb20_h 0x200
                configured2) as (Hd & _).
    + vm_compute. discriminate.
    + apply Hd. vm_compute. discriminate.
  - destruct (C5_reset_with_descriptor (hw_const 0xff) flash0 usb20_h NULL
                configured2) as (_ & Hn).
    + vm_compute. discriminate.
    + destruct (Hn eq_refl) as (E & _). exact E.
Defined.

Lemma C6_witness :
  usb_u2_configure_endpoint (hw_const 0xff) flash0 usb20_h 0x219
    (boot usb20_h layout0)
  = boot usb20_h layout0 /\
  epmax (usb_u2_configure_endpoint (hw_const 0xff) flash0 usb20_h 0x212
           (boot usb20_h layout0))
  = 1.
Proof.
  split.
  - refine (proj1 (C6_configure_endpoint_in_order (hw_const 0xff) flash0
                     usb20_h 0x219 (boot usb20_h layout0)) _).
    vm_compute. discriminate.
  - refine (proj1 (proj2 (C6_configure_endpoint_in_order (hw_const 0xff)
                            flash0 usb20_h 0x212 (boot usb20_h layout0)))
                  _ _).
    + vm_compute. discriminate.
    + reflexivity.
Defined.

Lemma hw_const_pll_locks (h : list event) : pll_locks (hw_const 0xff) h.
Proof. exists O. intros polls _ _. reflexivity. Qed.

Lemma C7_witness :
  usb_u2_init (hw_const 0xff) signature0 16000000 layout0 7 addressed
  = Done addressed /\
  exists f0 : nat, forall k, (f0 <= k)%nat ->
    exists m', usb_u2_init (hw_const 0xff) signature0 16000000 layout0 k
                 (boot usb20_h layout0) = Done m'.
Proof.
  split.
  - apply (proj1 (C7_init_noop_when_not_default (hw_const 0xff) signature0
                    16000000 layout0 7 addressed)).
    discriminate.
  - destruct (C7_init_noop_when_not_default (hw_const 0xff) signature0
                16000000 layout0 7 (boot usb20_h layout0))
      as (_ & _ & _ & Ht).
    apply Ht; [reflexivity|apply hw_const_pll_locks].
Defined.

Lemma C9_witness :
  usb_u2_control_in (hw_const 0) flash0 3 0x200 18 true pending
  = Done (extend [Rd UEINTX 0] pending) /\
  usb_u2_control_out (hw_const 0) 3 0x200 18 pending
  = Done (extend [Rd UEINTX 0] pending).
Proof.
  apply (C9_no_pending_setup (hw_const 0) flash0 3 0x200 18 true pending).
  reflexivity.
Defined.

Lemma C8_witness :
  let hw := hw_asking get_serial 6 in
  let m := USB_GEN_vect hw flash0 usb20_h 0x200
             (final (usb_u2_init hw signature0 16000000 layout0 1
                       (boot usb20_h layout0))) in
  let m1 := read_request hw (write UENUM 0 m) in
  exists f0 evs,
    concat (in_packets evs)
    = [42; 3; 49; 0; 49; 0; 50; 0; 50; 0; 51; 0; 51; 0; 52; 0; 52; 0; 53; 0;
       53; 0; 54; 0; 54; 0; 55; 0; 55; 0; 56; 0; 56; 0; 57; 0; 57; 0; 97; 0;
       97; 0] /\
    forall fuel, (f0 <= fuel)%nat ->
      handle_ctrl hw flash0 usb20_h layout0 0x200 cfg0 str0 None eps0 fuel m
      = stall hw (extend evs m1).
Proof.
  intros hw m m1.
  assert (Ht : in_run (false, [], []) (trace m1) = (false, [], []))
    by (vm_compute; reflexivity).
  assert (Hsize : 0 < ep0size m1 < 256) by (vm_compute; split; reflexivity).
  assert (Hsetup : Z.testbit (sample hw (trace m1) UEINTX) RXSTPI = true)
    by (vm_compute; reflexivity).
  destruct (C8_internal_serial_descriptor hw flash0 signature0 16000000
              usb20_h layout0 0x200 cfg0 str0 None eps0 4 1
              (boot usb20_h layout0) m)
    as (_ & _ & _ & _ & _ & _ & Hreq).
  destruct Hreq as (_ & _ & Htot).
  - apply distinct_NoDup. vm_compute. reflexivity.
  - apply distinct_NoDup. vm_compute. reflexivity.
  - vm_compute. reflexivity.
  - vm_compute. reflexivity.
  - vm_compute. discriminate.
  - vm_compute. discriminate.
  - vm_compute. reflexivity.
  - reflexivity.
  - vm_compute. reflexivity.
  - vm_compute. discriminate.
  - vm_compute. discriminate.
  - vm_compute. reflexivity.
  - destruct (Htot 6%nat (hw_asking_stable _ _) (hw_asking_ready _ _)
                (hw_asking_waits _ _ _ Ht)
                (hw_asking_acknowledges _ _ _ Ht) Hsize Hsetup)
      as (f0 & evs & Hc & Hr); [vm_compute; reflexivity|].
    exists f0, evs. split; [|exact Hr].
    rewrite Hc. vm_compute. reflexivity.
Defined.

Lemma setup_packet_read_whole_witness :
  exists rest,
    trace (final (handle_ctrl (hw_setup set_idle) flash0 usb20_h layout0
                    0x200 cfg0 str0 None eps0 1 (boot usb20_h layout0)))
    = Wr UENUM 0 :: map (Rd UEDATX) set_idle ++ rest.
Proof.
  destruct (setup_packet_read_whole (hw_setup set_idle) flash0 usb20_h
              layout0 0x200 cfg0 str0 None eps0 1 (boot usb20_h layout0))
    as ((rest & T) & _).
  - split.
    + intros c m. apply follows_refl.
    + intros cb rq m Hcb. discriminate.
  - exists rest. exact T.
Defined.

Lemma foreign_request_stalled_witness :
  let hw := hw_setup set_idle in
  let m := boot usb20_h layout0 in
  let m1 := read_request hw (write UENUM 0 m) in
  handle_ctrl hw flash0 usb20_h layout0 0x200 cfg0 str0 None eps0 1 m
  = Done (extend (stall_events hw (trace m1)) m1).
Proof.
  intros hw m m1.
  refine (proj1 (foreign_request_stalled hw flash0 usb20_h layout0 0x200 cfg0
                   str0 None eps0 1 m _ _)).
  - vm_compute. discriminate.
  - reflexivity.
Defined.

Lemma unsupported_standard_request_stalled_witness :
  let hw := hw_setup get_configuration in
  let m := configured2 in
  let m1 := read_request hw (write UENUM 0 m) in
  handle_ctrl hw flash0 usb20_h layout0 0x200 cfg0 str0 None eps0 1 m
  = Done (extend (stall_events hw (trace m1)) m1).
Proof.
  intros hw m m1.
  refine (proj1 (unsupported_standard_request_stalled hw flash0 usb20_h
                   layout0 0x200 cfg0 str0 None eps0 1 m _ _ _ _ _)).
  - vm_compute. reflexivity.
  - vm_compute. discriminate.
  - vm_compute. discriminate.
  - vm_compute. discriminate.
  - vm_compute. discriminate.
Defined.

Lemma set_address_refused_witness :
  let hw := hw_setup set_address_5 in
  let m1 := read_request hw (write UENUM 0 addressed) in
  handle_ctrl hw flash0 usb20_h layout0 0x200 cfg0 str0 None eps0 1 addressed
  = Done (extend (stall_events hw (trace m1)) m1).
Proof.
  intros hw m1.
  refine (proj1 (set_address_refused hw flash0 usb20_h layout0 0x200 cfg0
                   str0 None eps0 1 addressed _ _ _ _)).
  - apply distinct_NoDup. vm_compute. reflexivity.
  - vm_compute. reflexivity.
  - vm_compute. reflexivity.
  - right. right. vm_compute. discriminate.
Defined.

Lemma set_configuration_refused_witness :
  let hw := hw_setup set_configuration_1 in
  let m1 := read_request hw (write UENUM 0 configured2) in
  handle_ctrl hw flash0 usb20_h layout0 0x200 cfg0 str0 None eps0 1
              configured2
  = Done (extend (stall_events hw (trace m1)) m1).
Proof.
  intros hw m1.
  refine (proj1 (set_configuration_refused hw flash0 usb20_h layout0 0x200
                   cfg0 str0 None eps0 1 configured2 _ _ _ _)).
  - apply distinct_NoDup. vm_compute. reflexivity.
  - vm_compute. reflexivity.
  - vm_compute. reflexivity.
  - right. right. vm_compute. discriminate.
Defined.

Lemma reset_allocates_endpoint0_witness :
  let m' := USB_GEN_vect (hw_const 0xff) flash0 usb20_h 0x200 configured2 in
  ep0size m' = 8 /\ length (trace m') = 8%nat.
Proof.
  intros m'.
  destruct (reset_allocates_endpoint0 (hw_const 0xff) flash0 usb20_h 0x200
              configured2) as (v' & c & E & _).
  - reflexivity.
  - vm_compute. discriminate.
  - unfold m'. rewrite E. split; reflexivity.
Defined.

Lemma configure_endpoint_registers_witness :
  let m' := usb_u2_configure_endpoint (hw_const 0) flash0 usb20_h 0x212
              pending in
  epmax m' = 1 /\ length (trace m') = 8%nat.
Proof.
  intros m'.
  destruct (configure_endpoint_registers (hw_const 0) flash0 usb20_h 0x212
              pending) as (c & E).
  - vm_compute. discriminate.
  - reflexivity.
  - unfold m'. rewrite E. split; reflexivity.
Defined.

Lemma epmax_stays_below_16_witness :
  0 <= epmax (usb_u2_configure_endpoint (hw_const 0) flash0 usb20_h 0x219
                configured2) <= 15.
Proof.
  refine (proj1 (proj2 (epmax_stays_below_16 (hw_const 0) flash0 usb20_h
                          0x200 0x219 configured2 _))).
  vm_compute. split; discriminate.
Defined.

Lemma endpoints_configured_in_order_witness :
  epmax (fold_left
           (fun m ep => usb_u2_configure_endpoint (hw_const 0) flash0 usb20_h
                          ep m)
           [0x212; 0x219] pending)
  = 2.
Proof.
  refine (endpoints_configured_in_order (hw_const 0) flash0 usb20_h
            [0x212; 0x219] pending _ _ _).
  - vm_compute. discriminate.
  - vm_compute. discriminate.
  - intros k Hk.
    destruct k as [|[|k]];
      [split; [vm_compute; discriminate|reflexivity]
      |split; [vm_compute; discriminate|reflexivity]
      |exfalso; simpl in Hk; lia].
Defined.

Lemma init_attaches_after_pll_lock_witness :
  exists f0 : nat, forall fuel, (f0 <= fuel)%nat ->
    exists m', usb_u2_init (hw_const 0xff) signature0 16000000 layout0 fuel
                 (boot usb20_h layout0) = Done m'.
Proof.
  destruct (init_attaches_after_pll_lock (hw_const 0xff) signature0 16000000
              layout0 (boot usb20_h layout0) eq_refl (or_intror eq_refl)
              hw_const_pll_locks)
    as (f0 & p & polls & v & d & _ & _ & Hr).
  exists f0. intros fuel Hfu. eexists. apply (Hr fuel Hfu).
Defined.

Lemma serial_identifies_device_witness :
  identifier signature0 = identifier signature1.
Proof.
  apply (serial_identifies_device (hw_const 0xff) (hw_const 0xff) signature0
           signature1 16000000 layout0 1 1 (boot usb20_h layout0)).
  - reflexivity.
  - vm_compute. reflexivity.
Defined.

Lemma control_in_delivers_witness :
  exists f0 evs data,
    in_packets evs = data ++ [] /\
    concat data
    = bytes_from (source flash0 true pending) 0x200 18 /\
    forall fuel, (f0 <= fuel)%nat ->
      usb_u2_control_in (hw_polite 3) flash0 fuel 0x200 18 true pending
      = Done (extend evs pending).
Proof.
  destruct (control_in_delivers (hw_polite 3) flash0 pending 3
              (hw_polite_stable 3) (hw_polite_ready 3) (hw_polite_waits 3)
              (conj eq_refl eq_refl) (hw_polite_acknowledges 3)
              0x200 18 true)
    as (f0 & evs & data & Hp & Hc & _ & _ & Hr).
  - vm_compute. discriminate.
  - vm_compute. discriminate.
  - reflexivity.
  - reflexivity.
  - exists f0, evs, data. split; [exact Hp|]. split; [exact Hc|exact Hr].
Defined.

Lemma control_out_status_handshake_witness :
  exists f0 evs,
    in_packets evs = [[]] /\
    forall fuel, (f0 <= fuel)%nat ->
      usb_u2_control_out (hw_polite 0) fuel NULL 0 pending
      = Done (extend evs pending).
Proof.
  destruct (control_out_status_handshake (hw_polite 0) pending
              (hw_polite_stable 0) (hw_polite_ready 0) NULL 0)
    as (f0 & evs & Hp & _ & _ & _ & Hr).
  - vm_compute. discriminate.
  - reflexivity.
  - exists f0, evs. split; assumption.
Defined.

Lemma control_in_given_up_witness :
  exists evs,
    usb_u2_control_in (hw_const 0xff) flash0 1 0x200 18 true pending
    = Done (extend evs pending) /\
    fifo_writes evs = [].
Proof.
  destruct (control_in_given_up (hw_const 0xff) flash0 1 0x200 18 true pending)
    as (evs & E & _ & W & _).
  - intros h. reflexivity.
  - reflexivity.
  - lia.
  - exists evs. split; assumption.
Defined.

Lemma control_out_stays_in_buffer_witness :
  ram (final (usb_u2_control_out (hw_const 0x0f) 3 0x300 4 pending)) 0x304
  = ram pending 0x304.
Proof.
  destruct (control_out_stays_in_buffer (hw_const 0x0f) 3 0x300 4 pending)
    as (evs & _ & _ & _ & Hframe).
  - lia.
  - vm_compute. discriminate.
  - apply Hframe. right. vm_compute. discriminate.
Defined.

Lemma set_configuration_accepted_witness :
  let hw := hw_asking set_configuration_1 0 in
  let m1 := read_request hw (write UENUM 0 addressed) in
  exists f0 evs,
    in_packets evs = [[]] /\
    forall fuel, (f0 <= fuel)%nat ->
      handle_ctrl hw flash0 usb20_h layout0 0x200 cfg0 str0 None eps0 fuel
                  addressed
      = stall hw (set_state USB_U2_STATE_CONFIGURED
                    (extend evs (set_config 1 m1))).
Proof.
  intros hw m1.
  destruct (set_configuration_accepted hw flash0 usb20_h layout0 0x200 cfg0
              str0 None eps0 addressed) as (f0 & evs & Hp & _ & Hr).
  - apply distinct_NoDup. vm_compute. reflexivity.
  - vm_compute. reflexivity.
  - vm_compute. reflexivity.
  - vm_compute. discriminate.
  - vm_compute. reflexivity.
  - reflexivity.
  - vm_compute. discriminate.
  - apply hw_asking_stable.
  - apply hw_asking_ready.
  - vm_compute. reflexivity.
  - exists f0, evs. split; [exact Hp|]. intros fuel Hfu.
    rewrite (Hr fuel Hfu). reflexivity.
Defined.

Lemma get_status_device_sends_zero_witness :
  let hw := hw_asking get_status_device 1 in
  exists f0 evs,
    in_packets evs = [[0; 0]] /\
    forall fuel, (f0 <= fuel)%nat ->
      exists m', handle_ctrl hw flash0 usb20_h layout0 0x200 cfg0 str0 None
                   eps0 fuel pending = Done m'.
Proof.
  intros hw.
  assert (Ht : in_run (false, [], [])
                      (trace (read_request hw (write UENUM 0 pending)))
               = (false, [], [])) by (vm_compute; reflexivity).
  destruct (get_status_device_sends_zero hw flash0 usb20_h layout0 0x200 cfg0
              str0 None eps0 pending) as (f0 & evs & Hp & Hr).
  - vm_compute. reflexivity.
  - vm_compute. reflexivity.
  - vm_compute. discriminate.
  - vm_compute. discriminate.
  - vm_compute. split; reflexivity.
  - vm_compute. discriminate.
  - apply hw_asking_stable.
  - apply hw_asking_ready.
  - apply hw_asking_waits. exact Ht.
  - apply hw_asking_acknowledges. exact Ht.
  - vm_compute. reflexivity.
  - exists f0, evs. split; [exact Hp|]. intros fuel Hfu.
    rewrite (Hr fuel Hfu).
    match goal with |- context [stall hw ?x] =>
      destruct (stall_spec hw x) as (e & E & _) end.
    rewrite E. eexists. reflexivity.
Defined.

Lemma get_status_endpoint_reports_halt_witness :
  let hw := hw_asking get_status_endpoint_1 1 in
  exists f0 evs,
    in_packets evs = [[1; 0]] /\
    forall fuel, (f0 <= fuel)%nat ->
      exists m', handle_ctrl hw flash0 usb20_h layout0 0x200 cfg0 str0 None
                   eps0 fuel pending = Done m'.
Proof.
  intros hw.
  set (m1 := read_request hw (write UENUM 0 pending)).
  assert (Ht : in_run (false, [], [])
                 (trace m1
                  ++ [Wr UENUM 1;
                      Rd UECONX (sample hw (trace m1 ++ [Wr UENUM 1]) UECONX);
                      Wr UENUM 0])
               = (false, [], [])) by (vm_compute; reflexivity).
  destruct (get_status_endpoint_reports_halt hw flash0 usb20_h layout0 0x200
              cfg0 str0 None eps0 pending) as (f0 & evs & Hp & Hr).
  - vm_compute. reflexivity.
  - vm_compute. reflexivity.
  - vm_compute. discriminate.
  - vm_compute. reflexivity.
  - vm_compute. discriminate.
  - vm_compute. reflexivity.
  - vm_compute. split; reflexivity.
  - vm_compute. discriminate.
  - apply hw_asking_stable.
  - apply hw_asking_ready.
  - apply hw_asking_waits. exact Ht.
  - apply hw_asking_acknowledges. exact Ht.
  - vm_compute. reflexivity.
  - exists f0, evs. split; [exact Hp|]. intros fuel Hfu.
    rewrite (Hr fuel Hfu).
    match goal with |- context [stall hw ?x] =>
      destruct (stall_spec hw x) as (e & E & _) end.
    rewrite E. eexists. reflexivity.
Defined.

Lemma get_status_refused_witness :
  let hw := hw_setup get_status_endpoint_9 in
  let m1 := read_request hw (write UENUM 0 pending) in
  handle_ctrl hw flash0 usb20_h layout0 0x200 cfg0 str0 None eps0 1 pending
  = Done (extend (stall_events hw (trace m1)) m1).
Proof.
  intros hw m1.
  refine (proj1 (get_status_refused hw flash0 usb20_h layout0 0x200 cfg0 str0
                   None eps0 1 pending _ _ _)).
  - vm_compute. reflexivity.
  - vm_compute. reflexivity.
  - right. split; [vm_compute; reflexivity|].
    split; vm_compute; discriminate.
Defined.

Lemma get_descriptor_device_witness :
  let hw := hw_asking get_device_descriptor 3 in
  exists f0 evs,
    concat (in_packets evs)
    = [18; 1; 0x00; 0x02; 0; 0; 0; 8; 0xc0; 0x16; 0xdc; 0x05; 0; 1; 1; 2;
       3; 1] /\
    forall fuel, (f0 <= fuel)%nat ->
      exists m', handle_ctrl hw flash1 usb20_h layout0 0x200 cfg0 str0 None
                   eps0 fuel pending = Done m'.
Proof.
  intros hw.
  assert (Ht : in_run (false, [], [])
                      (trace (read_request hw (write UENUM 0 pending)))
               = (false, [], [])) by (vm_compute; reflexivity).
  destruct (get_descriptor_device hw flash1 usb20_h layout0 0x200 cfg0 str0
              None eps0 pending 3) as (f0 & evs & Hc & Hr).
  - apply distinct_NoDup. vm_compute. reflexivity.
  - vm_compute. reflexivity.
  - vm_compute. reflexivity.
  - vm_compute. discriminate.
  - vm_compute. discriminate.
  - vm_compute. reflexivity.
  - vm_compute. discriminate.
  - vm_compute. split; reflexivity.
  - apply hw_asking_stable.
  - apply hw_asking_ready.
  - apply hw_asking_waits. exact Ht.
  - apply hw_asking_acknowledges. exact Ht.
  - vm_compute. reflexivity.
  - vm_compute. reflexivity.
  - exists f0, evs. split; [rewrite Hc; vm_compute; reflexivity|].
    intros fuel Hfu. rewrite (Hr fuel Hfu).
    match goal with |- context [stall hw ?x] =>
      destruct (stall_spec hw x) as (e & E & _) end.
    rewrite E. eexists. reflexivity.
Defined.

Lemma get_descriptor_configuration_witness :
  let hw := hw_asking get_config_descriptor 4 in
  exists f0 evs,
    concat (in_packets evs)
    = [9; 2; 25; 0; 1; 1; 0; 0x80; 50; 9; 4; 0; 0; 1; 3; 0; 0; 0;
       7; 5; 0x81; 3; 8; 0; 10] /\
    forall fuel, (f0 <= fuel)%nat ->
      exists m', handle_ctrl hw flash1 usb20_h layout0 0x200 cfg0 str0 None
                   eps0 fuel pending = Done m'.
Proof.
  intros hw.
  assert (Ht : in_run (false, [], [])
                      (trace (read_request hw (write UENUM 0 pending)))
               = (false, [], [])) by (vm_compute; reflexivity).
  destruct (get_descriptor_configuration hw flash1 usb20_h layout0 0x200 cfg0
              str0 None eps0 pending 4) as (f0 & evs & Hc & _ & Hr).
  - apply distinct_NoDup. vm_compute. reflexivity.
  - apply distinct_NoDup. vm_compute. reflexivity.
  - vm_compute. reflexivity.
  - vm_compute. reflexivity.
  - vm_compute. discriminate.
  - vm_compute. discriminate.
  - vm_compute. reflexivity.
  - vm_compute. discriminate.
  - vm_compute. split; reflexivity.
  - apply hw_asking_stable.
  - apply hw_asking_ready.
  - apply hw_asking_waits. exact Ht.
  - apply hw_asking_acknowledges. exact Ht.
  - vm_compute. reflexivity.
  - vm_compute. reflexivity.
  - exists f0, evs. split; [rewrite Hc; vm_compute; reflexivity|].
    intros fuel Hfu. rewrite (Hr fuel Hfu).
    match goal with |- context [stall hw ?x] =>
      destruct (stall_spec hw x) as (e & E & _) end.
    rewrite E. eexists. reflexivity.
Defined.

Lemma get_descriptor_language_witness :
  let hw := hw_asking get_language 1 in
  exists f0 evs,
    concat (in_packets evs) = [4; 3; 0x09; 0x04] /\
    forall fuel, (f0 <= fuel)%nat ->
      exists m', handle_ctrl hw flash1 usb20_h layout0 0x200 cfg0 str0 None
                   eps0 fuel pending = Done m'.
Proof.
  intros hw.
  assert (Ht : in_run (false, [], [])
                      (trace (read_request hw (write UENUM 0 pending)))
               = (false, [], [])) by (vm_compute; reflexivity).
  destruct (get_descriptor_language hw flash1 usb20_h layout0 0x200 cfg0 str0
              None eps0 pending 1) as (f0 & evs & Hc & Hr).
  - apply distinct_NoDup. vm_compute. reflexivity.
  - apply distinct_NoDup. vm_compute. reflexivity.
  - vm_compute. reflexivity.
  - vm_compute. reflexivity.
  - vm_compute. discriminate.
  - vm_compute. discriminate.
  - vm_compute. reflexivity.
  - vm_compute. reflexivity.
  - reflexivity.
  - vm_compute. discriminate.
  - vm_compute. reflexivity.
  - vm_compute. split; reflexivity.
  - apply hw_asking_stable.
  - apply hw_asking_ready.
  - apply hw_asking_waits. exact Ht.
  - apply hw_asking_acknowledges. exact Ht.
  - vm_compute. reflexivity.
  - vm_compute. reflexivity.
  - exists f0, evs. split; [rewrite Hc; vm_compute; reflexivity|].
    intros fuel Hfu. rewrite (Hr fuel Hfu).
    match goal with |- context [stall hw ?x] =>
      destruct (stall_spec hw x) as (e & E & _) end.
    rewrite E. eexists. reflexivity.
Defined.

Lemma get_descriptor_refused_witness :
  let hw := hw_setup get_qualifier in
  let m1 := read_request hw (write UENUM 0 pending) in
  handle_ctrl hw flash0 usb20_h layout0 0x200 cfg0 str0 None eps0 1 pending
  = Done (extend (stall_events hw (trace m1)) m1).
Proof.
  intros hw m1.
  refine (proj1 (get_descriptor_refused hw flash0 usb20_h layout0 0x200 cfg0
                   str0 None eps0 1 pending _ _ _ _)).
  - apply distinct_NoDup. vm_compute. reflexivity.
  - vm_compute. reflexivity.
  - vm_compute. reflexivity.
  - right. right. vm_compute. repeat split; discriminate.
Defined.

Lemma task_idle_witness :
  exists evs,
    usb_u2_task (hw_const 0) flash0 usb20_h layout0 0x200 cfg0 str0 None eps0
                in_cb0 out_cb0 3 configured2
    = Done (extend (evs ++ [Wr UENUM 0]) configured2).
Proof.
  destruct (task_idle (hw_const 0) flash0 usb20_h layout0 0x200 cfg0 str0 None
              eps0 in_cb0 out_cb0 3 configured2) as (evs & E & _).
  - intros h. split; reflexivity.
  - intros h. reflexivity.
  - simpl. lia.
  - simpl. lia.
  - exists evs. exact E.
Defined.


Lemma in_cb0_blind : in_cb_blind in_cb0.
Proof. intros i first evs m. reflexivity. Qed.

Lemma cb0_keep_epmax : callbacks_keep_epmax in_cb0 out_cb0.
Proof. split; intros; reflexivity. Qed.


Lemma in_endpoint_one_byte_witness :
  length (fifo_writes
            (trace (serve_endpoint hw_in_bank in_cb0 out_cb0 1 configured2)))
  = 1%nat.
Proof.
  destruct (in_endpoint_one_byte hw_in_bank in_cb0 out_cb0 1 configured2)
    as (w & E).
  - lia.
  - exact in_cb0_blind.
  - reflexivity.
  - reflexivity.
  - reflexivity.
  - rewrite E. reflexivity.
Defined.

Lemma task_serves_endpoints_in_order_witness :
  let hw := hw_const 0 in
  let m0 := extend [Wr UENUM 0; Rd UEINTX 0] configured2 in
  usb_u2_task hw flash0 usb20_h layout0 0x200 cfg0 str0 None eps0 in_cb0
              out_cb0 3 configured2
  = Done (write UENUM 0
            (serve_endpoint hw in_cb0 out_cb0 2
               (serve_endpoint hw in_cb0 out_cb0 1 m0))).
Proof.
  intros hw m0.
  refine (task_serves_endpoints_in_order hw flash0 usb20_h layout0 0x200 cfg0
            str0 None eps0 in_cb0 out_cb0 3 configured2 m0
            cb0_keep_epmax _ _ _).
  - reflexivity.
  - simpl. lia.
  - simpl. lia.
Defined.

Lemma set_address_completes_witness :
  let hw := hw_asking set_address_5 0 in
  exists f0 : nat, forall fuel, (f0 <= fuel)%nat ->
    state (final (handle_ctrl hw flash0 usb20_h layout0 0x200 cfg0 str0 None
                    eps0 fuel pending))
    = USB_U2_STATE_ADDRESS.
Proof.
  intros hw.
  destruct (set_address_completes hw flash0 usb20_h layout0 0x200 cfg0 str0
              None eps0 pending) as (f0 & evs & d & _ & _ & _ & Hr).
  - apply distinct_NoDup. vm_compute. reflexivity.
  - vm_compute. reflexivity.
  - vm_compute. reflexivity.
  - vm_compute. discriminate.
  - vm_compute. reflexivity.
  - reflexivity.
  - apply hw_asking_stable.
  - apply hw_asking_ready.
  - vm_compute. reflexivity.
  - exists f0. intros fuel Hfu. rewrite (Hr fuel Hfu).
    match goal with |- context [stall hw ?x] =>
      destruct (stall_spec hw x) as (e & E & _) end.
    rewrite E. reflexivity.
Defined.

(** *** Counterexamples *)

(** C5 as stated fails: on a bus reset while the application has no device
    descriptor, a configured device stays configured, [config] stays 1 and
    [epmax] stays 2. *)
Lemma C5_counterexample :
  let m' := USB_GEN_vect (hw_const 0xff) flash0 usb20_h NULL configured2 in
  Z.land (sample (hw_const 0xff) (trace configured2) UDINT) (bit EORSTI) <> 0 /\
  state m' = USB_U2_STATE_CONFIGURED /\ config m' = 1 /\ epmax m' = 2 /\
  ~ (state m' = USB_U2_STATE_DEFAULT /\ config m' = 0 /\ epmax m' = 0).
Proof.
  vm_compute. repeat split; try discriminate.
  intros (Hs & _). discriminate.
Qed.

(** C7 as stated fails: a first call returns with the state still Default,
    and a second call right after it writes the registers again. *)
Lemma C7_counterexample :
  let init := usb_u2_init (hw_const 0xff) signature0 16000000 layout0 1 in
  let m1 := final (init (boot usb20_h layout0)) in
  state m1 = USB_U2_STATE_DEFAULT /\
  length (trace m1) = 12%nat /\
  length (trace (final (init m1))) = 24%nat /\
  init m1 <> Done m1.
Proof.
  intros init m1. repeat split; try reflexivity.
  intros E. apply (f_equal (fun o => length (trace (final o)))) in E.
  vm_compute in E. discriminate.
Qed.

(** C8 as stated fails: the payload is twenty characters, "112233445566778899aa"
    for the signature row [signature0], in forty bytes; no list of forty
    characters makes up the descriptor; and the bytes at 0x18 and 0x19 of the
    signature row, the eleventh and twelfth from 0x0e, do not enter it. *)
Lemma C8_counterexample :
  let init sig := usb_u2_init (hw_const 0xff) sig 16000000 layout0 1
                    (boot usb20_h layout0) in
  let d sig := bytes_from (ram (final (init sig))) 0x100 42 in
  d signature0
  = [42; 3; 49; 0; 49; 0; 50; 0; 50; 0; 51; 0; 51; 0; 52; 0; 52; 0; 53; 0;
     53; 0; 54; 0; 54; 0; 55; 0; 55; 0; 56; 0; 56; 0; 57; 0; 57; 0; 97; 0;
     97; 0] /\
  ~ (exists chars, length chars = 40%nat /\
                   d signature0 = spec_string_descriptor usb20_h chars) /\
  signature0 0x18 <> signature1 0x18 /\ signature0 0x19 <> signature1 0x19 /\
  d signature0 = d signature1.
Proof.
  intros init d. split; [vm_compute; reflexivity|]. split.
  - intros (chars & Hl & Hd).
    apply (f_equal (@length Z)) in Hd. unfold d in Hd.
    rewrite bytes_from_length in Hd.
    unfold spec_string_descriptor in Hd. cbn [app length] in Hd.
    assert (Hf : forall l : list Z,
               length (flat_map (fun c => [c; 0]) l) = (2 * length l)%nat).
    { induction l as [|c l IH]; [reflexivity|].
      cbn [flat_map app length]. rewrite IH. lia. }
    rewrite Hf, Hl in Hd. discriminate.
  - split; [vm_compute; discriminate|].
    split; [vm_compute; discriminate|]. vm_compute. reflexivity.
Qed.
